(** * extract-LLM: the response-handling core, embedded and verified

    A shallow embedding of the parts of the pipeline that carry its
    failure-handling logic:

    - [helpers.py]             [estimate_tokens], [partial_json_salvage]
    - [api_interface.py]       [exponential_backoff], [call_api]
    - [job_extractor.py]       [clean_api_response]
    - [iterative_refiner.py]   [validate_section_limits],
                               [refine_section_via_llm], [refine_section]
    - [match_optimizer.py]     the four stages and [optimize_match]
    - [placeholder_matcher.py] [PlaceholderMatcher.pair_skills_by_length]

    Conventions of the embedding.

    - A Python [str] is a [string]; [len] is [String.length].
    - A Python dictionary keyed by strings or integers whose order is
      irrelevant is a [gmap]; a dictionary coming out of [json.loads] is an
      association list inside [py].
    - A function that may raise returns an [outcome]; functions that talk to
      the language model additionally thread a [World], the record of every
      call issued so far.
    - Python floats ([1.3], the tolerance, the backoff multiplier) are exact
      rationals; rounding and overflow of IEEE doubles are not represented.
    - [log_process] and [log_api_call] append to the audit sink and return;
      they have no counterpart here except where the [World] records a call.
    - What the standard library and the provider do ([json.loads],
      [json.dumps], [str], [random.choice], [call_litellm], the prompt file)
      is a field of the environment [Env]; every theorem holds for every
      environment. *)

From Stdlib Require Import ZArith QArith Qminmax Qpower String Ascii List Lia.
From stdpp Require Import gmap strings list sorting pretty.

Local Open Scope string_scope.
Local Open Scope Z_scope.

(* ===================================================================== *)
(** * Part I. The embedding                                               *)
(* ===================================================================== *)

(** ** Python string primitives *)

Module PyString.

Definition quote : ascii := "034"%char.
Definition apostrophe : ascii := "039"%char.
Definition newline : ascii := "010"%char.
Definition nl : string := String newline EmptyString.

(** [str.isspace] on one character, for the code points below 256. *)
Definition py_isspace (c : ascii) : bool :=
  let n := N_of_ascii c in
  ((9 <=? n) && (n <=? 13) || (28 <=? n) && (n <=? 32)
   || (n =? 133) || (n =? 160))%N.

Definition is_empty (s : string) : bool :=
  match s with EmptyString => true | String _ _ => false end.

Fixpoint lstrip (s : string) : string :=
  match s with
  | String c s' => if py_isspace c then lstrip s' else s
  | EmptyString => EmptyString
  end.

Fixpoint rstrip (s : string) : string :=
  match s with
  | String c s' =>
      let r := rstrip s' in
      if is_empty r && py_isspace c then EmptyString else String c r
  | EmptyString => EmptyString
  end.

(** [s.strip()] *)
Definition strip (s : string) : string := lstrip (rstrip s).

(** [s.split()]: the maximal runs of non-whitespace characters.  [cur] is
    the word being read. *)
Fixpoint split_whitespace_from (cur : string) (s : string) : list string :=
  match s with
  | EmptyString => if is_empty cur then [] else [cur]
  | String c s' =>
      if py_isspace c
      then (if is_empty cur then split_whitespace_from EmptyString s'
            else cur :: split_whitespace_from EmptyString s')
      else split_whitespace_from (cur +:+ String c EmptyString) s'
  end.

Definition split_whitespace (s : string) : list string :=
  split_whitespace_from EmptyString s.

(** [s.split(sep)] for a one-character separator: one more piece than
    there are separators, so the empty string gives one empty piece. *)
Fixpoint split_char (sep : ascii) (s : string) : list string :=
  match s with
  | EmptyString => [EmptyString]
  | String c s' =>
      if Ascii.eqb c sep then EmptyString :: split_char sep s'
      else match split_char sep s' with
           | w :: ws => String c w :: ws
           | [] => [String c EmptyString]
           end
  end.

(** [sep.join(l)] *)
Fixpoint join (sep : string) (l : list string) : string :=
  match l with
  | [] => EmptyString
  | [x] => x
  | x :: l' => x +:+ sep +:+ join sep l'
  end.

Fixpoint starts_with (p s : string) : bool :=
  match p, s with
  | EmptyString, _ => true
  | String a p', String b s' => Ascii.eqb a b && starts_with p' s'
  | String _ _, EmptyString => false
  end.

Fixpoint drop (n : nat) (s : string) : string :=
  match n, s with
  | O, _ => s
  | S n', String _ s' => drop n' s'
  | S _, EmptyString => EmptyString
  end.

Fixpoint take (n : nat) (s : string) : string :=
  match n, s with
  | S n', String c s' => String c (take n' s')
  | _, _ => EmptyString
  end.

(** [s.find(sub)]: the least index at which [sub] occurs, [None] for -1. *)
Fixpoint find (sub s : string) : option nat :=
  if starts_with sub s then Some O
  else match s with
       | EmptyString => None
       | String _ s' => S <$> find sub s'
       end.

(** [s.rfind(c)] for one character: the greatest index, [None] for -1. *)
Fixpoint rfind_char (c : ascii) (s : string) : option nat :=
  match s with
  | EmptyString => None
  | String a s' =>
      match rfind_char c s' with
      | Some i => Some (S i)
      | None => if Ascii.eqb a c then Some O else None
      end
  end.

(** [sub in s] *)
Definition contains (sub s : string) : bool := bool_decide (is_Some (find sub s)).

(** [s.split(sep, 1)]: the text before and after the first occurrence of
    [sep], or [s] alone when there is none. *)
Definition split_once (sep s : string) : list string :=
  match find sep s with
  | Some i => [take i s; drop (i + String.length sep) s]
  | None => [s]
  end.

(** [s[a:b]] for indices that are not negative. *)
Definition slice (a b : nat) (s : string) : string := take (b - a) (drop a s).

(** [s.replace(a, b)] for one-character [a] and [b]. *)
Fixpoint replace_char (a b : ascii) (s : string) : string :=
  match s with
  | EmptyString => EmptyString
  | String c s' => String (if Ascii.eqb c a then b else c) (replace_char a b s')
  end.

End PyString.

(** ** Python values, exceptions and outcomes *)

(** The values that cross the boundary with the model: what [json.loads]
    returns, plus an object with attributes for a structured envelope. *)
Inductive py : Type :=
| PyNone
| PyBool (b : bool)
| PyInt (n : Z)
| PyFloat (q : Q)
| PyStr (s : string)
| PyList (items : list py)
| PyDict (entries : list (string * py))
| PyObject (attrs : list (string * py)).

(** The exception classes the code raises or meets. *)
Inductive exn_class : Type :=
| APIInterfaceError
| RefinementError
| MatchOptimizerError
| PlaceholderError
| LLMError
| JSONDecodeError
| ValueError
| KeyError
| IndexError
| AttributeError
| TypeError
| ZeroDivisionError
| OSError.

(** An exception: its class, [str(e)], and the [__cause__] set by
    [raise ... from ...].  Every class above derives from [Exception], so an
    [except Exception] clause catches each of them. *)
Inductive exn : Type :=
| Exn (cls : exn_class) (msg : string) (cause : option exn).

Definition exn_cls (e : exn) : exn_class := let 'Exn c _ _ := e in c.
Definition exn_msg (e : exn) : string := let 'Exn _ m _ := e in m.

Definition is_class (c : exn_class) (e : exn) : bool :=
  match c, exn_cls e with
  | APIInterfaceError, APIInterfaceError | RefinementError, RefinementError
  | MatchOptimizerError, MatchOptimizerError | PlaceholderError, PlaceholderError
  | LLMError, LLMError | JSONDecodeError, JSONDecodeError
  | ValueError, ValueError | KeyError, KeyError | IndexError, IndexError
  | AttributeError, AttributeError | TypeError, TypeError
  | ZeroDivisionError, ZeroDivisionError | OSError, OSError => true
  (* json.JSONDecodeError is a subclass of ValueError *)
  | ValueError, JSONDecodeError => true
  | _, _ => false
  end.

(** What a call does: it returns a value or raises. *)
Inductive outcome (A : Type) : Type :=
| Returned (a : A)
| Raised (e : exn).
Arguments Returned {A} a.
Arguments Raised {A} e.

#[global] Instance outcome_ret : MRet outcome := fun A a => Returned a.
#[global] Instance outcome_bind : MBind outcome := fun A B k m =>
  match m with
  | Returned a => k a
  | Raised e => Raised e
  end.

(** [try: m except Exception as e: h e], for code that touches no world *)
Definition try_except_pure {A} (m : outcome A) (h : exn -> outcome A) : outcome A :=
  match m with
  | Returned a => Returned a
  | Raised e => h e
  end.

(** ** Dictionaries and attribute access on [py] values *)

Module PyDictOps.

(** [d[k] = v] on a dictionary kept in insertion order. *)
Fixpoint dict_set {V} (k : string) (v : V) (d : list (string * V)) : list (string * V) :=
  match d with
  | [] => [(k, v)]
  | (k', v') :: d' =>
      if String.eqb k' k then (k, v) :: d' else (k', v') :: dict_set k v d'
  end.

Fixpoint dict_lookup {V} (k : string) (d : list (string * V)) : option V :=
  match d with
  | [] => None
  | (k', v) :: d' => if String.eqb k' k then Some v else dict_lookup k d'
  end.

Definition dict_of_pairs {V} (l : list (string * V)) : list (string * V) :=
  fold_left (fun d kv => dict_set kv.1 kv.2 d) l [].

Definition type_name (v : py) : string :=
  match v with
  | PyNone => "NoneType" | PyBool _ => "bool" | PyInt _ => "int"
  | PyFloat _ => "float" | PyStr _ => "str" | PyList _ => "list"
  | PyDict _ => "dict" | PyObject _ => "object"
  end.

Definition no_attribute (v : py) (a : string) : exn :=
  Exn AttributeError ("'" +:+ type_name v +:+ "' object has no attribute '" +:+ a +:+ "'") None.

(** [hasattr(v, a)]: only an envelope object carries attributes of its own
    that the code asks for. *)
Definition hasattr (v : py) (a : string) : bool :=
  match v with
  | PyObject attrs => bool_decide (is_Some (dict_lookup a attrs))
  | _ => false
  end.

Definition getattr (v : py) (a : string) : outcome py :=
  match v with
  | PyObject attrs =>
      match dict_lookup a attrs with
      | Some x => Returned x
      | None => Raised (no_attribute v a)
      end
  | _ => Raised (no_attribute v a)
  end.

(** [v.items()] *)
Definition items (v : py) : outcome (list (string * py)) :=
  match v with
  | PyDict d => Returned d
  | _ => Raised (no_attribute v "items")
  end.

(** [v.get(k, default)] *)
Definition get (v : py) (k : string) (dflt : py) : outcome py :=
  match v with
  | PyDict d => Returned (default dflt (dict_lookup k d))
  | _ => Raised (no_attribute v "get")
  end.

End PyDictOps.

(** ** Configuration ([config_manager.CONFIG]) *)

(** The keys the embedded functions read.  A key that [config_manager.py]
    does not define, read with [CONFIG.get(key, default)], is an [option]. *)
Record Config : Type := {
  LLM_PROVIDER_LIST : string;
  API_MAX_ATTEMPTS : Z;
  API_INITIAL_DELAY : Z;
  API_MAX_DELAY : Z;
  API_BACKOFF_MULTIPLIER : Q;
  ALLOW_PARTIAL_JSON_PARSE : bool;
  MAX_OVERVIEW_CHARS : option Z;
  MAX_SKILL_CHARS : option Z;
  MAX_BULLET_CHARS : option Z;
  CONTENT_TOLERANCE : option Q;
  TOP_RESUME_COUNT : option Z
}.

(** [CONFIG] as [config_manager.py] builds it from an empty environment. *)
Definition default_CONFIG : Config := {|
  LLM_PROVIDER_LIST := "gpt-4,claude-2,llama-2";
  API_MAX_ATTEMPTS := 5;
  API_INITIAL_DELAY := 2;
  API_MAX_DELAY := 60;
  API_BACKOFF_MULTIPLIER := 2 # 1;
  ALLOW_PARTIAL_JSON_PARSE := false;
  MAX_OVERVIEW_CHARS := None;
  MAX_SKILL_CHARS := None;
  MAX_BULLET_CHARS := None;
  CONTENT_TOLERANCE := None;
  TOP_RESUME_COUNT := None
|}.

(** ** The environment and the world *)

(** A response object as [call_litellm] hands it to [call_api]. *)
Inductive llm_response : Type :=
| RespFalsy                                   (* [None], an empty string, ... *)
| RespChoices (contents : list (option string)) (* [.choices[i].message.content] *)
| RespOther (repr : string).                  (* anything else; [repr] is [str(response)] *)

(** One entry of [all_prompts.json]: its prompt template, as the function of
    the keyword arguments that [str.format] makes of it, and its system
    message. *)
Record prompt_entry : Type := {
  prompt_format : list (string * py) -> outcome string;
  system_message : string
}.

Record Env : Type := {
  CONFIG : Config;
  (** [call_litellm(prompt, system_message, model)], as the [n]-th call made *)
  call_litellm : nat -> string -> option string -> string -> outcome llm_response;
  (** [random.choice], as the [n]-th draw *)
  random_choice : nat -> list string -> string;
  json_loads : string -> outcome py;
  json_dumps : py -> string;
  py_str : py -> string;
  (** reading [STATIC_DATA/prompt_templates/all_prompts.json] *)
  all_prompts : outcome (string -> option prompt_entry)
}.

(** One logical request: the [request_data] that [call_api] builds, with
    the model it settled on. *)
Record api_request : Type := {
  req_prompt : string;
  req_system_message : string;
  req_model : string
}.

(** What has happened so far: the requests handed to [call_api], the
    attempts forwarded to [call_litellm] (with the model used), the delays
    slept between attempts, and the number of random draws. *)
Record World : Type := {
  api_calls : list api_request;
  attempts : list (string * option string * string);
  sleeps : list Q;
  draws : nat
}.

Definition initial_world : World :=
  {| api_calls := []; attempts := []; sleeps := []; draws := 0 |}.


(** Computations that raise and act on the world. *)
Definition M (A : Type) : Type := World -> outcome A * World.

#[global] Instance M_ret : MRet M := fun A a w => (Returned a, w).
#[global] Instance M_bind : MBind M := fun A B k m w =>
  match m w with
  | (Returned a, w') => k a w'
  | (Raised e, w') => (Raised e, w')
  end.

Definition raise {A} (e : exn) : M A := fun w => (Raised e, w).
Definition lift {A} (o : outcome A) : M A := fun w => (o, w).

(** [try: m except Exception as e: h e] *)
Definition try_except {A} (m : M A) (h : exn -> M A) : M A :=
  fun w => match m w with
           | (Returned a, w') => (Returned a, w')
           | (Raised e, w') => h e w'
           end.

(** ** helpers.py *)

Module Helpers.
Import PyString.

(** [int(x)] for a float [x]: truncation towards zero. *)
Definition py_int (q : Q) : Z := Z.quot (Qnum q) (Zpos (Qden q)).

(** [estimate_tokens]: [int(len(text.split()) * 1.3)] *)
Definition estimate_tokens (text : string) : Z :=
  let words := Z.of_nat (length (split_whitespace text)) in
  py_int (inject_Z words * (13 # 10)).

(** The longest prefix without a double quote, and what follows it: how
    the greedy negated character class of the pattern reads. *)
Fixpoint span_unquoted (s : string) : string * string :=
  match s with
  | EmptyString => (EmptyString, EmptyString)
  | String c s' =>
      if Ascii.eqb c quote then (EmptyString, s)
      else let '(p, r) := span_unquoted s' in (String c p, r)
  end.

(** A quoted, non-empty run at the head of [s]: the run and the rest. *)
Definition quoted_group (s : string) : option (string * string) :=
  match s with
  | String c s1 =>
      if Ascii.eqb c quote then
        match span_unquoted s1 with
        | (String k ks, String _ rest) => Some (String k ks, rest)
        | _ => None
        end
      else None
  | EmptyString => None
  end.

(** One match of the pattern anchored at the head of [s]: a quoted
    non-empty key, optional whitespace, a colon, optional whitespace, a
    quoted non-empty value.  Returns the two groups and the text after
    the match. *)
Definition match_pair (s : string) : option (string * string * string) :=
  '(key, s1) ← quoted_group s;
  match lstrip s1 with
  | String c s2 =>
      if Ascii.eqb c ":"%char then
        '(value, rest) ← quoted_group (lstrip s2);
        Some (key, value, rest)
      else None
  | EmptyString => None
  end.

(** [re.findall] for that pattern: leftmost matches, not overlapping.
    [fuel] bounds the number of positions visited. *)
Fixpoint findall_pairs (fuel : nat) (s : string) : list (string * string) :=
  match fuel with
  | O => []
  | S fuel' =>
      match match_pair s with
      | Some (key, value, rest) => (key, value) :: findall_pairs fuel' rest
      | None =>
          match s with
          | EmptyString => []
          | String _ s' => findall_pairs fuel' s'
          end
      end
  end.

Definition salvage_failed : exn :=
  Exn ValueError "Partial JSON salvage failed; no key-value pairs found." None.

(** [partial_json_salvage] *)
Definition partial_json_salvage (raw_text : string) : outcome py :=
  let pairs := findall_pairs (S (String.length raw_text)) raw_text in
  let salvaged :=
    fold_left (fun d kv => PyDictOps.dict_set kv.1 (PyStr kv.2) d) pairs [] in
  match salvaged with
  | [] => Raised salvage_failed
  | _ => Returned (PyDict salvaged)
  end.

End Helpers.

(** ** api_interface.py *)

Module ApiInterface.
Import PyString.

(** [min(a, b)] *)
Definition py_min (a b : Q) : Q := if Qle_bool a b then a else b.

(** [exponential_backoff].  The power of a zero multiplier to a negative
    exponent is the one way the expression can raise. *)
Definition exponential_backoff (cfg : Config) (attempt : Z) : outcome Q :=
  let initial_delay := API_INITIAL_DELAY cfg in
  let max_delay := API_MAX_DELAY cfg in
  let multiplier := API_BACKOFF_MULTIPLIER cfg in
  if Qeq_bool multiplier 0 && (attempt - 1 <? 0)
  then Raised (Exn ZeroDivisionError "0.0 cannot be raised to a negative power" None)
  else
    let delay := (inject_Z initial_delay * Qpower multiplier (attempt - 1))%Q in
    Returned (py_min delay (inject_Z max_delay)).

Definition empty_response : exn :=
  Exn APIInterfaceError "Empty API response" None.

(** The body of the [try] once [call_litellm] has answered: the emptiness
    check and the extraction of the content. *)
Definition extract_content (answer : outcome llm_response) : outcome (option string) :=
  response ← answer;
  match response with
  | RespFalsy => Raised empty_response
  | RespChoices [] => Raised (Exn IndexError "list index out of range" None)
  | RespChoices (content :: _) => Returned content
  | RespOther repr => Returned (Some repr)
  end.

Definition exhausted (max_attempts : Z) (e : exn) : exn :=
  Exn APIInterfaceError
      ("API call failed after " +:+ pretty max_attempts
       +:+ " attempts. Last error: " +:+ exn_msg e)
      (Some e).

Section with_env.
Context (E : Env).

(** One attempt: the call is recorded, then issued. *)
Definition issue_attempt (prompt : string) (system_message : option string)
    (model : string) : M (option string) :=
  fun w =>
    let answer := call_litellm E (length (attempts w)) prompt system_message model in
    (extract_content answer,
     {| api_calls := api_calls w;
        attempts := attempts w ++ [(prompt, system_message, model)];
        sleeps := sleeps w;
        draws := draws w |}).

(** [time.sleep(delay)] *)
Definition sleep (delay : Q) : M unit :=
  fun w => (Returned tt,
            {| api_calls := api_calls w; attempts := attempts w;
               sleeps := sleeps w ++ [delay]; draws := draws w |}).

(** [random.choice(CONFIG["LLM_PROVIDER_LIST"].split(",")).strip()], as
    the [n]-th draw *)
Definition provider_drawn (n : nat) : string :=
  let providers := split_char ","%char (LLM_PROVIDER_LIST (CONFIG E)) in
  strip (random_choice E n providers).

Definition choose_provider : M string :=
  fun w =>
    (Returned (provider_drawn (draws w)),
     {| api_calls := api_calls w; attempts := attempts w;
        sleeps := sleeps w; draws := S (draws w) |}).

(** The entry of the audit trail that opens a logical call, written once
    the model is settled and before the first attempt. *)
Definition record_call (r : api_request) : M unit :=
  fun w => (Returned tt,
            {| api_calls := api_calls w ++ [r]; attempts := attempts w;
               sleeps := sleeps w; draws := draws w |}).

(** The [while attempt <= max_attempts] loop.  Every pass that does not
    leave the loop increments [attempt], so [fuel] passes suffice when
    [fuel] is at least [max_attempts - attempt + 1]; falling out of the
    loop returns [None]. *)
Fixpoint call_api_loop (fuel : nat) (attempt : Z) (prompt : string)
    (system_message : option string) (model : string) : M (option string) :=
  let max_attempts := API_MAX_ATTEMPTS (CONFIG E) in
  match fuel with
  | O => mret None
  | S fuel' =>
      if attempt <=? max_attempts then
        try_except
          (issue_attempt prompt system_message model)
          (fun e =>
             if attempt <? max_attempts then
               delay ← lift (exponential_backoff (CONFIG E) attempt);
               sleep delay;;
               call_api_loop fuel' (attempt + 1) prompt system_message model
             else raise (exhausted max_attempts e))
      else mret None
  end.

(** [if not model: model = random.choice(...).strip()] *)
Definition resolve_model (model : option string) : M string :=
  match model with
  | Some m => if is_empty m then choose_provider else mret m
  | None => choose_provider
  end.

(** The model the attempts of a call started in world [w] go to. *)
Definition model_used (model : option string) (w : World) : string :=
  match model with
  | Some m => if is_empty m then provider_drawn (draws w) else m
  | None => provider_drawn (draws w)
  end.


(** [call_api] *)
Definition call_api (prompt : string) (system_message : option string)
    (model : option string) : M (option string) :=
  let max_attempts := API_MAX_ATTEMPTS (CONFIG E) in
  model ← resolve_model model;
  record_call {| req_prompt := prompt;
                 req_system_message := default EmptyString system_message;
                 req_model := model |};;
  call_api_loop (Z.to_nat max_attempts) 1 prompt system_message model.

End with_env.
End ApiInterface.

(** ** job_extractor.py *)

Module JobExtractor.
Import PyString PyDictOps Helpers.

Definition required_fields : list string :=
  ["Title"; "Company Name"; "Location"; "field"; "Salary"; "posting_date";
   "cleaned_description"].

Definition default_data : gmap string string :=
  list_to_map ((fun k => (k, "UNKNOWN")) <$> required_fields).

(** [l[i]] *)
Definition index (l : list string) (i : nat) : outcome string :=
  match l !! i with
  | Some x => Returned x
  | None => Raised (Exn IndexError "list index out of range" None)
  end.

(** The interior of the first fenced block, when there is a fence. *)
Definition strip_fence (response : string) : outcome string :=
  if contains "```json" response then
    after ← index (split_once "```json" response) 1;
    index (split_once "```" after) 0
  else if contains "```" response then
    after ← index (split_once "```" response) 1;
    index (split_once "```" after) 0
  else Returned response.

(** From the first opening brace to the last closing brace, when both
    exist. *)
Definition brace_span (response : string) : string :=
  match find "{" response, rfind_char "}"%char response with
  | Some start_idx, Some end_idx => slice start_idx (end_idx + 1) response
  | _, _ => response
  end.

(** [if hasattr(response, 'content'): response = response.content] *)
Definition unwrap (response : py) : outcome py :=
  if hasattr response "content" then getattr response "content"
  else Returned response.

(** The text handed to [json.loads]: fence stripped, sliced to the brace
    span, trimmed, apostrophes turned into double quotes. *)
Definition normalize_text (response : string) : outcome string :=
  response ← strip_fence response;
  let response := brace_span response in
  Returned (replace_char apostrophe quote (strip response)).

Section with_env.
Context (E : Env).

(** The [isinstance(response, str)] branch. *)
Definition parse_text (response : string) : outcome py :=
  response ← normalize_text response;
  try_except_pure (json_loads E response)
    (fun e =>
       if is_class JSONDecodeError e then
         if ALLOW_PARTIAL_JSON_PARSE (CONFIG E)
         then partial_json_salvage response
         else Raised e
       else Raised e).

(** The dictionary comprehension: the entries of [parsed] whose key is
    a required field, with their value passed through [str]. *)
Definition schema_entries (entries : list (string * py)) : list (string * string) :=
  dict_of_pairs
    ((fun kv => (kv.1, py_str E kv.2))
       <$> filter (fun kv => kv.1 ∈ dom default_data) entries).

(** [result.update(d)] *)
Definition update (result : gmap string string) (d : list (string * string))
  : gmap string string :=
  fold_left (fun m kv => <[kv.1 := kv.2]> m) d result.

(** [clean_api_response] *)
Definition clean_api_response (response : py) : outcome (gmap string string) :=
  try_except_pure
    (response ← unwrap response;
     parsed ← match response with
               | PyStr s => parse_text s
               | _ => Returned response
               end;
     entries ← items parsed;
     let result := default_data in
     Returned (update result (schema_entries entries)))
    (fun _ => Returned default_data).

End with_env.
End JobExtractor.

(** ** iterative_refiner.py *)

Module IterativeRefiner.
Import PyString PyDictOps Helpers ApiInterface.

Record Limits : Type := {
  max_chars : Z;
  max_words : Z;
  max_tokens : Z;
  tolerance : Q
}.

(** [validate_section_limits] *)
Definition validate_section_limits (cfg : Config) (section_name : string)
  : outcome Limits :=
  try_except_pure
    (max_chars ←
       (if String.eqb section_name "overview"
        then Returned (default 500 (MAX_OVERVIEW_CHARS cfg))
        else if starts_with "skill" section_name
        then Returned (default 50 (MAX_SKILL_CHARS cfg))
        else if starts_with "bullet" section_name
        then Returned (default 200 (MAX_BULLET_CHARS cfg))
        else Raised (Exn RefinementError
                         ("Unknown section type: " +:+ section_name) None));
     Returned {| max_chars := max_chars;
                 max_words := max_chars `div` 5;
                 max_tokens := max_chars `div` 4;
                 tolerance := default (1 # 10) (CONTENT_TOLERANCE cfg) |})
    (fun e => Raised (Exn RefinementError
                          ("Failed to get limits for " +:+ section_name
                           +:+ ": " +:+ exn_msg e) None)).

(** The acceptance test at the head of each pass of the loop. *)
Definition within_limits (limits : Limits) (text : string) : bool :=
  let char_count := Z.of_nat (String.length text) in
  let word_count := Z.of_nat (length (split_whitespace text)) in
  let token_count := estimate_tokens text in
  let max_chars := (inject_Z (max_chars limits) * (1 + tolerance limits))%Q in
  Qle_bool (inject_Z char_count) max_chars
  && (word_count <=? max_words limits)
  && (token_count <=? max_tokens limits).

Definition refinement_failed (e : exn) : exn :=
  Exn RefinementError ("Failed to refine section: " +:+ exn_msg e) None.

Definition missing_key (k : string) : exn :=
  Exn KeyError ("'" +:+ k +:+ "'") None.

Section with_env.
Context (E : Env).

(** [prompts[name]] after reading the prompt file. *)
Definition load_prompt (name : string) : outcome prompt_entry :=
  prompts ← all_prompts E;
  match prompts name with
  | Some entry => Returned entry
  | None => Raised (missing_key name)
  end.

(** [refine_section_via_llm] *)
Definition refine_section_via_llm (section_text : string)
    (reduction_percentage : Z) (section_name : string) : M string :=
  try_except
    (entry ← lift (load_prompt "section_reduction_prompt");
     prompt ← lift (prompt_format entry
                      [("section_name", PyStr section_name);
                       ("reduction_percentage", PyInt reduction_percentage);
                       ("text", PyStr section_text)]);
     result ← call_api E prompt (Some (system_message entry)) None;
     match result with
     | Some s =>
         if is_empty s
         then raise (Exn RefinementError "Empty API response" None)
         else mret (strip s)
     | None => raise (Exn RefinementError "Empty API response" None)
     end)
    (fun e => raise (refinement_failed e)).

(** The [while iteration < max_iterations] loop; it yields the text and
    the iteration count it stops with.  Every pass that goes on
    increments [iteration], so [fuel] passes suffice when [fuel] is at
    least [max_iterations - iteration]. *)
Fixpoint refine_loop (fuel : nat) (limits : Limits) (section_name : string)
    (max_iterations : Z) (text : string) (iteration : Z) : M (string * Z) :=
  match fuel with
  | O => mret (text, iteration)
  | S fuel' =>
      if iteration <? max_iterations then
        if within_limits limits text then mret (text, iteration)
        else
          let reduction := 10 * (iteration + 1) in
          refined_text ← refine_section_via_llm text reduction section_name;
          refine_loop fuel' limits section_name max_iterations
                      refined_text (iteration + 1)
      else mret (text, iteration)
  end.

(** [k] consecutive passes of the loop, from iteration [i] to iteration
    [j]: each finds the text outside the limits and obtains a shorter
    one from the model. *)
Inductive shrink_steps (limits : Limits) (section_name : string)
  : Z -> string -> World -> Z -> string -> World -> Prop :=
| shrink_done i text w :
    shrink_steps limits section_name i text w i text w
| shrink_more i text w refined w1 j text' w' :
    within_limits limits text = false ->
    refine_section_via_llm text (10 * (i + 1)) section_name w
      = (Returned refined, w1) ->
    shrink_steps limits section_name (i + 1) refined w1 j text' w' ->
    shrink_steps limits section_name i text w j text' w'.

(** The summarization fallback: the body of [if iteration >= max_iterations]. *)
Definition summarize (limits : Limits) (section_name original_text : string)
  : M string :=
  entry ← lift (load_prompt "section_summarization_prompt");
  prompt ← lift (prompt_format entry
                   [("section_name", PyStr section_name);
                    ("max_chars", PyInt (max_chars limits));
                    ("text", PyStr original_text)]);
  result ← call_api E prompt (Some (system_message entry)) None;
  match result with
  | Some s => mret (strip s)
  | None => raise (no_attribute PyNone "strip")
  end.

(** [refine_section] *)
Definition refine_section (text : string) (section_name : string)
    (max_iterations : Z) : M string :=
  try_except
    (limits ← lift (validate_section_limits (CONFIG E) section_name);
     let original_text := text in
     '(text, iteration) ←
        refine_loop (Z.to_nat max_iterations) limits section_name
                    max_iterations text 0;
     if iteration >=? max_iterations
     then summarize limits section_name original_text
     else mret text)
    (fun e => raise (refinement_failed e)).

(** The signature's defaults. *)
Definition default_section_name : string := "section".
Definition default_max_iterations : Z := 2.

(** [refine_section(v, section_name)] for a value that [json.loads]
    produced, which need not be a [str]: the first pass of the loop
    calls [len] and [split] on it. *)
Definition refine_section_value (v : py) (section_name : string) : M string :=
  match v with
  | PyStr s => refine_section s section_name default_max_iterations
  | _ =>
      try_except
        (_ ← lift (validate_section_limits (CONFIG E) section_name);
         match v with
         | PyList _ | PyDict _ => raise (no_attribute v "split")
         | _ => raise (Exn TypeError
                           ("object of type '" +:+ type_name v
                            +:+ "' has no len()") None)
         end)
        (fun e => raise (refinement_failed e))
  end.

End with_env.
End IterativeRefiner.

(** ** Built-ins shared by the two remaining modules *)

Module PyBuiltins.

(** [sorted(l, key=..., reverse=True)]: a stable sort into descending
    order.  [lt x y] compares the keys of [x] and [y]; an element keeps
    its place before the elements with an equal key that followed it. *)
Fixpoint insert_desc {A} (lt : A -> A -> bool) (x : A) (l : list A) : list A :=
  match l with
  | [] => [x]
  | y :: l' => if lt x y then y :: insert_desc lt x l' else x :: y :: l'
  end.

Definition sorted_reverse {A} (lt : A -> A -> bool) (l : list A) : list A :=
  foldr (insert_desc lt) [] l.

(** [l[:n]] *)
Definition slice_to {A} (n : Z) (l : list A) : list A :=
  if 0 <=? n then take (Z.to_nat n) l
  else take (length l - Z.to_nat (- n)) l.

End PyBuiltins.

(** ** match_optimizer.py *)

Module MatchOptimizer.
Import PyString PyDictOps PyBuiltins ApiInterface IterativeRefiner.

Record JobData : Type := {
  jid : string;
  title : string;
  company : string;
  location : string;
  field : string;
  cleaned_description : string;
  posting_date : string
}.

(** The resume records the stages read, at their schema. *)
Record Bullet : Type := {
  bolded_overview : string;
  description : string
}.

Record JobEntry : Type := { bullets : list Bullet }.

Record Resume : Type := {
  objective : string;
  usage_count : Z;
  skills_list : list string;
  jobs_section : list JobEntry
}.

(** The dictionary [optimize_match] returns. *)
Record OptimizedMatch : Type := {
  new_objective : string;
  optimized_skills : string;
  optimized_bullets : list py;              (* under the key "bullets" *)
  job_match_evaluation : list (string * py);
  job_json : JobData
}.

Definition optimizer_error (msg : string) : exn := Exn MatchOptimizerError msg None.

(** The sort key of [select_top_resumes], compared as tuples. *)
Definition resume_key_lt (a b : Resume) : bool :=
  let la := Z.of_nat (length (skills_list a)) in
  let lb := Z.of_nat (length (skills_list b)) in
  let ja := Z.of_nat (length (jobs_section a)) in
  let jb := Z.of_nat (length (jobs_section b)) in
  (usage_count a <? usage_count b)
  || (usage_count a =? usage_count b)
     && ((la <? lb) || (la =? lb) && (ja <? jb)).

(** [select_top_resumes] with [top_n] left to its default.  On records of
    this type no key comparison can raise, so the [except] branch of the
    source, which returns the unsorted prefix, is never taken. *)
Definition select_top_resumes (cfg : Config) (resumes : list Resume) : list Resume :=
  let top_n := default 5 (TOP_RESUME_COUNT cfg) in
  slice_to top_n (sorted_reverse resume_key_lt resumes).

(** The prompt of the skills stage. *)
Definition skills_prompt (skills : list string) (job_description : string) : string :=
  join nl
    ["Select exactly 10 most relevant skills for this job:";
     EmptyString;
     "Job Description:";
     job_description;
     EmptyString;
     "Available Skills:";
     join ", " skills;
     EmptyString;
     "Return as comma-separated list."].

Definition count_mismatch (n : nat) : exn :=
  optimizer_error ("Expected 10 skills, got " +:+ pretty n).

Section with_env.
Context (E : Env).

(** The three lines every stage shares: split the provider list, draw
    one, and call the model with it. *)
Definition ask (prompt system_message : string) : M (option string) :=
  chosen_provider ← choose_provider E;
  call_api E prompt (Some system_message) (Some chosen_provider).

(** [optimize_objective] *)
Definition optimize_objective (objectives : list string) (job_description : string)
  : M string :=
  try_except
    (let combined :=
       join nl (strip <$> filter (fun obj => obj ≠ EmptyString) objectives) in
     if is_empty combined
     then raise (optimizer_error "No objective statements found")
     else
       let prompt :=
         "Create a tailored overview statement for this job:" +:+ nl +:+ nl
         +:+ "Job Description:" +:+ nl +:+ job_description +:+ nl +:+ nl
         +:+ "Existing Statements:" +:+ nl +:+ combined in
       result ← ask prompt "Return a concise, impactful overview statement.";
       match result with
       | Some s =>
           if is_empty s then raise (optimizer_error "Empty API response")
           else refine_section E s "overview" default_max_iterations
       | None => raise (optimizer_error "Empty API response")
       end)
    (fun e => raise (optimizer_error ("Failed to optimize objective: " +:+ exn_msg e))).

(** [optimize_skills] *)
Definition optimize_skills (skills : list string) (job_description : string)
  : M string :=
  try_except
    (match skills with
     | [] => raise (optimizer_error "No skills found")
     | _ =>
       let prompt := skills_prompt skills job_description in
       result ← ask prompt "Return exactly 10 comma-separated skills.";
       match result with
       | Some s =>
           if is_empty s then raise (optimizer_error "Empty API response")
           else
             let skill_list := strip <$> split_char ","%char s in
             if bool_decide (length skill_list ≠ 10%nat)
             then raise (count_mismatch (length skill_list))
             else mret (join ", " skill_list)
       | None => raise (optimizer_error "Empty API response")
       end
     end)
    (fun e => raise (optimizer_error ("Failed to optimize skills: " +:+ exn_msg e))).

(** One pass of the [for bullet in optimized] loop: both fields are
    read with a default, refined, and written back. *)
Definition refine_bullet (bullet : py) : M py :=
  overview ← lift (get bullet "bolded_overview" (PyStr EmptyString));
  overview ← refine_section_value E overview "bullet_overview";
  match bullet with
  | PyDict d =>
      let d := dict_set "bolded_overview" (PyStr overview) d in
      text ← lift (get (PyDict d) "description" (PyStr EmptyString));
      text ← refine_section_value E text "bullet_description";
      mret (PyDict (dict_set "description" (PyStr text) d))
  | _ => raise (no_attribute bullet "get")
  end.

Fixpoint refine_bullets (optimized : list py) : M (list py) :=
  match optimized with
  | [] => mret []
  | bullet :: rest =>
      bullet ← refine_bullet bullet;
      rest ← refine_bullets rest;
      mret (bullet :: rest)
  end.

(** [optimize_bullets] *)
Definition optimize_bullets (bullets : list Bullet) (job_description : string)
  : M (list py) :=
  try_except
    (match bullets with
     | [] => raise (optimizer_error "No bullet points found")
     | _ =>
       let bullet_text :=
         join nl ((fun b => "• " +:+ bolded_overview b +:+ ": " +:+ description b)
                    <$> bullets) in
       let prompt :=
         join nl
           ["Optimize these bullet points for the job:";
            EmptyString;
            "Job Description:";
            job_description;
            EmptyString;
            "Bullet Points:";
            bullet_text;
            EmptyString;
            "Return as JSON array with 'bolded_overview' and 'description' for each bullet."] in
       result ← ask prompt "Return JSON array of bullet objects.";
       match result with
       | Some s =>
           if is_empty s then raise (optimizer_error "Empty API response")
           else
             optimized ← lift (json_loads E s);
             match optimized with
             | PyList items => refine_bullets items
             | _ => raise (optimizer_error "Invalid response format")
             end
       | None => raise (optimizer_error "Empty API response")
       end
     end)
    (fun e => raise (optimizer_error ("Failed to optimize bullets: " +:+ exn_msg e))).

(** The first of the required keys that [evaluation] lacks. *)
Definition missing_field (evaluation : list (string * py)) : option string :=
  List.find (fun key => bool_decide (dict_lookup key evaluation = None))
            ["match_rating"; "explanation"].

(** [evaluate_match] *)
Definition evaluate_match (objective skills : string) (bullets : list py)
    (job_description : string) : M (list (string * py)) :=
  try_except
    (let content_text :=
       join nl
         ["Objective:"; objective; EmptyString;
          "Skills:"; skills; EmptyString;
          "Experience:"; json_dumps E (PyList bullets)] in
     let prompt :=
       join nl
         ["Evaluate the match between this resume and the job:";
          EmptyString;
          "Job Description:";
          job_description;
          EmptyString;
          "Resume Content:";
          content_text;
          EmptyString;
          "Return JSON with:";
          "- match_rating (0-100)";
          "- explanation (detailed analysis)"] in
     result ← ask prompt "Return JSON with match_rating and explanation.";
     match result with
     | Some s =>
         if is_empty s then raise (optimizer_error "Empty API response")
         else
           evaluation ← lift (json_loads E s);
           match evaluation with
           | PyDict d =>
               match missing_field d with
               | Some key => raise (optimizer_error ("Missing field: " +:+ key))
               | None => mret d
               end
           | _ => raise (optimizer_error "Invalid response format")
           end
     | None => raise (optimizer_error "Empty API response")
     end)
    (fun e => raise (optimizer_error ("Failed to evaluate match: " +:+ exn_msg e))).

(** The bundle [b] is made of the results of the four stages, run in
    order from world [w] to world [w'], each of which returned. *)
Definition staged (all_resumes : list Resume) (job_data : JobData)
    (b : OptimizedMatch) (w w' : World) : Prop :=
  let top_resumes := select_top_resumes (CONFIG E) all_resumes in
  let job_description := cleaned_description job_data in
  exists w1 w2 w3,
    optimize_objective (objective <$> top_resumes) job_description w
      = (Returned (new_objective b), w1)
    /\ optimize_skills (top_resumes ≫= skills_list) job_description w1
      = (Returned (optimized_skills b), w2)
    /\ optimize_bullets (top_resumes ≫= (fun r => jobs_section r ≫= bullets))
                        job_description w2
      = (Returned (optimized_bullets b), w3)
    /\ evaluate_match (new_objective b) (optimized_skills b) (optimized_bullets b)
                      job_description w3
      = (Returned (job_match_evaluation b), w').

(** The body of [optimize_match] once the resume records are at hand. *)
Definition optimize_match_from (all_resumes : list Resume) (job_data : JobData)
  : M (option OptimizedMatch) :=
  try_except
    (match all_resumes with
     | [] => raise (optimizer_error "No resume data available for optimization")
     | _ =>
       let top_resumes := select_top_resumes (CONFIG E) all_resumes in
       let objectives := objective <$> top_resumes in
       let skills := top_resumes ≫= skills_list in
       let bullets := top_resumes ≫= (fun r => jobs_section r ≫= bullets) in
       new_objective ← optimize_objective objectives (cleaned_description job_data);
       new_skills ← optimize_skills skills (cleaned_description job_data);
       new_bullets ← optimize_bullets bullets (cleaned_description job_data);
       evaluation ← evaluate_match new_objective new_skills new_bullets
                      (cleaned_description job_data);
       mret (Some {| new_objective := new_objective;
                     optimized_skills := new_skills;
                     optimized_bullets := new_bullets;
                     job_match_evaluation := evaluation;
                     job_json := job_data |})
     end)
    (fun _ => mret None).

(** The list the source binds [all_resumes] to. *)
Definition all_resumes : list Resume := [].

(** [optimize_match] *)
Definition optimize_match (job_data : JobData) : M (option OptimizedMatch) :=
  optimize_match_from all_resumes job_data.

End with_env.
End MatchOptimizer.

(** ** placeholder_matcher.py *)

Module PlaceholderMatcher.
Import PyBuiltins.

(** An element of [skills_list]: [(num, text, placeholder)]. *)
Record Slot : Type := {
  slot_num : Z;
  slot_text : string;
  slot_placeholder : string
}.

(** [(placeholder1, skill1, placeholder2, skill2)] *)
Definition SkillPair : Type := string * string * string * string.

Definition key_error (num : Z) : exn := Exn KeyError (pretty num) None.

(** [len(x[1])] compared for two slots. *)
Definition shorter (x y : Slot) : bool :=
  (String.length (slot_text x) <? String.length (slot_text y))%nat.

(** The list comprehension over [sorted(skills_dict.keys())]. *)
Definition skills_list (skills_dict skills_texts : gmap Z string)
  : outcome (list Slot) :=
  mapM (fun num =>
          match skills_dict !! num with
          | Some placeholder =>
              Returned {| slot_num := num;
                          slot_text := default EmptyString (skills_texts !! num);
                          slot_placeholder := placeholder |}
          | None => Raised (key_error num)
          end)
       (merge_sort Z.le (elements (dom skills_dict))).

(** [l[i]] *)
Definition index (l : list Slot) (i : nat) : outcome Slot :=
  match l !! i with
  | Some x => Returned x
  | None => Raised (Exn IndexError "list index out of range" None)
  end.

Definition render (first last : Slot) : SkillPair :=
  (slot_placeholder first, slot_text first, slot_placeholder last, slot_text last).

(** One pass of [for i in range(n // 2)]. *)
Definition pair_at (sorted_skills : list Slot) (n i : nat) : outcome SkillPair :=
  first ← index sorted_skills i;
  last ← index sorted_skills (n - 1 - i);
  Returned (render first last).

(** The local [sorted_skills]: the slots by descending length of text. *)
Definition sorted_skills (skills_dict skills_texts : gmap Z string)
  : outcome (list Slot) :=
  skills_list ← skills_list skills_dict skills_texts;
  Returned (sorted_reverse shorter skills_list).

(** [PlaceholderMatcher.pair_skills_by_length] *)
Definition pair_skills_by_length (skills_dict skills_texts : gmap Z string)
  : outcome (list SkillPair) :=
  try_except_pure
    (sorted_skills ← sorted_skills skills_dict skills_texts;
     let n := length sorted_skills in
     mapM (pair_at sorted_skills n) (seq 0 (n / 2)))
    (fun e => Raised (Exn PlaceholderError
                          ("Failed to pair skills: " +:+ exn_msg e) None)).


(** The slot of the key [num], for a key of [skills_dict]. *)
Definition slot_of (skills_dict skills_texts : gmap Z string) (num : Z) : Slot :=
  {| slot_num := num;
     slot_text := default EmptyString (skills_texts !! num);
     slot_placeholder := default EmptyString (skills_dict !! num) |}.


End PlaceholderMatcher.

(** ** Sample environments

    Concrete instances of [Env] on which the functions above can be run. *)

Module Samples.
Import PyString.

Definition quoted (s : string) : string :=
  String quote s +:+ String quote EmptyString.

(** [str] on the scalars that occur in the samples. *)
Definition sample_str (v : py) : string :=
  match v with
  | PyStr s => s
  | PyInt n => pretty n
  | PyNone => "None"
  | PyBool true => "True"
  | PyBool false => "False"
  | _ => "..."
  end.

Definition decode_error : exn :=
  Exn JSONDecodeError "Expecting value: line 1 column 1 (char 0)" None.

(** A decoder that knows the documents listed in [known]. *)
Definition decoder (known : list (string * py)) (s : string) : outcome py :=
  match PyDictOps.dict_lookup s known with
  | Some v => Returned v
  | None => Raised decode_error
  end.

Definition reduction_entry : prompt_entry :=
  {| prompt_format := fun kw =>
       Returned ("Reduce by "
                 +:+ sample_str (default PyNone (PyDictOps.dict_lookup "reduction_percentage" kw))
                 +:+ "%: "
                 +:+ sample_str (default PyNone (PyDictOps.dict_lookup "text" kw)));
     system_message := "You shorten text." |}.

Definition summarization_entry : prompt_entry :=
  {| prompt_format := fun kw =>
       Returned ("Summarize in "
                 +:+ sample_str (default PyNone (PyDictOps.dict_lookup "max_chars" kw))
                 +:+ " characters: "
                 +:+ sample_str (default PyNone (PyDictOps.dict_lookup "text" kw)));
     system_message := "You summarize text." |}.

Definition prompt_file (name : string) : option prompt_entry :=
  if String.eqb name "section_reduction_prompt" then Some reduction_entry
  else if String.eqb name "section_summarization_prompt" then Some summarization_entry
  else None.

Definition connection_refused : exn :=
  Exn LLMError "LiteLLM call failed: connection refused" None.

(** An environment whose provider answers the [n]-th call with
    [answers n], decoding JSON with [decoder known]. *)
Definition env_with (cfg : Config) (known : list (string * py))
    (answers : nat -> outcome llm_response) : Env :=
  {| CONFIG := cfg;
     call_litellm := fun n _ _ _ => answers n;
     random_choice := fun _ l => List.hd EmptyString l;
     json_loads := decoder known;
     json_dumps := fun _ => "[...]";
     py_str := sample_str;
     all_prompts := Returned prompt_file |}.

(** The provider is down. *)
Definition provider_down : Env :=
  env_with default_CONFIG [] (fun _ => Raised connection_refused).

(** The provider fails twice, then answers. *)
Definition provider_flaky : Env :=
  env_with default_CONFIG []
    (fun n => if (n <? 2)%nat then Raised connection_refused
              else Returned (RespChoices [Some "  shorter text  "])).

(** The provider answers every call with the same text. *)
Definition provider_says (cfg : Config) (known : list (string * py))
    (text : string) : Env :=
  env_with cfg known (fun _ => Returned (RespOther text)).

(** A model answer wrapped in prose and a fence, and its decoding. *)
Definition engineer_json : string :=
  "{" +:+ quoted "Title" +:+ ": " +:+ quoted "Engineer" +:+ ", "
      +:+ quoted "Level" +:+ ": " +:+ quoted "Senior" +:+ "}".

Definition engineer_raw : string :=
  "Here is the result:" +:+ nl +:+ "```json" +:+ nl +:+ engineer_json
  +:+ nl +:+ "```".

Definition engineer_env : Env :=
  provider_says default_CONFIG
    [(engineer_json,
      PyDict [("Title", PyStr "Engineer"); ("Level", PyStr "Senior")])]
    "unused".

(** The same settings with partial JSON salvage switched on. *)
Definition salvaging_CONFIG : Config :=
  {| LLM_PROVIDER_LIST := LLM_PROVIDER_LIST default_CONFIG;
     API_MAX_ATTEMPTS := API_MAX_ATTEMPTS default_CONFIG;
     API_INITIAL_DELAY := API_INITIAL_DELAY default_CONFIG;
     API_MAX_DELAY := API_MAX_DELAY default_CONFIG;
     API_BACKOFF_MULTIPLIER := API_BACKOFF_MULTIPLIER default_CONFIG;
     ALLOW_PARTIAL_JSON_PARSE := true;
     MAX_OVERVIEW_CHARS := None; MAX_SKILL_CHARS := None;
     MAX_BULLET_CHARS := None; CONTENT_TOLERANCE := None;
     TOP_RESUME_COUNT := None |}.

Definition salvaging_env : Env := provider_says salvaging_CONFIG [] "unused".

(** Texts for the refinement loop: one inside the overview budget, one
    outside the skill budget, and an answer that is itself too long. *)
Definition short_text : string := "Short text.".

Definition long_text : string :=
  "Extensive experience designing and operating distributed data pipelines".

Definition long_answer : string :=
  "Designing and operating distributed data pipelines at scale every day".

Definition wordy_provider : Env := provider_says default_CONFIG [] long_answer.

Definition skill_limits : IterativeRefiner.Limits :=
  {| IterativeRefiner.max_chars := 50;
     IterativeRefiner.max_words := 10;
     IterativeRefiner.max_tokens := 12;
     IterativeRefiner.tolerance := 1 # 10 |}.

Definition overview_limits : IterativeRefiner.Limits :=
  {| IterativeRefiner.max_chars := 500;
     IterativeRefiner.max_words := 100;
     IterativeRefiner.max_tokens := 125;
     IterativeRefiner.tolerance := 1 # 10 |}.

(** The skills stage: a pool of candidates and an answer of ten items. *)
Definition ten_skills : string := "a,b, c,d,e,f,g,h,i,j".
Definition skills_provider : Env := provider_says default_CONFIG [] ten_skills.

Definition job : MatchOptimizer.JobData :=
  {| MatchOptimizer.jid := "J-1";
     MatchOptimizer.title := "Engineer";
     MatchOptimizer.company := "Acme";
     MatchOptimizer.location := "Remote";
     MatchOptimizer.field := "Software";
     MatchOptimizer.cleaned_description := "Builds data pipelines.";
     MatchOptimizer.posting_date := "2025-02-27" |}.

(** A provider that plays the four stages in order, and one resume. *)
Definition bullets_json : string := "[bullets]".
Definition evaluation_json : string := "{evaluation}".

Definition staged_provider : Env :=
  env_with default_CONFIG
    [(bullets_json,
      PyList [PyDict [("bolded_overview", PyStr "Led migration");
                      ("description", PyStr "Led the migration of the billing system.")]]);
     (evaluation_json,
      PyDict [("match_rating", PyInt 85); ("explanation", PyStr "Strong match.")])]
    (fun n => Returned (RespOther
       match n with
       | 0%nat => "A focused data engineer."
       | 1%nat => ten_skills
       | 2%nat => bullets_json
       | _ => evaluation_json
       end)).

Definition resume : MatchOptimizer.Resume :=
  {| MatchOptimizer.objective := "Engineer who likes data.";
     MatchOptimizer.usage_count := 3;
     MatchOptimizer.skills_list := ["sql"; "python"];
     MatchOptimizer.jobs_section :=
       [{| MatchOptimizer.bullets :=
             [{| MatchOptimizer.bolded_overview := "Migration";
                 MatchOptimizer.description := "Moved billing to a new system." |}] |}] |}.

(** Five placeholders and the texts of four of them. *)
Definition five_placeholders : gmap Z string :=
  list_to_map [(1, "<SKILL 1>"); (2, "<SKILL 2>"); (3, "<SKILL 3>");
               (4, "<SKILL 4>"); (5, "<SKILL 5>")].

Definition four_placeholders : gmap Z string := delete 5 five_placeholders.

Definition skill_texts : gmap Z string :=
  list_to_map [(1, "Python"); (2, "C"); (3, "Go lang"); (4, "SQL")].

End Samples.

(** ** Further sample data *)

(** The default settings with another ceiling on the attempts. *)
Definition sample_config_attempts (n : Z) : Config :=
  {| LLM_PROVIDER_LIST := LLM_PROVIDER_LIST default_CONFIG;
     API_MAX_ATTEMPTS := n;
     API_INITIAL_DELAY := API_INITIAL_DELAY default_CONFIG;
     API_MAX_DELAY := API_MAX_DELAY default_CONFIG;
     API_BACKOFF_MULTIPLIER := API_BACKOFF_MULTIPLIER default_CONFIG;
     ALLOW_PARTIAL_JSON_PARSE := ALLOW_PARTIAL_JSON_PARSE default_CONFIG;
     MAX_OVERVIEW_CHARS := None; MAX_SKILL_CHARS := None;
     MAX_BULLET_CHARS := None; CONTENT_TOLERANCE := None;
     TOP_RESUME_COUNT := None |}.

(** A provider that would answer, behind a ceiling of zero attempts. *)
Definition sample_no_attempts_env : Env :=
  Samples.provider_says (sample_config_attempts 0) [] "never asked".


(** Three resumes: the second is used most, the third has no objective. *)
Definition sample_resumes : list MatchOptimizer.Resume :=
  [Samples.resume;
   {| MatchOptimizer.objective := "Analyst turned engineer.";
      MatchOptimizer.usage_count := 7;
      MatchOptimizer.skills_list := ["excel"];
      MatchOptimizer.jobs_section := [] |};
   {| MatchOptimizer.objective := EmptyString;
      MatchOptimizer.usage_count := 3;
      MatchOptimizer.skills_list := ["go"; "rust"; "c"];
      MatchOptimizer.jobs_section := [] |}].

(** Resumes that state no objective. *)
Definition sample_resumes_without_objective : list MatchOptimizer.Resume :=
  [{| MatchOptimizer.objective := EmptyString;
      MatchOptimizer.usage_count := 1;
      MatchOptimizer.skills_list := ["sql"];
      MatchOptimizer.jobs_section := [] |}].


(** Both fields of a bullet are there, and they are text. *)
Definition well_formed_bullet (b : py) : Prop :=
  exists d overview text,
    b = PyDict d
    /\ PyDictOps.dict_lookup "bolded_overview" d = Some (PyStr overview)
    /\ PyDictOps.dict_lookup "description" d = Some (PyStr text).


(** A provider whose bullet array leaves fields out. *)
Definition sample_bullets_env : Env :=
  Samples.env_with default_CONFIG
    [(Samples.bullets_json,
      PyList [PyDict [("description", PyStr "Led the migration.")]; PyDict []])]
    (fun _ => Returned (RespOther Samples.bullets_json)).

Definition sample_bullets : list MatchOptimizer.Bullet :=
  [{| MatchOptimizer.bolded_overview := "Migration";
      MatchOptimizer.description := "Moved billing." |}].

(** ** Further string primitives *)

Module PyText.
Import PyString.

(** [c in s] for one character. *)
Fixpoint has_char (c : ascii) (s : string) : bool :=
  match s with
  | EmptyString => false
  | String a s' => Ascii.eqb a c || has_char c s'
  end.

(** [s.split(sep)] for a separator that is not empty: the pieces between
    the occurrences of [sep], found from the left and not overlapping.
    Every cut removes at least one character, so [fuel] cuts suffice when
    [fuel] is at least the length of [s]. *)
Fixpoint split_str_fuel (fuel : nat) (sep s : string) : list string :=
  match fuel with
  | O => [s]
  | S fuel' =>
      match find sep s with
      | Some i =>
          take i s :: split_str_fuel fuel' sep (drop (i + String.length sep) s)
      | None => [s]
      end
  end.

Definition split_str (sep s : string) : list string :=
  split_str_fuel (String.length s) sep s.

(** [bool(v)] *)
Definition truthy (v : py) : bool :=
  match v with
  | PyNone => false
  | PyBool b => b
  | PyInt n => negb (n =? 0)
  | PyFloat q => negb (Qeq_bool q 0)
  | PyStr s => negb (is_empty s)
  | PyList items => bool_decide (items <> [])
  | PyDict entries => bool_decide (entries <> [])
  | PyObject _ => true
  end.

(** [any(p(c) for c in s)] *)
Fixpoint any_char (p : ascii -> bool) (s : string) : bool :=
  match s with
  | EmptyString => false
  | String a s' => p a || any_char p s'
  end.

(** [s.replace(old, new)] for an [old] that is not empty: the occurrences
    of [old] are found from the left and do not overlap.  Every step
    consumes at least one character, so [fuel] steps suffice when [fuel]
    is at least the length of [s]. *)
Fixpoint replace_fuel (fuel : nat) (old new s : string) : string :=
  match fuel with
  | O => s
  | S fuel' =>
      if starts_with old s
      then new +:+ replace_fuel fuel' old new (drop (String.length old) s)
      else match s with
           | EmptyString => EmptyString
           | String c s' => String c (replace_fuel fuel' old new s')
           end
  end.

Definition replace (old new s : string) : string :=
  replace_fuel (String.length s) old new s.

(** The characters of [s] that [p] rejects, in order: [re.sub] of a
    character class by the empty string. *)
Fixpoint remove_chars (p : ascii -> bool) (s : string) : string :=
  match s with
  | EmptyString => EmptyString
  | String c s' => if p c then remove_chars p s' else String c (remove_chars p s')
  end.

(** [s.strip(chars)], with [p] the membership in [chars]. *)
Fixpoint lstrip_by (p : ascii -> bool) (s : string) : string :=
  match s with
  | String c s' => if p c then lstrip_by p s' else s
  | EmptyString => EmptyString
  end.

Fixpoint rstrip_by (p : ascii -> bool) (s : string) : string :=
  match s with
  | String c s' =>
      let r := rstrip_by p s' in
      if is_empty r && p c then EmptyString else String c r
  | EmptyString => EmptyString
  end.

Definition strip_by (p : ascii -> bool) (s : string) : string :=
  lstrip_by p (rstrip_by p s).

End PyText.

(** ** resume_builder.py *)

Module ResumeBuilder.
Import PyString PyDictOps PyText.

(** [OptimizedContent]: a dataclass checks no types, so each field holds
    whatever [from_dict] found; only [skills] is known to be a list of
    strings, being the result of [str.split]. *)
Record OptimizedContent : Type := {
  objective : py;
  skills : list string;
  bullets : py;
  match_rating : py;
  job_data : py
}.

(** The dictionary that [optimize_match] builds from a complete bundle,
    and that [main] hands to [build_final_resume]. *)
Definition optimized_data (m : MatchOptimizer.OptimizedMatch) : py :=
  let j := MatchOptimizer.job_json m in
  PyDict
    [("new_objective", PyStr (MatchOptimizer.new_objective m));
     ("optimized_skills", PyStr (MatchOptimizer.optimized_skills m));
     ("optimized_bullets",
      PyDict [("bullets", PyList (MatchOptimizer.optimized_bullets m))]);
     ("job_match_evaluation", PyDict (MatchOptimizer.job_match_evaluation m));
     ("job_json",
      PyDict [("jid", PyStr (MatchOptimizer.jid j));
              ("Company Name", PyStr (MatchOptimizer.company j));
              ("Title", PyStr (MatchOptimizer.title j));
              ("Location", PyStr (MatchOptimizer.location j));
              ("field", PyStr (MatchOptimizer.field j));
              ("posting_date", PyStr (MatchOptimizer.posting_date j));
              ("cleaned_description", PyStr (MatchOptimizer.cleaned_description j))])].

(** [v.split(', ')] *)
Definition split_skills (v : py) : outcome (list string) :=
  match v with
  | PyStr s => Returned (split_str ", " s)
  | _ => Raised (no_attribute v "split")
  end.

(** [OptimizedContent.from_dict]: the keyword arguments are evaluated in
    the order they are written. *)
Definition from_dict (data : py) : outcome OptimizedContent :=
  objective ← get data "new_objective" (PyStr EmptyString);
  skills_text ← get data "optimized_skills" (PyStr EmptyString);
  skills ← split_skills skills_text;
  optimized_bullets ← get data "optimized_bullets" (PyDict []);
  bullets ← get optimized_bullets "bullets" (PyList []);
  evaluation ← get data "job_match_evaluation" (PyDict []);
  match_rating ← get evaluation "match_rating" (PyInt 0);
  job_data ← get data "job_json" (PyDict []);
  Returned {| objective := objective; skills := skills; bullets := bullets;
              match_rating := match_rating; job_data := job_data |}.

Definition required_fields : list string := ["jid"; "Company Name"; "Title"].

(** [[field for field in required_fields if not job_data.get(field)]] *)
Fixpoint missing_fields (job_data : py) (fields : list string) : outcome (list string) :=
  match fields with
  | [] => Returned []
  | field :: rest =>
      v ← get job_data field PyNone;
      missing ← missing_fields job_data rest;
      Returned (if truthy v then missing else field :: missing)
  end.

(** [OptimizedContent.validate] *)
Definition validate (c : OptimizedContent) : outcome unit :=
  if negb (truthy (objective c))
  then Raised (Exn ValueError "Missing objective statement" None)
  else if bool_decide (length (skills c) <> 10%nat)
  then Raised (Exn ValueError
                   ("Expected 10 skills, got " +:+ pretty (length (skills c))) None)
  else
    missing ← missing_fields (job_data c) required_fields;
    match missing with
    | [] => Returned tt
    | _ => Raised (Exn ValueError
                       ("Missing required job fields: " +:+ join ", " missing) None)
    end.

End ResumeBuilder.

(** ** Text with salvageable pairs *)

Module SalvageText.
Import PyString.

(** The text of one pair, a quoted key, a colon, a space and a quoted
    value, followed by [rest]. *)
Definition pair_then (key value rest : string) : string :=
  String quote
    (key +:+ String quote
       (String ":" (String " " (String quote (value +:+ String quote rest))))).

(** Pairs scattered in a text: each is preceded by some [junk], and
    [tail] follows the last one. *)
Fixpoint scattered (l : list (string * string * string)) (tail : string) : string :=
  match l with
  | [] => tail
  | (junk, key, value) :: l' => junk +:+ pair_then key value (scattered l' tail)
  end.

(** A key or a value that the pattern can capture: not empty, and
    without a double quote. *)
Definition capturable (s : string) : Prop :=
  s <> EmptyString /\ PyText.has_char quote s = false.

(** A reply cut off in the middle of its third field. *)
Definition truncated_reply : string :=
  scattered [("{", "Title", "Engineer"); (", ", "Company Name", "Acme")]
            (", " +:+ String quote "Locat").

End SalvageText.

(** ** helpers.py, the text utilities *)

Module HelpersText.
Import PyString PyText.

Definition cr : ascii := "013"%char.

(** What one maximal run of [run] newlines becomes under
    [re.sub(r"\n{3,}", "\n\n", text)]. *)
Fixpoint newlines (n : nat) : string :=
  match n with
  | O => EmptyString
  | S n' => String newline (newlines n')
  end.

Definition collapsed_run (run : nat) : string :=
  if (3 <=? run)%nat then newlines 2 else newlines run.

(** That substitution, reading [s] after a run of [run] newlines. *)
Fixpoint collapse_newlines_from (run : nat) (s : string) : string :=
  match s with
  | EmptyString => collapsed_run run
  | String c s' =>
      if Ascii.eqb c newline then collapse_newlines_from (S run) s'
      else collapsed_run run +:+ String c (collapse_newlines_from 0 s')
  end.

Definition collapse_newlines (s : string) : string := collapse_newlines_from 0 s.

(** A word as [split] yields it: not empty, and without whitespace. *)
Definition word_like (w : string) : Prop :=
  w <> EmptyString /\ any_char py_isspace w = false.

(** Whitespace other than the space. *)
Definition other_space (c : ascii) : bool := py_isspace c && negb (Ascii.eqb c " ").

(** [normalize_text] *)
Definition normalize_text (text : string) : string :=
  let text := join " " (split_whitespace text) in
  let text := replace (String cr EmptyString) nl (replace (String cr nl) nl text) in
  let text := collapse_newlines text in
  strip text.

(** The character class of [clean_filename]: the characters that a file
    name may not hold. *)
Definition invalid_char (c : ascii) : bool :=
  has_char c "<>:/\|?*" || Ascii.eqb c quote.

(** Membership in the argument of [strip] in [clean_filename]. *)
Definition dot_or_underscore (c : ascii) : bool := has_char c "._".

(** [255 - len(".extension")] *)
Definition max_length : nat := 255 - String.length ".extension".

(** [clean_filename] *)
Definition clean_filename (filename : string) : string :=
  let filename := remove_chars invalid_char filename in
  let filename := replace_char " " "_" filename in
  let filename :=
    if (max_length <? String.length filename)%nat then take max_length filename
    else filename in
  strip_by dot_or_underscore filename.

End HelpersText.

(** ** placeholder_matcher.py, finding the placeholders *)

Module PlaceholderScan.
Import PyString PyText PlaceholderMatcher.

(** What [\d] matches among the code points below 256. *)
Definition is_digit (c : ascii) : bool :=
  let n := N_of_ascii c in ((48 <=? n) && (n <=? 57))%N.

(** The longest prefix whose characters satisfy [p], and what follows
    it: how a greedy repetition of a character class reads. *)
Fixpoint span (p : ascii -> bool) (s : string) : string * string :=
  match s with
  | EmptyString => (EmptyString, EmptyString)
  | String c s' =>
      if p c then let '(taken, rest) := span p s' in (String c taken, rest)
      else (EmptyString, s)
  end.

(** The number that a string of decimal digits denotes, after [acc]. *)
Fixpoint int_from (acc : Z) (digits : string) : Z :=
  match digits with
  | EmptyString => acc
  | String c digits' => int_from (10 * acc + (Z.of_N (N_of_ascii c) - 48)) digits'
  end.

Definition too_many_digits (limit n : nat) : exn :=
  Exn ValueError
      ("Exceeds the limit (" +:+ pretty limit
       +:+ " digits) for integer string conversion: value has " +:+ pretty n
       +:+ " digits; use sys.set_int_max_str_digits() to increase the limit")
      None.

(** [int(digits)] on a string of decimal digits.  [max_str_digits] is the
    interpreter's limit on the length of such a string, [None] when the
    interpreter has none. *)
Definition py_int_of_digits (max_str_digits : option nat) (digits : string)
  : outcome Z :=
  match max_str_digits with
  | Some limit =>
      if (limit <? String.length digits)%nat
      then Raised (too_many_digits limit (String.length digits))
      else Returned (int_from 0 digits)
  | None => Returned (int_from 0 digits)
  end.

Definition skill_prefix : string := "<SKILL".

(** One match of [SKILL_PATTERN] anchored at the head of [s]: the
    prefix, whitespace, one digit or more, and the closing bracket.
    Returns group 1, group 0 and the text after the match. *)
Definition match_skill (s : string) : option (string * string * string) :=
  if starts_with skill_prefix s then
    let '(blank, s1) := span py_isspace (drop (String.length skill_prefix) s) in
    let '(digits, s2) := span is_digit s1 in
    match digits, s2 with
    | String _ _, String c rest =>
        if Ascii.eqb c ">"
        then Some (digits, skill_prefix +:+ blank +:+ digits +:+ ">", rest)
        else None
    | _, _ => None
    end
  else None.

(** [SKILL_PATTERN.finditer]: leftmost matches, not overlapping, as
    pairs of group 1 and group 0.  [fuel] bounds the number of positions
    visited. *)
Fixpoint find_skills (fuel : nat) (s : string) : list (string * string) :=
  match fuel with
  | O => []
  | S fuel' =>
      match match_skill s with
      | Some (digits, placeholder, rest) =>
          (digits, placeholder) :: find_skills fuel' rest
      | None =>
          match s with
          | EmptyString => []
          | String _ s' => find_skills fuel' s'
          end
      end
  end.

Definition empty_text : exn := Exn PlaceholderError "Empty text provided" None.

(** [validate_text] on a [str]: the [isinstance] test cannot fail. *)
Definition validate_text (text : string) : outcome unit :=
  if is_empty text then Raised empty_text else Returned tt.

(** The body of the loop over the matches, with its [try]. *)
Definition keep_placeholder (max_str_digits : option nat)
    (placeholders : gmap Z string) (found : string * string) : gmap Z string :=
  match py_int_of_digits max_str_digits found.1 with
  | Returned num =>
      if (1 <=? num) && (num <=? 10) then <[num := found.2]> placeholders
      else placeholders
  | Raised _ => placeholders
  end.

(** [extract_skill_placeholders] *)
Definition extract_skill_placeholders (max_str_digits : option nat) (text : string)
  : outcome (gmap Z string) :=
  validate_text text;;
  Returned (fold_left (keep_placeholder max_str_digits)
                      (find_skills (S (String.length text)) text) ∅).

Definition wrong_count (n : nat) : exn :=
  Exn PlaceholderError ("Expected 10 skill placeholders, found " +:+ pretty n) None.

(** [match_and_pair_skills] *)
Definition match_and_pair_skills (max_str_digits : option nat)
    (template_text : string) (skills_texts : gmap Z string)
  : outcome (list SkillPair) :=
  try_except_pure
    (validate_text template_text;;
     placeholders ← extract_skill_placeholders max_str_digits template_text;
     if bool_decide (size placeholders <> 10%nat)
     then Raised (wrong_count (size placeholders))
     else pair_skills_by_length placeholders skills_texts)
    (fun e => Raised (Exn PlaceholderError
                          ("Failed to match and pair skills: " +:+ exn_msg e) None)).

(** A string of one digit or more at the head of [s], and the rest. *)
Definition digits_then (s : string) : option string :=
  match span is_digit s with
  | (String _ _, rest) => Some rest
  | _ => None
  end.

(** [p] followed by what [k] accepts. *)
Definition literal_then (p : string) (s : string) : option string :=
  if starts_with p s then Some (drop (String.length p) s) else None.

(** One match of [BULLET_PATTERN] anchored at the head of [s]. *)
Definition match_bullet (s : string) : bool :=
  bool_decide (is_Some (
    s ← literal_then "<Experience-Bullet" s;
    s ← digits_then s;
    s ← literal_then "-" s;
    s ← (match literal_then "BoldedOverview" s with
         | Some s' => Some s'
         | None => literal_then "Description" s
         end);
    s ← literal_then "-J" s;
    s ← digits_then s;
    literal_then ">" s)).

(** Some suffix of [s] satisfies [p]: a pattern matches somewhere. *)
Fixpoint any_suffix (p : string -> bool) (s : string) : bool :=
  p s || match s with
         | EmptyString => false
         | String _ s' => any_suffix p s'
         end.

(** [validate_template]; the cache in front of it holds results of this
    function only, and changes none. *)
Definition validate_template (max_str_digits : option nat) (template_text : string)
  : bool :=
  let checked :=
    validate_text template_text;;
    (if contains "<OverView>" template_text then Returned tt
     else Raised (Exn PlaceholderError "Missing overview placeholder" None));;
    skill_placeholders ← extract_skill_placeholders max_str_digits template_text;
    (if bool_decide (size skill_placeholders <> 10%nat)
     then Raised (wrong_count (size skill_placeholders))
     else Returned tt);;
    if any_suffix match_bullet template_text then Returned tt
    else Raised (Exn PlaceholderError "Missing bullet point placeholders" None)
  in
  match checked with
  | Returned _ => true
  | Raised _ => false
  end.

(** [placeholder] is a slot for the skill number [num]: the prefix,
    whitespace, decimal digits that denote [num], and the bracket. *)
Definition slot_for (num : Z) (placeholder : string) : Prop :=
  exists blank digits,
    placeholder = skill_prefix +:+ blank +:+ digits +:+ ">"
    /\ any_char (fun c => negb (py_isspace c)) blank = false
    /\ digits <> EmptyString
    /\ any_char (fun c => negb (is_digit c)) digits = false
    /\ int_from 0 digits = num.

(** [sub] occurs in [s]. *)
Definition occurs_in (sub s : string) : Prop :=
  exists n, starts_with sub (drop n s) = true.

(** A template with the ten slots, the overview and one bullet. *)
Definition sample_template : string :=
  "<OverView> <SKILL 1> <SKILL 2> <SKILL 3> <SKILL 4> <SKILL 5> "
  +:+ "<SKILL 6> <SKILL 7> <SKILL8> <SKILL  9> <SKILL 10> <SKILL 11> "
  +:+ "<Experience-Bullet1-BoldedOverview-J1>".

End PlaceholderScan.


(** ** Subscripts and membership on [py] values *)

Module PyItems.
Import PyString PyDictOps.

Definition not_subscriptable (v : py) : exn :=
  Exn TypeError ("'" +:+ type_name v +:+ "' object is not subscriptable") None.

(** [v[0]].  The keys of a dictionary that came out of JSON are strings,
    so [0] is none of them. *)
Definition item_0 (v : py) : outcome py :=
  match v with
  | PyList (x :: _) => Returned x
  | PyList [] => Raised (Exn IndexError "list index out of range" None)
  | PyStr (String c _) => Returned (PyStr (String c EmptyString))
  | PyStr EmptyString => Raised (Exn IndexError "string index out of range" None)
  | PyDict _ => Raised (Exn KeyError "0" None)
  | _ => Raised (not_subscriptable v)
  end.

(** [v[k]] for a string [k]. *)
Definition item (v : py) (k : string) : outcome py :=
  match v with
  | PyDict d =>
      match dict_lookup k d with
      | Some x => Returned x
      | None => Raised (Exn KeyError ("'" +:+ k +:+ "'") None)
      end
  | PyStr _ => Raised (Exn TypeError "string indices must be integers, not 'str'" None)
  | PyList _ =>
      Raised (Exn TypeError "list indices must be integers or slices, not str" None)
  | _ => Raised (not_subscriptable v)
  end.

(** [k in v] for a string [k]: a key of a dictionary, a substring of a
    string, an element of a list. *)
Definition py_in (k : string) (v : py) : outcome bool :=
  match v with
  | PyDict d => Returned (bool_decide (is_Some (dict_lookup k d)))
  | PyStr s => Returned (contains k s)
  | PyList items =>
      Returned (existsb (fun x => match x with
                                  | PyStr s => String.eqb s k
                                  | _ => false
                                  end) items)
  | _ => Raised (Exn TypeError
                     ("argument of type '" +:+ type_name v +:+ "' is not iterable") None)
  end.

End PyItems.

(** ** litellm_file_handler.py, the response check *)

Module LiteLLM.
Import PyString PyDictOps PyText PyItems.

Definition required : list string := ["choices"; "usage"; "model"].

Definition llm_error (msg : string) : exn := Exn LLMError msg None.

(** [LLMHandler.validate_response] *)
Definition validate_response (response : py) : outcome unit :=
  match response with
  | PyDict d =>
      let missing := filter (fun k => dict_lookup k d = None) required in
      match missing with
      | _ :: _ => Raised (llm_error ("Missing required fields: " +:+ join ", " missing))
      | [] =>
          choices ← item response "choices";
          if negb (truthy choices) then Raised (llm_error "Empty choices in response")
          else
            first ← item_0 choices;
            match first with
            | PyDict c =>
                match dict_lookup "message" c with
                | Some _ => Returned tt
                | None => Raised (llm_error "Invalid choice structure")
                end
            | _ => Raised (llm_error "Invalid choice structure")
            end
      end
  | _ => Raised (llm_error ("Expected dict response, got <class '"
                            +:+ type_name response +:+ "'>"))
  end.

(** A truthy value that is neither a sequence nor a dictionary. *)
Definition is_scalar (v : py) : bool :=
  match v with
  | PyBool _ | PyInt _ | PyFloat _ | PyObject _ => true
  | _ => false
  end.

Record LLMResponse : Type := {
  content : py;
  model : py;
  usage : py;
  finish_reason : py;
  latency : Q
}.

(** What [call_openrouter] does with the decoded answer: the check, then
    the fields picked out of it, in the order the keyword arguments are
    written. *)
Definition read_response (response_dict : py) (latency : Q) : outcome LLMResponse :=
  validate_response response_dict;;
  choices ← item response_dict "choices";
  first ← item_0 choices;
  message ← item first "message";
  content ← item message "content";
  model ← item response_dict "model";
  usage ← item response_dict "usage";
  choices ← item response_dict "choices";
  first ← item_0 choices;
  finish_reason ← item first "finish_reason";
  Returned {| content := content; model := model; usage := usage;
              finish_reason := finish_reason; latency := latency |}.

(** A decoded answer that passes the check and cannot be read. *)
Definition sample_unreadable : py :=
  PyDict [("choices", PyList [PyDict [("message", PyStr "hello")]]);
          ("usage", PyDict []); ("model", PyStr "gpt-4")].

(** A decoded answer on which the check itself trips. *)
Definition sample_number_of_choices : py :=
  PyDict [("choices", PyInt 1); ("usage", PyDict []); ("model", PyStr "gpt-4")].

End LiteLLM.

(** ** resume_extractor.py *)

(** What an extraction function comes back with: it returns a record,
    or raises its own extraction error, whose message is kept; every
    other exception is caught and wrapped inside the function. *)
Inductive extraction (A : Type) : Type :=
| Extracted (a : A)
| ExtractionError (msg : string).
Arguments Extracted {A} a.
Arguments ExtractionError {A} msg.

Module ResumeExtractor.
Import PyString PyDictOps PyText PyItems Helpers ApiInterface IterativeRefiner.

Definition default_struct : list (string * py) :=
  [("objective", PyStr EmptyString);
   ("skills_list", PyList []);
   ("jobs_section", PyList []);
   ("education", PyList []);
   ("certifications", PyList [])].

(** The text handed to [json.loads]: sliced to the brace span and
    trimmed when both braces exist, apostrophes turned into double
    quotes. *)
Definition isolate_json (response : string) : string :=
  let response :=
    match find "{" response, rfind_char "}"%char response with
    | Some start_idx, Some end_idx => strip (slice start_idx (end_idx + 1) response)
    | _, _ => response
    end in
  replace_char apostrophe quote response.

(** The loop that merges what was parsed into the default structure. *)
Fixpoint merge_parsed (parsed : py) (keys : list string) (result : list (string * py))
  : outcome (list (string * py)) :=
  match keys with
  | [] => Returned result
  | key :: keys' =>
      present ← py_in key parsed;
      if (present : bool) then
        value ← item parsed key;
        merge_parsed parsed keys' (dict_set key value result)
      else merge_parsed parsed keys' result
  end.

Section with_env.
Context (E : Env).

(** The [isinstance(response, str)] branch: the parsed value, or the
    default structure that the function returns at once. *)
Definition parse_text (response : string)
  : outcome (py + list (string * py)) :=
  let response := isolate_json response in
  match json_loads E response with
  | Returned parsed => Returned (inl parsed)
  | Raised e =>
      if is_class JSONDecodeError e then
        if ALLOW_PARTIAL_JSON_PARSE (CONFIG E)
        then parsed ← partial_json_salvage response; Returned (inl parsed)
        else Returned (inr default_struct)
      else Raised e
  end.

(** [_clean_api_response] *)
Definition _clean_api_response (response : py) : outcome (list (string * py)) :=
  if negb (truthy response) then Returned default_struct
  else
    response ← (if hasattr response "content" then getattr response "content"
                else Returned response);
    parsed ← match response with
              | PyStr s => parse_text s
              | _ => Returned (inl response)
              end;
    match parsed with
    | inr early => Returned early
    | inl parsed => merge_parsed parsed default_struct.*1 default_struct
    end.

Record ResumeData : Type := {
  rid : string;
  objective : py;
  skills_list : py;
  jobs_section : py;
  education : py;
  certifications : py;
  raw_text : string;
  source_file : string;
  extraction_date : string
}.

(** The value [call_api] returned, as a [py]. *)
Definition answer_value (result : option string) : py :=
  match result with
  | Some s => PyStr s
  | None => PyNone
  end.

(** [parsed_data.get(key, dflt)] *)
Definition field_of (parsed_data : list (string * py)) (key : string) (dflt : py) : py :=
  default dflt (dict_lookup key parsed_data).

(** The body of the [try] in [extract_resume_data].  [now_id] and
    [now_date] are the two readings of the clock, formatted. *)
Definition extract_resume_body (now_id now_date raw_text file_name : string)
  : M ResumeData :=
  entry ← lift (load_prompt E "resume_extraction_strict_prompt");
  extraction_prompt ← lift (prompt_format entry [("resume_text", PyStr raw_text)]);
  result ← call_api E extraction_prompt (Some (system_message entry)) None;
  parsed_data ← lift (_clean_api_response (answer_value result));
  mret {| rid := now_id;
          objective := field_of parsed_data "objective" (PyStr EmptyString);
          skills_list := field_of parsed_data "skills_list" (PyList []);
          jobs_section := field_of parsed_data "jobs_section" (PyList []);
          education := field_of parsed_data "education" (PyList []);
          certifications := field_of parsed_data "certifications" (PyList []);
          raw_text := raw_text;
          source_file := file_name;
          extraction_date := now_date |}.

(** [extract_resume_data] *)
Definition extract_resume_data (now_id now_date raw_text file_name : string)
    (w : World) : extraction ResumeData * World :=
  match extract_resume_body now_id now_date raw_text file_name w with
  | (Returned r, w') => (Extracted r, w')
  | (Raised e, w') =>
      (ExtractionError ("Failed to extract resume data: " +:+ exn_msg e), w')
  end.

End with_env.

(** The resume that an empty answer gives. *)
Definition empty_resume (now_id now_date raw_text file_name : string) : ResumeData :=
  {| rid := now_id;
     objective := PyStr EmptyString;
     skills_list := PyList [];
     jobs_section := PyList [];
     education := PyList [];
     certifications := PyList [];
     raw_text := raw_text;
     source_file := file_name;
     extraction_date := now_date |}.

(** The default structure with the values that [d] has for its keys. *)
Definition merged (d : list (string * py)) : list (string * py) :=
  (fun kv => (kv.1, default kv.2 (dict_lookup kv.1 d))) <$> default_struct.

End ResumeExtractor.

(** ** Sample prompts for the extraction functions *)

Definition extraction_entry (keyword : string) : prompt_entry :=
  {| prompt_format := fun kw =>
       Returned ("Extract: "
                 +:+ Samples.sample_str
                       (default PyNone (PyDictOps.dict_lookup keyword kw)));
     system_message := "You extract data." |}.

Definition extraction_prompt_file (name : string) : option prompt_entry :=
  if String.eqb name "resume_extraction_strict_prompt"
  then Some (extraction_entry "resume_text")
  else if String.eqb name "job_extraction_prompt"
  then Some (extraction_entry "raw_text")
  else None.

(** An environment with the extraction prompts, whose provider answers
    every call with [text], decoded as [known] says. *)
Definition extraction_env (cfg : Config) (known : list (string * py)) (text : string)
  : Env :=
  {| CONFIG := cfg;
     call_litellm := fun _ _ _ _ => Returned (RespOther text);
     random_choice := fun _ l => List.hd EmptyString l;
     json_loads := Samples.decoder known;
     json_dumps := fun _ => "[...]";
     py_str := Samples.sample_str;
     all_prompts := Returned extraction_prompt_file |}.

(** The same with a ceiling of zero attempts: the provider is never asked. *)
Definition silent_extraction_env : Env :=
  extraction_env (sample_config_attempts 0) [] "never asked".

(** ** job_extractor.py, the extraction itself *)

Module JobExtraction.
Import PyString PyDictOps PyText PyItems Helpers ApiInterface IterativeRefiner.

(** [JobData] of [job_extractor.py].  A dataclass checks no types: a
    field holds whatever the dictionary had. *)
Record JobData : Type := {
  jid : py;
  title : py;
  company : py;
  location : py;
  field : py;
  salary : py;
  posting_date : py;
  cleaned_description : py;
  raw_text : py;
  source_file : py;
  extraction_date : py
}.

(** [data.get(key, '')] *)
Definition get_or_empty (data : gmap string py) (key : string) : py :=
  default (PyStr EmptyString) (data !! key).

(** [JobData.from_dict] *)
Definition from_dict (data : gmap string py) : JobData :=
  {| jid := get_or_empty data "jid";
     title := get_or_empty data "Title";
     company := get_or_empty data "Company Name";
     location := get_or_empty data "Location";
     field := get_or_empty data "field";
     salary := get_or_empty data "Salary";
     posting_date := get_or_empty data "posting_date";
     cleaned_description := get_or_empty data "cleaned_description";
     raw_text := get_or_empty data "raw_text";
     source_file := get_or_empty data "source_file";
     extraction_date := get_or_empty data "extraction_date" |}.

Definition apply_by : string := "Apply by".

(** [l[-1]] for the pieces of a split, which are never none. *)
Definition last_piece (pieces : list string) : string := List.last pieces EmptyString.

(** The two lines on the posting date: when it holds [Apply by], what
    follows the last [Apply by] replaces it, trimmed. *)
Definition fix_posting_date (job_data : gmap string py) : outcome (gmap string py) :=
  found ← py_in apply_by (get_or_empty job_data "posting_date");
  if (found : bool) then
    match job_data !! "posting_date" with
    | Some (PyStr s) =>
        Returned (<["posting_date" := PyStr (strip (last_piece (split_str apply_by s)))]>
                    job_data)
    | Some v => Raised (no_attribute v "split")
    | None => Raised (missing_key "posting_date")
    end
  else Returned job_data.

(** [job_data.update({...})] with the four entries of metadata. *)
Definition add_metadata (now_id now_date raw_text file_name : string)
    (job_data : gmap string py) : gmap string py :=
  <["extraction_date" := PyStr now_date]>
    (<["source_file" := PyStr file_name]>
       (<["raw_text" := PyStr raw_text]>
          (<["jid" := PyStr now_id]> job_data))).

Section with_env.
Context (E : Env).

(** The inner [try]: the answer decoded directly or, when that fails
    in any way, sanitized.  What is decoded must be a dictionary, since
    the next line calls [get] on it. *)
Definition parse_answer (result : string) : outcome (gmap string py) :=
  match json_loads E (strip result) with
  | Returned (PyDict d) => Returned (list_to_map d)
  | Returned v => Raised (no_attribute v "get")
  | Raised _ =>
      match JobExtractor.clean_api_response E (PyStr result) with
      | Returned cleaned => Returned (PyStr <$> (cleaned : gmap string string))
      | Raised e => Raised e
      end
  end.

(** The body of the outer [try].  [inr msg] is a [JobExtractionError]
    with the message [msg], raised inside the [try]; [now_id] and
    [now_date] are the two readings of the clock, formatted. *)
Definition extract_job_body (now_id now_date raw_text file_name : string)
  : M (JobData + string) :=
  entry ← lift (load_prompt E "job_extraction_prompt");
  extraction_prompt ← lift (prompt_format entry [("raw_text", PyStr raw_text)]);
  result ← call_api E extraction_prompt (Some (system_message entry)) None;
  match result with
  | Some (String c s) =>
      job_data ← lift (parse_answer (String c s));
      job_data ← lift (fix_posting_date job_data);
      mret (inl (from_dict (add_metadata now_id now_date raw_text file_name job_data)))
  | _ => mret (inr "Empty API response")
  end.

(** [extract_job_data] *)
Definition extract_job_data (now_id now_date raw_text file_name : string)
    (w : World) : extraction JobData * World :=
  match extract_job_body now_id now_date raw_text file_name w with
  | (Returned (inl job), w') => (Extracted job, w')
  | (Returned (inr msg), w') =>
      (ExtractionError ("Failed to extract job data: " +:+ msg), w')
  | (Raised e, w') =>
      (ExtractionError ("Failed to extract job data: " +:+ exn_msg e), w')
  end.

End with_env.

(** The field is a text. *)
Definition is_text (v : py) : Prop := exists s, v = PyStr s.

End JobExtraction.

(** A posting whose date is given as a deadline, and one without a date. *)
Definition sample_posting_json : string := "{posting}".

Definition sample_posting : py :=
  PyDict [("Title", PyStr "Engineer");
          ("posting_date", PyStr "Posted 1 May. Apply by 30 June ");
          ("jid", PyStr "from the model")].

Definition sample_undated_json : string := "{undated}".

Definition sample_undated : py :=
  PyDict [("Title", PyStr "Engineer"); ("posting_date", PyNone)].

Definition posting_env (text : string) : Env :=
  extraction_env default_CONFIG
    [(sample_posting_json, sample_posting); (sample_undated_json, sample_undated)]
    text.


(** The default settings with the number of resumes to keep set to zero. *)
Definition sample_config_no_resumes : Config :=
  {| LLM_PROVIDER_LIST := LLM_PROVIDER_LIST default_CONFIG;
     API_MAX_ATTEMPTS := API_MAX_ATTEMPTS default_CONFIG;
     API_INITIAL_DELAY := API_INITIAL_DELAY default_CONFIG;
     API_MAX_DELAY := API_MAX_DELAY default_CONFIG;
     API_BACKOFF_MULTIPLIER := API_BACKOFF_MULTIPLIER default_CONFIG;
     ALLOW_PARTIAL_JSON_PARSE := ALLOW_PARTIAL_JSON_PARSE default_CONFIG;
     MAX_OVERVIEW_CHARS := None; MAX_SKILL_CHARS := None;
     MAX_BULLET_CHARS := None; CONTENT_TOLERANCE := None;
     TOP_RESUME_COUNT := Some 0 |}.

Definition sample_no_resumes_env : Env :=
  Samples.provider_says sample_config_no_resumes [] "never asked".

(* ===================================================================== *)
(** * Part II. Properties                                                 *)
(* ===================================================================== *)

(** ** Backoff delays *)

Section Backoff.
Import ApiInterface.






End Backoff.

(** ** The retry loop of [call_api] *)

Ltac unfold_eff :=
  unfold mbind, M_bind, mret, M_ret, try_except, lift, raise in *.

Section Retry.
Import PyString ApiInterface.
Context (E : Env).

Let max_attempts := API_MAX_ATTEMPTS (CONFIG E).



Lemma resolve_model_returns (model : option string) (w : World) :
  exists w1,
    resolve_model E model w = (Returned (model_used E model w), w1)
    /\ attempts w1 = attempts w /\ api_calls w1 = api_calls w
    /\ sleeps w1 = sleeps w.
Proof.
  unfold resolve_model, model_used, choose_provider.
  destruct model as [m|]; [destruct (is_empty m) |]; unfold_eff;
    eexists; repeat split; reflexivity.
Qed.


End Retry.


(** Two failures, then an answer: three attempts, two sleeps of 2 and 4
    seconds, and the content comes back as the provider sent it. *)
Example call_api_third_attempt :
  exists w',
    ApiInterface.call_api Samples.provider_flaky "prompt" None (Some "gpt-4")
      initial_world = (Returned (Some "  shorter text  "), w')
    /\ length (attempts w') = 3%nat
    /\ sleeps w' = [inject_Z 2; inject_Z 4].
Proof. eexists. split; [vm_compute; reflexivity | split; reflexivity]. Qed.

(** ** The sanitizer *)

Section Sanitizer.
Import PyString PyDictOps Helpers JobExtractor.
Context (E : Env).

Lemma dom_default_data : dom default_data = list_to_set required_fields.
Proof.
  unfold default_data. rewrite dom_list_to_map_L.
  rewrite <- list_fmap_compose. f_equal.
Qed.

Lemma dict_set_keys {V} (k : string) (v : V) (d : list (string * V)) :
  forall k', k' ∈ (dict_set k v d).*1 -> k' = k \/ k' ∈ d.*1.
Proof.
  induction d as [|[k0 v0] d IH]; intros k'; cbn.
  - rewrite list_elem_of_singleton. auto.
  - destruct (String.eqb k0 k); cbn; rewrite !elem_of_cons.
    + intros [->|H]; auto.
    + intros [->|H]; auto. destruct (IH _ H); auto.
Qed.

Lemma dict_of_pairs_keys {V} (l : list (string * V)) :
  forall k, k ∈ (dict_of_pairs l).*1 -> k ∈ l.*1.
Proof.
  unfold dict_of_pairs.
  assert (Hgen : forall acc k,
             k ∈ (fold_left (fun d kv => dict_set kv.1 kv.2 d) l acc).*1 ->
             k ∈ acc.*1 \/ k ∈ l.*1).
  { induction l as [|[k0 v0] l IH]; intros acc k; cbn.
    - auto.
    - intros H. destruct (IH _ _ H) as [H1|H1].
      + apply dict_set_keys in H1 as [->|H1]; [right; left | left; exact H1].
      + right. now right. }
  intros k H. destruct (Hgen [] k H) as [H1|H1]; [| exact H1].
  cbn in H1. now apply elem_of_nil in H1.
Qed.

Lemma update_dom (d : list (string * string)) :
  forall m : gmap string string, dom (update m d) = dom m ∪ list_to_set d.*1.
Proof.
  unfold update. induction d as [|[k v] d IH]; intros m; cbn.
  - set_solver.
  - rewrite IH, dom_insert_L. set_solver.
Qed.

Lemma schema_entries_keys (entries : list (string * py)) :
  forall k, k ∈ (schema_entries E entries).*1 -> k ∈ dom default_data.
Proof.
  intros k Hk. unfold schema_entries in Hk.
  apply dict_of_pairs_keys in Hk.
  rewrite <- list_fmap_compose in Hk.
  apply list_elem_of_fmap in Hk as ([k' v'] & -> & Hin).
  apply list_elem_of_filter in Hin as [Hdom _]. exact Hdom.
Qed.

Lemma update_schema_dom (entries : list (string * py)) :
  dom (update default_data (schema_entries E entries)) = dom default_data.
Proof.
  rewrite update_dom.
  assert (list_to_set (schema_entries E entries).*1 ⊆ dom default_data).
  { intros k Hk. apply elem_of_list_to_set in Hk.
    now apply schema_entries_keys in Hk. }
  set_solver.
Qed.

(** Whatever tier produced it, the record has the keys of the schema. *)
Lemma clean_api_response_dom (response : py) :
  exists record,
    clean_api_response E response = Returned record
    /\ dom record = dom default_data.
Proof.
  unfold clean_api_response, try_except_pure.
  match goal with |- context [match ?body with _ => _ end] =>
    destruct body as [record|e] eqn:Hbody end.
  - exists record. split; [reflexivity |].
    unfold mbind, outcome_bind in Hbody.
    repeat match type of Hbody with
           | context [match ?x with _ => _ end] => destruct x; try discriminate
           end;
      injection Hbody as <-; apply update_schema_dom.
  - exists default_data. auto.
Qed.

Lemma dict_set_elems {V} (k : string) (v : V) (d : list (string * V)) :
  forall kv, kv ∈ dict_set k v d -> kv = (k, v) \/ kv ∈ d.
Proof.
  induction d as [|[k0 v0] d IH]; intros kv; cbn.
  - rewrite list_elem_of_singleton. auto.
  - destruct (String.eqb k0 k); rewrite !elem_of_cons.
    + intros [->|H]; auto.
    + intros [->|H]; auto. destruct (IH _ H); auto.
Qed.

Lemma dict_of_pairs_elems {V} (l : list (string * V)) :
  forall kv, kv ∈ dict_of_pairs l -> kv ∈ l.
Proof.
  unfold dict_of_pairs.
  assert (Hgen : forall acc kv,
             kv ∈ fold_left (fun d kv => dict_set kv.1 kv.2 d) l acc ->
             kv ∈ acc \/ kv ∈ l).
  { induction l as [|[k0 v0] l IH]; intros acc kv; cbn.
    - auto.
    - intros H. destruct (IH _ _ H) as [H1|H1].
      + apply dict_set_elems in H1 as [->|H1]; [right; left | left; exact H1].
      + right. now right. }
  intros kv H. destruct (Hgen [] kv H) as [H1|H1]; [| exact H1].
  now apply elem_of_nil in H1.
Qed.

Lemma update_lookup (d : list (string * string)) :
  forall (m : gmap string string) k v,
    update m d !! k = Some v -> m !! k = Some v \/ (k, v) ∈ d.
Proof.
  unfold update. induction d as [|[k0 v0] d IH]; intros m k v; cbn.
  - auto.
  - intros H. apply IH in H as [H|H].
    + destruct (decide (k0 = k)) as [->|Hne].
      * rewrite lookup_insert_eq in H. injection H as ->. right. left.
      * rewrite lookup_insert_ne in H by exact Hne. auto.
    + right. now right.
Qed.

Lemma default_data_lookup (k v : string) :
  default_data !! k = Some v -> v = "UNKNOWN".
Proof.
  unfold default_data. intros H.
  apply elem_of_list_to_map_2 in H.
  apply list_elem_of_fmap in H as (k' & Heq & _). now injection Heq.
Qed.

(** C1.  For every raw input the sanitizer returns a record whose key set
    is exactly the schema: every required field is present, holding
    either the default or the [str] of a recovered value, and no other
    key survives. *)
Theorem clean_api_response_schema (response : py) :
  exists record,
    clean_api_response E response = Returned record
    /\ dom record = list_to_set required_fields
    /\ (forall k, k ∈ required_fields ->
                  exists v, record !! k = Some v
                            /\ (v = "UNKNOWN" \/ exists recovered, v = py_str E recovered))
    /\ (forall k, k ∉ required_fields -> record !! k = None).
Proof.
  destruct (clean_api_response_dom response) as (record & Hrun & Hdom).
  exists record. rewrite dom_default_data in Hdom.
  split; [exact Hrun | split; [exact Hdom | split]].
  - intros k Hk.
    assert (Hin : k ∈ dom record) by (rewrite Hdom; now apply elem_of_list_to_set).
    apply elem_of_dom in Hin as [v Hv]. exists v. split; [exact Hv |].
    revert Hrun. unfold clean_api_response, try_except_pure.
    match goal with |- context [match ?body with _ => _ end] =>
      destruct body as [r|e] eqn:Hbody end; intros [= <-].
    + unfold mbind, outcome_bind in Hbody.
      repeat match type of Hbody with
             | context [match ?x with _ => _ end] => destruct x; try discriminate
             end;
        injection Hbody as <-;
        (apply update_lookup in Hv as [Hv|Hv];
         [left; now apply default_data_lookup in Hv
         | right; unfold schema_entries in Hv;
           apply dict_of_pairs_elems in Hv;
           apply list_elem_of_fmap in Hv as ([k' pv] & [= -> ->] & _);
           now exists pv]).
    + left. now apply default_data_lookup in Hv.
  - intros k Hk. apply not_elem_of_dom. rewrite Hdom.
    now rewrite elem_of_list_to_set.
Qed.

(** C2.  The sanitizer returns a record for every input, and when every
    recovery tier fails it is the all-defaults record: a text (bare or in
    an envelope) whose normalised form does not parse, with salvage
    switched off or raising because it finds no pair; a value that is
    neither text nor a dictionary. *)
Theorem clean_api_response_total (response : py) :
  (exists record, clean_api_response E response = Returned record)
  /\ (forall s text e,
        unwrap response = Returned (PyStr s) ->
        normalize_text s = Returned text ->
        json_loads E text = Raised e ->
        (is_class JSONDecodeError e = false
         \/ ALLOW_PARTIAL_JSON_PARSE (CONFIG E) = false
         \/ exists e', partial_json_salvage text = Raised e') ->
        clean_api_response E response = Returned default_data)
  /\ (forall payload e,
        unwrap response = Returned payload ->
        (forall s, payload <> PyStr s) ->
        items payload = Raised e ->
        clean_api_response E response = Returned default_data).
Proof.
  split; [| split].
  - destruct (clean_api_response_dom response) as (record & Hrun & _).
    now exists record.
  - intros s text e Hwrap Hnorm Hload Hfail.
    unfold clean_api_response, try_except_pure. rewrite Hwrap.
    unfold mbind, outcome_bind, parse_text, try_except_pure.
    unfold mbind, outcome_bind. rewrite Hnorm, Hload.
    destruct Hfail as [Hcls | [Hoff | [e' Hsalvage]]].
    + now rewrite Hcls.
    + rewrite Hoff. now destruct (is_class JSONDecodeError e).
    + rewrite Hsalvage.
      now destruct (is_class JSONDecodeError e), (ALLOW_PARTIAL_JSON_PARSE (CONFIG E)).
  - intros payload e Hwrap Hstr Hitems.
    unfold clean_api_response, try_except_pure. rewrite Hwrap.
    unfold mbind, outcome_bind.
    destruct payload; try (now rewrite Hitems); [].
    now destruct (Hstr s).
Qed.

End Sanitizer.

(** Prose without any pair, with salvage switched on: salvage raises and
    the record is all defaults. *)
Lemma clean_api_response_total_prose :
  Samples.salvaging_env.(CONFIG).(ALLOW_PARTIAL_JSON_PARSE) = true
  /\ JobExtractor.clean_api_response Samples.salvaging_env
       (PyStr "Sorry, I cannot help with that.")
     = Returned JobExtractor.default_data.
Proof.
  split; [reflexivity |].
  destruct (clean_api_response_total Samples.salvaging_env
              (PyStr "Sorry, I cannot help with that.")) as (_ & Htext & _).
  eapply Htext.
  - reflexivity.
  - reflexivity.
  - reflexivity.
  - right. right. eexists. reflexivity.
Defined.

(** The fenced answer of the specification's end-to-end example: the title
    is recovered, the unknown key is dropped, the other fields are filled. *)
Example clean_api_response_engineer :
  exists record,
    JobExtractor.clean_api_response Samples.engineer_env (PyStr Samples.engineer_raw)
      = Returned record
    /\ record !! "Title" = Some "Engineer"
    /\ record !! "Level" = None
    /\ record !! "Salary" = Some "UNKNOWN"
    /\ size record = 7%nat.
Proof.
  eexists. split; [reflexivity |]. repeat split; vm_compute; reflexivity.
Qed.

(** A truncated object does not parse; with salvage switched on the pair
    that can still be read is recovered, and without it the record is all
    defaults. *)
Example clean_api_response_salvage :
  let raw := PyStr ("{" +:+ Samples.quoted "Title" +:+ ": "
                    +:+ Samples.quoted "Engineer" +:+ ", "
                    +:+ Samples.quoted "Salary" +:+ ": ") in
  (exists record,
     JobExtractor.clean_api_response Samples.salvaging_env raw = Returned record
     /\ record !! "Title" = Some "Engineer"
     /\ record !! "Salary" = Some "UNKNOWN")
  /\ JobExtractor.clean_api_response Samples.provider_down raw
     = Returned JobExtractor.default_data.
Proof.
  split; [| reflexivity].
  eexists. split; [reflexivity |]. split; vm_compute; reflexivity.
Qed.

(** ** The refinement loop *)

Section Refinement.
Import PyString PyDictOps Helpers ApiInterface IterativeRefiner.
Context (E : Env).

Lemma call_api_loop_calls prompt sm model (fuel : nat) :
  forall attempt w,
    api_calls (call_api_loop E fuel attempt prompt sm model w).2 = api_calls w.
Proof.
  induction fuel as [|fuel IH]; intros attempt w; cbn [call_api_loop].
  - reflexivity.
  - destruct (attempt <=? _); [| reflexivity].
    unfold_eff. unfold issue_attempt, sleep.
    destruct (extract_content _); [reflexivity |].
    destruct (attempt <? _); [| reflexivity].
    destruct (exponential_backoff _ _); [| reflexivity].
    rewrite IH. reflexivity.
Qed.

(** A logical call adds exactly one entry to the record of calls. *)
Lemma call_api_records prompt sm model (w : World) :
  api_calls (call_api E prompt sm model w).2
  = (api_calls w ++ [{| req_prompt := prompt;
                        req_system_message := default EmptyString sm;
                        req_model := model_used E model w |}])%list.
Proof.
  unfold call_api, record_call. unfold_eff.
  destruct (resolve_model_returns E model w) as (w1 & -> & _ & Hcalls & _).
  rewrite call_api_loop_calls. cbn [api_calls]. now rewrite Hcalls.
Qed.

Lemma summarize_runs limits section_name original entry prompt (w : World) :
  load_prompt E "section_summarization_prompt" = Returned entry ->
  prompt_format entry [("section_name", PyStr section_name);
                       ("max_chars", PyInt (max_chars limits));
                       ("text", PyStr original)] = Returned prompt ->
  summarize E limits section_name original w
  = match call_api E prompt (Some (system_message entry)) None w with
    | (Returned (Some s), w') => (Returned (strip s), w')
    | (Returned None, w') => (Raised (no_attribute PyNone "strip"), w')
    | (Raised e, w') => (Raised e, w')
    end.
Proof.
  intros Hload Hfmt. unfold summarize. unfold_eff. rewrite Hload, Hfmt.
  destruct (call_api _ _ _ _ _) as [[[s|]|e] w']; reflexivity.
Qed.

Lemma refine_loop_exhausts limits section_name max_iterations i text w j text' w' :
  shrink_steps E limits section_name i text w j text' w' ->
  j = max_iterations ->
  refine_loop E (Z.to_nat (max_iterations - i)) limits section_name
              max_iterations text i w
  = (Returned (text', max_iterations), w')
  /\ i <= j.
Proof.
  induction 1 as [i text w | i text w refined w1 j text' w' Hout Hllm _ IH];
    intros Hj.
  - subst i. rewrite Z.sub_diag. cbn. split; [reflexivity | lia].
  - destruct (IH Hj) as [Hrun Hle]. split; [| lia].
    replace (Z.to_nat (max_iterations - i))
      with (S (Z.to_nat (max_iterations - (i + 1)))) by lia.
    cbn [refine_loop].
    replace (i <? max_iterations) with true by (symmetry; apply Z.ltb_lt; lia).
    rewrite Hout. unfold mbind at 1. unfold M_bind. rewrite Hllm. exact Hrun.
Qed.

(** When the loop runs out of iterations, what [refine_section] does is
    the summarization of the original text, in the world the loop left. *)
Lemma refine_section_exhausted text section_name max_iterations limits text' w w1 :
  validate_section_limits (CONFIG E) section_name = Returned limits ->
  shrink_steps E limits section_name 0 text w max_iterations text' w1 ->
  refine_section E text section_name max_iterations w
  = try_except (summarize E limits section_name text)
               (fun e => raise (refinement_failed e)) w1.
Proof.
  intros Hlim Hsteps.
  destruct (refine_loop_exhausts _ _ max_iterations _ _ _ _ _ _ Hsteps eq_refl)
    as [Hrun _].
  rewrite Z.sub_0_r in Hrun.
  unfold refine_section. unfold_eff. rewrite Hlim, Hrun.
  replace (max_iterations >=? max_iterations) with true
    by (symmetry; apply Z.geb_le; lia).
  reflexivity.
Qed.

(** A text inside the limits leaves the loop at once. *)
Lemma refine_section_accepts text section_name max_iterations limits w :
  validate_section_limits (CONFIG E) section_name = Returned limits ->
  within_limits limits text = true ->
  1 <= max_iterations ->
  refine_section E text section_name max_iterations w = (Returned text, w).
Proof.
  intros Hlim Hok Hmax.
  unfold refine_section. unfold_eff. rewrite Hlim.
  replace (Z.to_nat max_iterations) with (S (Z.to_nat (max_iterations - 1))) by lia.
  cbn [refine_loop].
  replace (0 <? max_iterations) with true by (symmetry; apply Z.ltb_lt; lia).
  rewrite Hok. unfold_eff.
  replace (0 >=? max_iterations) with false by (symmetry; rewrite Z.geb_leb; apply Z.leb_gt; lia).
  reflexivity.
Qed.

Lemma refine_loop_breaks limits section_name max_iterations i text w j text' w' :
  shrink_steps E limits section_name i text w j text' w' ->
  j < max_iterations ->
  within_limits limits text' = true ->
  refine_loop E (Z.to_nat (max_iterations - i)) limits section_name
              max_iterations text i w
  = (Returned (text', j), w').
Proof.
  induction 1 as [i text w | i text w refined w1 j text' w' Hout Hllm Hrest IH];
    intros Hj Hok.
  - replace (Z.to_nat (max_iterations - i))
      with (S (Z.to_nat (max_iterations - (i + 1)))) by lia.
    cbn [refine_loop].
    replace (i <? max_iterations) with true by (symmetry; apply Z.ltb_lt; lia).
    now rewrite Hok.
  - assert (i + 1 <= j).
    { clear -Hrest. induction Hrest; lia. }
    replace (Z.to_nat (max_iterations - i))
      with (S (Z.to_nat (max_iterations - (i + 1)))) by lia.
    cbn [refine_loop].
    replace (i <? max_iterations) with true by (symmetry; apply Z.ltb_lt; lia).
    rewrite Hout. unfold mbind at 1. unfold M_bind. rewrite Hllm. now apply IH.
Qed.

(** When a shrunk text passes the test before the iterations run out, it is
    the result: the original text does not come back, and no summary is
    asked for. *)
Lemma refine_section_stops_when_accepted
    text section_name max_iterations limits k text' w w1 :
  validate_section_limits (CONFIG E) section_name = Returned limits ->
  shrink_steps E limits section_name 0 text w k text' w1 ->
  k < max_iterations ->
  within_limits limits text' = true ->
  refine_section E text section_name max_iterations w = (Returned text', w1).
Proof.
  intros Hlim Hsteps Hk Hok.
  pose proof (refine_loop_breaks _ _ max_iterations _ _ _ _ _ _ Hsteps Hk Hok) as Hrun.
  rewrite Z.sub_0_r in Hrun.
  unfold refine_section. unfold_eff. rewrite Hlim, Hrun.
  replace (k >=? max_iterations) with false
    by (symmetry; rewrite Z.geb_leb; apply Z.leb_gt; lia).
  reflexivity.
Qed.

Lemma refine_via_llm_one_call text pct section_name r (w w1 : World) :
  refine_section_via_llm E text pct section_name w = (Returned r, w1) ->
  length (api_calls w1) = S (length (api_calls w)).
Proof.
  unfold refine_section_via_llm. unfold_eff.
  destruct (load_prompt E _) as [entry|]; [| discriminate].
  destruct (prompt_format entry _) as [prompt|]; [| discriminate].
  pose proof (call_api_records prompt (Some (system_message entry)) None w) as Hrec.
  destruct (call_api _ _ _ _ _) as [[[s|]|e] w2]; cbn [snd] in Hrec;
    try discriminate.
  destruct (is_empty s); [discriminate |].
  intros [= _ <-]. rewrite Hrec, length_app. cbn. lia.
Qed.

Lemma shrink_steps_calls limits section_name i text w j text' w' :
  shrink_steps E limits section_name i text w j text' w' ->
  i <= j
  /\ length (api_calls w') = (length (api_calls w) + Z.to_nat (j - i))%nat.
Proof.
  induction 1 as [i text w | i text w refined w1 j text' w' _ Hllm _ [IHle IH]].
  - rewrite Z.sub_diag. cbn. split; lia.
  - apply refine_via_llm_one_call in Hllm. split; lia.
Qed.

Lemma validate_derives_limits section_name limits :
  validate_section_limits (CONFIG E) section_name = Returned limits ->
  max_words limits = max_chars limits `div` 5
  /\ max_tokens limits = max_chars limits `div` 4.
Proof.
  unfold validate_section_limits, try_except_pure. unfold mbind, outcome_bind.
  repeat match goal with
         | |- context [if ?b then _ else _] => destruct b
         end; intros [= <-]; auto.
Qed.

Lemma estimate_tokens_floor text :
  estimate_tokens text
  = (13 * Z.of_nat (length (split_whitespace text))) `div` 10.
Proof.
  unfold estimate_tokens, py_int. cbn [Qnum Qden Qmult inject_Z].
  rewrite Z.quot_div_nonneg by lia. f_equal. lia.
Qed.

(** C5.  When the loop has made all [max_iterations] shrink attempts
    without the text ever passing the test, [refine_section] makes
    exactly one more call: the summarization prompt built from the
    original text and the category's [max_chars].  Its stripped answer is
    the result, whatever its size. *)
Theorem refine_section_fallback_after_exhaustion
    (text section_name : string) (max_iterations : Z) (limits : Limits)
    (text' : string) (w w1 : World) (entry : prompt_entry) (prompt : string) :
  validate_section_limits (CONFIG E) section_name = Returned limits ->
  shrink_steps E limits section_name 0 text w max_iterations text' w1 ->
  load_prompt E "section_summarization_prompt" = Returned entry ->
  prompt_format entry [("section_name", PyStr section_name);
                       ("max_chars", PyInt (max_chars limits));
                       ("text", PyStr text)] = Returned prompt ->
  let call := call_api E prompt (Some (system_message entry)) None w1 in
  length (api_calls w1) = (length (api_calls w) + Z.to_nat max_iterations)%nat
  /\ api_calls call.2
     = (api_calls w1 ++ [{| req_prompt := prompt;
                            req_system_message := system_message entry;
                            req_model := model_used E None w1 |}])%list
  /\ (forall s, call.1 = Returned (Some s) ->
                refine_section E text section_name max_iterations w
                = (Returned (strip s), call.2))
  /\ (forall e, call.1 = Raised e ->
                refine_section E text section_name max_iterations w
                = (Raised (refinement_failed e), call.2)).
Proof.
  intros Hlim Hsteps Hload Hfmt call.
  pose proof (refine_section_exhausted _ _ _ _ _ _ _ Hlim Hsteps) as Hrun.
  unfold try_except in Hrun.
  rewrite (summarize_runs _ _ _ _ _ _ Hload Hfmt) in Hrun. fold call in Hrun.
  split; [| split; [| split]].
  - destruct (shrink_steps_calls _ _ _ _ _ _ _ _ Hsteps) as [_ Hn].
    now rewrite Z.sub_0_r in Hn.
  - apply call_api_records.
  - intros s Hs. rewrite Hrun. destruct call as [r w2]. cbn in Hs |- *.
    now rewrite Hs.
  - intros e He. rewrite Hrun. destruct call as [r w2]. cbn in He |- *.
    now rewrite He.
Qed.

(** C6.  A text that satisfies the acceptance test of its category
    (characters within [max_chars * (1 + tolerance)], words within
    [max_chars // 5], estimated tokens [int(words * 1.3)] within
    [max_chars // 4]) comes back unchanged from [refine_section] with the
    default iteration budget, and the world records no call. *)
Theorem refine_section_converged_is_identity
    (text section_name : string) (limits : Limits) (w : World) :
  validate_section_limits (CONFIG E) section_name = Returned limits ->
  (inject_Z (Z.of_nat (String.length text))
   <= inject_Z (max_chars limits) * (1 + tolerance limits))%Q ->
  Z.of_nat (length (split_whitespace text)) <= max_chars limits `div` 5 ->
  (13 * Z.of_nat (length (split_whitespace text))) `div` 10
    <= max_chars limits `div` 4 ->
  refine_section E text section_name default_max_iterations w = (Returned text, w).
Proof.
  intros Hlim Hchars Hwords Htokens.
  destruct (validate_derives_limits _ _ Hlim) as [Hw Ht].
  apply (refine_section_accepts _ _ _ limits); [exact Hlim | | unfold default_max_iterations; lia].
  unfold within_limits. rewrite estimate_tokens_floor, Hw, Ht.
  apply Qle_bool_iff in Hchars. rewrite Hchars.
  apply Z.leb_le in Hwords, Htokens. now rewrite Hwords, Htokens.
Qed.

(** C10.  With [max_iterations = 0] the fallback is unconditional: one
    summarization call is made and its stripped answer returned, for any
    text, also one inside the limits.  From [max_iterations = 1] on, a
    text inside the limits comes back unchanged with no call. *)
Theorem refine_section_zero_iterations
    (text section_name : string) (limits : Limits) (w : World)
    (entry : prompt_entry) (prompt : string) :
  validate_section_limits (CONFIG E) section_name = Returned limits ->
  load_prompt E "section_summarization_prompt" = Returned entry ->
  prompt_format entry [("section_name", PyStr section_name);
                       ("max_chars", PyInt (max_chars limits));
                       ("text", PyStr text)] = Returned prompt ->
  let call := call_api E prompt (Some (system_message entry)) None w in
  api_calls call.2
  = (api_calls w ++ [{| req_prompt := prompt;
                        req_system_message := system_message entry;
                        req_model := model_used E None w |}])%list
  /\ (forall s, call.1 = Returned (Some s) ->
                refine_section E text section_name 0 w
                = (Returned (strip s), call.2))
  /\ (forall max_iterations,
        1 <= max_iterations ->
        within_limits limits text = true ->
        refine_section E text section_name max_iterations w = (Returned text, w)).
Proof.
  intros Hlim Hload Hfmt call.
  pose proof (refine_section_exhausted text section_name 0 limits text w w Hlim
                (shrink_done E limits section_name 0 text w)) as Hrun.
  unfold try_except in Hrun.
  rewrite (summarize_runs _ _ _ _ _ _ Hload Hfmt) in Hrun. fold call in Hrun.
  split; [| split].
  - apply call_api_records.
  - intros s Hs. rewrite Hrun. destruct call as [r w2]. cbn in Hs |- *.
    now rewrite Hs.
  - intros max_iterations Hmax Hok. now apply (refine_section_accepts _ _ _ limits).
Qed.

End Refinement.

(** A short overview is returned as it is, in an untouched world. *)
Lemma refine_section_converged_short_text :
  IterativeRefiner.refine_section Samples.wordy_provider Samples.short_text
    "overview" IterativeRefiner.default_max_iterations initial_world
  = (Returned Samples.short_text, initial_world).
Proof.
  apply (refine_section_converged_is_identity Samples.wordy_provider
           Samples.short_text "overview" Samples.overview_limits initial_world).
  - reflexivity.
  - apply Qle_bool_iff. reflexivity.
  - vm_compute. discriminate.
  - vm_compute. discriminate.
Defined.

(** With no iterations allowed, the same short overview, inside its limits,
    is replaced by the answer to one summarization call. *)
Lemma refine_section_zero_iterations_short_text :
  IterativeRefiner.within_limits Samples.overview_limits Samples.short_text = true
  /\ exists w',
       IterativeRefiner.refine_section Samples.wordy_provider Samples.short_text
         "overview" 0 initial_world
       = (Returned Samples.long_answer, w')
       /\ length (api_calls w') = 1%nat.
Proof.
  split; [reflexivity |].
  destruct (refine_section_zero_iterations Samples.wordy_provider
              Samples.short_text "overview" Samples.overview_limits initial_world
              Samples.summarization_entry
              "Summarize in 500 characters: Short text.")
    as (Hcalls & Hrun & _); [reflexivity | reflexivity | reflexivity |].
  eexists. split.
  - exact (Hrun Samples.long_answer eq_refl).
  - rewrite Hcalls. reflexivity.
Defined.

(** Two shrink passes that both leave the text too long, then the
    summary: three calls in all, and the summary is returned although it
    is itself outside the limits. *)
Lemma refine_section_fallback_long_text :
  exists text' w1 w',
    IterativeRefiner.shrink_steps Samples.wordy_provider Samples.skill_limits
      "skills" 0 Samples.long_text initial_world 2 text' w1
    /\ IterativeRefiner.within_limits Samples.skill_limits Samples.long_answer = false
    /\ IterativeRefiner.refine_section Samples.wordy_provider Samples.long_text
         "skills" 2 initial_world
       = (Returned Samples.long_answer, w')
    /\ length (api_calls w') = 3%nat.
Proof.
  assert (Hsteps :
    { tw : string * World &
      IterativeRefiner.shrink_steps Samples.wordy_provider Samples.skill_limits
        "skills" 0 Samples.long_text initial_world 2 tw.1 tw.2 }).
  { eexists (_, _). cbn [fst snd].
    eapply IterativeRefiner.shrink_more; [reflexivity | reflexivity |].
    eapply IterativeRefiner.shrink_more; [reflexivity | reflexivity |].
    apply IterativeRefiner.shrink_done. }
  destruct Hsteps as [[text' w1] Hsteps]. cbn [fst snd] in Hsteps.
  destruct (refine_section_fallback_after_exhaustion Samples.wordy_provider
              Samples.long_text "skills" 2 Samples.skill_limits text' initial_world w1
              Samples.summarization_entry
              ("Summarize in 50 characters: " +:+ Samples.long_text))
    as (Hshrinks & Hcalls & Hrun & _);
    [reflexivity | exact Hsteps | reflexivity | reflexivity |].
  exists text', w1. eexists. split; [exact Hsteps | split; [reflexivity | split]].
  - exact (Hrun Samples.long_answer eq_refl).
  - rewrite Hcalls, length_app, Hshrinks. reflexivity.
Defined.

(** The default section name is not a category: the call raises before
    any model call. *)
Example refine_section_default_section_name :
  IterativeRefiner.refine_section Samples.wordy_provider Samples.short_text
    IterativeRefiner.default_section_name IterativeRefiner.default_max_iterations
    initial_world
  = (Raised (Exn RefinementError
               "Failed to refine section: Failed to get limits for section: Unknown section type: section"
               None),
     initial_world).
Proof. reflexivity. Qed.

(** ** The optimization stages *)

Section Optimizer.
Import PyString PyDictOps PyBuiltins ApiInterface IterativeRefiner MatchOptimizer.
Context (E : Env).

(** What [optimize_skills] does with a non-empty answer of the model. *)
Lemma optimize_skills_on_answer (skills : list string) (job_description : string)
    (w w' : World) (response : string) :
  skills <> [] ->
  ask E (skills_prompt skills job_description)
      "Return exactly 10 comma-separated skills." w
    = (Returned (Some response), w') ->
  response <> EmptyString ->
  let skill_list := strip <$> split_char ","%char response in
  optimize_skills E skills job_description w
  = if bool_decide (length skill_list ≠ 10%nat)
    then (Raised (optimizer_error
                    ("Failed to optimize skills: Expected 10 skills, got "
                     +:+ pretty (length skill_list))), w')
    else (Returned (join ", " skill_list), w').
Proof.
  intros Hpool Hask Hne skill_list.
  unfold optimize_skills. destruct skills as [|sk skills]; [done |].
  unfold_eff. rewrite Hask.
  destruct response as [|c response]; [done |]. cbn [is_empty].
  fold skill_list. now destruct (bool_decide _).
Qed.

(** C4, as the code has it.  For a non-empty answer of the model: a count
    other than ten after splitting on commas and trimming raises the
    count-mismatch error, with nothing repaired; a count of ten makes the
    stage succeed, and the result is one string, the ten trimmed skills
    in the order of the answer joined by a comma and a space. *)
Theorem optimize_skills_cardinality (skills : list string) (job_description : string)
    (w w' : World) (response : string) :
  skills <> [] ->
  ask E (skills_prompt skills job_description)
      "Return exactly 10 comma-separated skills." w
    = (Returned (Some response), w') ->
  response <> EmptyString ->
  let skill_list := strip <$> split_char ","%char response in
  (length skill_list <> 10%nat ->
   optimize_skills E skills job_description w
   = (Raised (Exn MatchOptimizerError
                  ("Failed to optimize skills: Expected 10 skills, got "
                   +:+ pretty (length skill_list)) None), w'))
  /\ (length skill_list = 10%nat ->
      optimize_skills E skills job_description w
      = (Returned (join ", " skill_list), w')).
Proof.
  intros Hpool Hask Hne skill_list.
  rewrite (optimize_skills_on_answer _ _ _ _ _ Hpool Hask Hne). fold skill_list.
  split; intros Hlen.
  - now rewrite bool_decide_eq_true_2.
  - now rewrite bool_decide_eq_false_2 by (intros H; now apply H).
Qed.

Lemma evaluate_match_has_fields objective skills bullets job_description
    (w w' : World) (evaluation : list (string * py)) :
  evaluate_match E objective skills bullets job_description w
    = (Returned evaluation, w') ->
  is_Some (dict_lookup "match_rating" evaluation)
  /\ is_Some (dict_lookup "explanation" evaluation).
Proof.
  unfold evaluate_match. unfold_eff.
  destruct (ask E _ _ w) as [[[s|]|e] w1]; try discriminate.
  destruct (is_empty s); [discriminate |].
  destruct (json_loads E s) as [[| | | | | |d|]|e]; try discriminate.
  destruct (missing_field d) as [key|] eqn:Hmiss; [discriminate |].
  intros [= <- _].
  unfold missing_field in Hmiss. cbn in Hmiss.
  destruct (dict_lookup "match_rating" d) as [rating|]; [| discriminate].
  destruct (dict_lookup "explanation" d) as [explanation|]; [| discriminate].
  split; eexists; reflexivity.
Qed.

(** C3, as the code has it.  [optimize_match] never raises.  What it
    returns is either [None], or a bundle all of whose parts are the
    results of the four stages, each of which succeeded, with an
    evaluation that has a rating and an explanation and with the job
    data echoed; nothing in between.  With the resume list bound to the
    empty list, as it is in the source, the result is [None]. *)
Theorem optimize_match_none_or_complete (all_resumes : list Resume)
    (job_data : JobData) (w : World) :
  optimize_match E job_data w = (Returned None, w)
  /\
  ((exists w', optimize_match_from E all_resumes job_data w = (Returned None, w'))
   \/ (exists b w',
        optimize_match_from E all_resumes job_data w = (Returned (Some b), w')
        /\ all_resumes <> []
        /\ staged E all_resumes job_data b w w'
        /\ is_Some (dict_lookup "match_rating" (job_match_evaluation b))
        /\ is_Some (dict_lookup "explanation" (job_match_evaluation b))
        /\ job_json b = job_data)).
Proof.
  split; [reflexivity |].
  unfold optimize_match_from.
  destruct all_resumes as [|r0 rs]; [left; eexists; reflexivity |].
  set (resumes := r0 :: rs). unfold_eff.
  destruct (optimize_objective E _ _ w) as [[o|e] w1] eqn:Ho;
    [| left; eexists; reflexivity].
  destruct (optimize_skills E _ _ w1) as [[sk|e] w2] eqn:Hs;
    [| left; eexists; reflexivity].
  destruct (optimize_bullets E _ _ w2) as [[bl|e] w3] eqn:Hb;
    [| left; eexists; reflexivity].
  destruct (evaluate_match E o sk bl _ w3) as [[ev|e] w4] eqn:He;
    [| left; eexists; reflexivity].
  right. eexists. exists w4. split; [reflexivity |].
  destruct (evaluate_match_has_fields _ _ _ _ _ _ _ He) as [Hr Hx].
  split; [done |]. split; [| auto].
  exists w1, w2, w3. cbn. auto.
Qed.

End Optimizer.

(** An answer of ten items, one of them padded with a space. *)
Lemma optimize_skills_cardinality_ten :
  exists w',
    MatchOptimizer.optimize_skills Samples.skills_provider ["sql"; "python"]
      "Builds data pipelines." initial_world
    = (Returned "a, b, c, d, e, f, g, h, i, j", w').
Proof.
  eexists.
  apply (optimize_skills_cardinality Samples.skills_provider ["sql"; "python"]
           "Builds data pipelines." initial_world
           (MatchOptimizer.ask Samples.skills_provider
              (MatchOptimizer.skills_prompt ["sql"; "python"] "Builds data pipelines.")
              "Return exactly 10 comma-separated skills." initial_world).2
           Samples.ten_skills).
  - discriminate.
  - vm_compute. reflexivity.
  - discriminate.
  - reflexivity.
Defined.

(** C4 as stated fails: on an answer of ten items the stage returns a
    [str], not the list of the ten skills. *)
Lemma optimize_skills_returns_text_not_list :
  exists (result : string) (w' : World),
    MatchOptimizer.optimize_skills Samples.skills_provider ["sql"; "python"]
      "Builds data pipelines." initial_world
    = (Returned result, w')
    /\ result = "a, b, c, d, e, f, g, h, i, j"
    /\ PyStr result
       <> PyList (PyStr <$> ["a"; "b"; "c"; "d"; "e"; "f"; "g"; "h"; "i"; "j"])
    /\ String.length result <> 10%nat.
Proof.
  eexists. eexists. split; [vm_compute; reflexivity |].
  split; [reflexivity |]. split; [discriminate | vm_compute; discriminate].
Qed.

(** ** Pairing slots by length *)

Section Pairing.
Import PyBuiltins PlaceholderMatcher.

Lemma mapM_Returned_fmap {A B} (f : A -> outcome B) (g : A -> B) (l : list A) :
  (forall x, x ∈ l -> f x = Returned (g x)) ->
  mapM f l = Returned (g <$> l).
Proof.
  induction l as [|x l IH]; intros Hf.
  - reflexivity.
  - change (mapM f (x :: l))
      with (f x ≫= fun y => mapM f l ≫= fun k => mret (y :: k)).
    rewrite (Hf x) by left.
    rewrite IH by (intros y Hy; apply Hf; now right). reflexivity.
Qed.

Lemma insert_desc_Permutation {A} (lt : A -> A -> bool) (x : A) (l : list A) :
  insert_desc lt x l ≡ₚ x :: l.
Proof.
  induction l as [|y l IH]; cbn.
  - reflexivity.
  - destruct (lt x y); [| reflexivity].
    rewrite IH. apply Permutation_swap.
Qed.

Lemma sorted_reverse_Permutation {A} (lt : A -> A -> bool) (l : list A) :
  sorted_reverse lt l ≡ₚ l.
Proof.
  unfold sorted_reverse. induction l as [|x l IH]; cbn.
  - reflexivity.
  - now rewrite insert_desc_Permutation, IH.
Qed.



Lemma StronglySorted_lookup_lt {A} (R : relation A) (l : list A) :
  StronglySorted R l ->
  forall i j x y, (i < j)%nat -> l !! i = Some x -> l !! j = Some y -> R x y.
Proof.
  induction 1 as [|a l _ IH Hall]; intros i j x y Hij Hi Hj.
  - now rewrite lookup_nil in Hi.
  - destruct j as [|j]; [lia |]. cbn in Hj.
    destruct i as [|i]; cbn in Hi.
    + injection Hi as <-. rewrite Forall_forall in Hall.
      apply Hall. eapply list_elem_of_lookup_2. exact Hj.
    + apply (IH i j); [lia | exact Hi | exact Hj].
Qed.

Lemma skills_list_returns (skills_dict skills_texts : gmap Z string) :
  skills_list skills_dict skills_texts
  = Returned (slot_of skills_dict skills_texts
                <$> merge_sort Z.le (elements (dom skills_dict))).
Proof.
  unfold skills_list. apply mapM_Returned_fmap.
  intros num Hnum. rewrite merge_sort_Permutation in Hnum.
  apply elem_of_elements, elem_of_dom in Hnum as [placeholder Hp].
  unfold slot_of. now rewrite Hp.
Qed.

Lemma half_bounds (n : nat) :
  (2 * (n / 2) <= n
   /\ (Nat.Even n -> n = 2 * (n / 2))
   /\ (Nat.Odd n -> n = 2 * (n / 2) + 1))%nat.
Proof.
  pose proof (Nat.div_mod_eq n 2) as Hdiv.
  pose proof (Nat.mod_upper_bound n 2) as Hmod.
  split; [lia | split].
  - intros [k Hk].
    assert (n mod 2 = 0)%nat
      by (subst n; rewrite Nat.mul_comm; apply Nat.Div0.mod_mul).
    lia.
  - intros [k Hk].
    assert (n mod 2 = 1)%nat.
    { subst n. rewrite Nat.add_comm, Nat.mul_comm, Nat.Div0.mod_add. reflexivity. }
    lia.
Qed.


End Pairing.

(** Four slots give two pairs, longest with shortest. *)
Example pair_skills_by_length_four :
  PlaceholderMatcher.pair_skills_by_length Samples.four_placeholders Samples.skill_texts
  = Returned [("<SKILL 3>", "Go lang", "<SKILL 2>", "C");
              ("<SKILL 1>", "Python", "<SKILL 4>", "SQL")].
Proof. vm_compute. reflexivity. Qed.

(** Five slots give two pairs; slot 4, the middle of the order, is left out. *)
Example pair_skills_by_length_five :
  PlaceholderMatcher.pair_skills_by_length Samples.five_placeholders Samples.skill_texts
  = Returned [("<SKILL 3>", "Go lang", "<SKILL 5>", EmptyString);
              ("<SKILL 1>", "Python", "<SKILL 2>", "C")].
Proof. vm_compute. reflexivity. Qed.

(** With resume records at hand and a provider that answers every stage,
    the bundle is complete. *)
Example optimize_match_from_complete :
  exists b w',
    MatchOptimizer.optimize_match_from Samples.staged_provider [Samples.resume]
      Samples.job initial_world = (Returned (Some b), w')
    /\ MatchOptimizer.new_objective b = "A focused data engineer."
    /\ MatchOptimizer.optimized_skills b = "a, b, c, d, e, f, g, h, i, j"
    /\ length (MatchOptimizer.optimized_bullets b) = 1%nat
    /\ PyDictOps.dict_lookup "match_rating" (MatchOptimizer.job_match_evaluation b)
       = Some (PyInt 85)
    /\ MatchOptimizer.job_json b = Samples.job
    /\ length (api_calls w') = 4%nat.
Proof.
  eexists. eexists. split; [vm_compute; reflexivity |].
  repeat split.
Qed.

(** C3 as stated fails: [optimize_match] returns [None], which is neither
    a bundle nor a raised error; so does the body when a stage fails. *)
Lemma optimize_match_returns_none :
  MatchOptimizer.optimize_match Samples.staged_provider Samples.job initial_world
    = (Returned None, initial_world)
  /\ (MatchOptimizer.optimize_match_from Samples.provider_down [Samples.resume]
        Samples.job initial_world).1 = Returned None
  /\ ~ ((exists b w',
           MatchOptimizer.optimize_match Samples.staged_provider Samples.job
             initial_world = (Returned (Some b), w'))
        \/ (exists e w',
              MatchOptimizer.optimize_match Samples.staged_provider Samples.job
                initial_world = (Raised e, w'))).
Proof.
  split; [reflexivity | split; [vm_compute; reflexivity |]].
  intros [(b & w' & H) | (e & w' & H)]; discriminate H.
Qed.

(** ** The loops are not cut short by their fuel *)

Section Fuel.
Import PyString Helpers ApiInterface IterativeRefiner.
Context (E : Env).

(** More passes than [max_attempts - attempt + 1] change nothing. *)
Lemma call_api_loop_fuel prompt sm model (extra : nat) :
  forall (fuel : nat) (attempt : Z) (w : World),
    API_MAX_ATTEMPTS (CONFIG E) - attempt + 1 <= Z.of_nat fuel ->
    call_api_loop E (fuel + extra) attempt prompt sm model w
    = call_api_loop E fuel attempt prompt sm model w.
Proof.
  induction fuel as [|fuel IH]; intros attempt w Hfuel.
  - destruct extra as [|extra]; [reflexivity |]. cbn [Nat.add call_api_loop].
    replace (attempt <=? _) with false by (symmetry; apply Z.leb_gt; lia).
    reflexivity.
  - cbn [Nat.add call_api_loop].
    destruct (attempt <=? _); [| reflexivity].
    unfold_eff. destruct (issue_attempt E prompt sm model w) as [[c|e] w1];
      [reflexivity |].
    destruct (attempt <? _); [| reflexivity].
    destruct (exponential_backoff _ _); [| reflexivity].
    destruct (sleep _ w1) as [[[]|e'] w2]; [| reflexivity].
    apply IH. lia.
Qed.

(** More passes than [max_iterations - iteration] change nothing. *)
Lemma refine_loop_fuel limits section_name max_iterations (extra : nat) :
  forall (fuel : nat) (text : string) (iteration : Z) (w : World),
    max_iterations - iteration <= Z.of_nat fuel ->
    refine_loop E (fuel + extra) limits section_name max_iterations text iteration w
    = refine_loop E fuel limits section_name max_iterations text iteration w.
Proof.
  induction fuel as [|fuel IH]; intros text iteration w Hfuel.
  - destruct extra as [|extra]; [reflexivity |]. cbn [Nat.add refine_loop].
    replace (iteration <? _) with false by (symmetry; apply Z.ltb_ge; lia).
    reflexivity.
  - cbn [Nat.add refine_loop].
    destruct (iteration <? _); [| reflexivity].
    destruct (within_limits limits text); [reflexivity |].
    unfold_eff.
    destruct (refine_section_via_llm E text _ section_name w) as [[r|e] w1];
      [| reflexivity].
    apply IH. lia.
Qed.

Lemma lstrip_length (s : string) :
  (String.length (lstrip s) <= String.length s)%nat.
Proof.
  induction s as [|c s IH]; cbn; [lia |].
  destruct (py_isspace c); cbn; lia.
Qed.

Lemma span_unquoted_length (s : string) :
  (String.length (span_unquoted s).2 <= String.length s)%nat.
Proof.
  induction s as [|c s IH]; cbn; [lia |].
  destruct (Ascii.eqb c quote); cbn; [lia |].
  destruct (span_unquoted s) as [p r]. cbn in *. lia.
Qed.

Lemma quoted_group_length (s g rest : string) :
  quoted_group s = Some (g, rest) ->
  (String.length rest < String.length s)%nat.
Proof.
  unfold quoted_group. destruct s as [|c s]; [discriminate |].
  destruct (Ascii.eqb c quote); [| discriminate].
  pose proof (span_unquoted_length s) as Hlen.
  destruct (span_unquoted s) as [[|k ks] [|q r]]; try discriminate.
  intros [= _ <-]. cbn in *. lia.
Qed.

Lemma match_pair_length (s key value rest : string) :
  match_pair s = Some (key, value, rest) ->
  (String.length rest < String.length s)%nat.
Proof.
  unfold match_pair.
  destruct (quoted_group s) as [[k s1]|] eqn:Hk; [| discriminate]. cbn.
  apply quoted_group_length in Hk.
  pose proof (lstrip_length s1) as H1.
  destruct (lstrip s1) as [|c s2]; [discriminate |].
  destruct (Ascii.eqb c ":"%char); [| discriminate].
  destruct (quoted_group (lstrip s2)) as [[v r]|] eqn:Hv; [| discriminate]. cbn.
  apply quoted_group_length in Hv.
  pose proof (lstrip_length s2) as H2.
  intros [= _ _ <-]. cbn in *. lia.
Qed.

(** [findall_pairs] visits every position with the fuel
    [partial_json_salvage] gives it. *)
Lemma findall_pairs_fuel (extra : nat) :
  forall (fuel : nat) (s : string),
    (String.length s < fuel)%nat ->
    findall_pairs (fuel + extra) s = findall_pairs fuel s.
Proof.
  induction fuel as [|fuel IH]; intros s Hfuel; [lia |].
  cbn [Nat.add findall_pairs].
  destruct (match_pair s) as [[[key value] rest]|] eqn:Hm.
  - apply match_pair_length in Hm. f_equal. apply IH. lia.
  - destruct s as [|c s]; [reflexivity |]. cbn in Hfuel.
    destruct fuel as [|fuel']; [lia |]. apply IH. lia.
Qed.

End Fuel.

(** ** More on the retry loop: bounds that hold in every environment *)

Section RetryBounds.
Import PyString ApiInterface.
Context (E : Env).




(** X1.  With a ceiling of zero or fewer attempts [call_api] asks nobody,
    sleeps not at all and returns [None] instead of raising. *)
Theorem call_api_without_attempts (prompt : string) (sm model : option string)
    (w : World) :
  API_MAX_ATTEMPTS (CONFIG E) <= 0 ->
  (call_api E prompt sm model w).1 = Returned None
  /\ attempts (call_api E prompt sm model w).2 = attempts w
  /\ sleeps (call_api E prompt sm model w).2 = sleeps w.
Proof.
  intros Hmax.
  destruct (resolve_model_returns E model w) as (w0 & Hres & Hatt & _ & Hsl).
  unfold call_api, record_call. unfold_eff. rewrite Hres.
  replace (Z.to_nat (API_MAX_ATTEMPTS (CONFIG E))) with 0%nat by lia.
  cbn. auto.
Qed.

End RetryBounds.

(** A provider that would answer at once is not asked. *)
Lemma call_api_without_attempts_sample :
  API_MAX_ATTEMPTS (CONFIG sample_no_attempts_env) <= 0
  /\ (ApiInterface.call_api sample_no_attempts_env "prompt" None None initial_world).1
     = Returned None
  /\ attempts (ApiInterface.call_api sample_no_attempts_env "prompt" None None
                 initial_world).2 = [].
Proof.
  split; [cbn; lia |].
  destruct (call_api_without_attempts sample_no_attempts_env "prompt" None None
              initial_world) as (Hr & Ha & _); [cbn; lia |].
  split; [exact Hr | exact Ha].
Defined.

Section BackoffOrder.
Import ApiInterface.


End BackoffOrder.


(** ** More on the refinement loop: what holds of every run *)

Section StripFacts.
Import PyString.

Lemma lstrip_idempotent (s : string) : lstrip (lstrip s) = lstrip s.
Proof.
  induction s as [|c s IH]; cbn; [reflexivity |].
  destruct (py_isspace c) eqn:Hc; [exact IH |]. cbn. now rewrite Hc.
Qed.

Lemma rstrip_idempotent (s : string) : rstrip (rstrip s) = rstrip s.
Proof.
  induction s as [|c s IH]; cbn; [reflexivity |].
  destruct (is_empty (rstrip s) && py_isspace c) eqn:Hc; cbn; [reflexivity |].
  now rewrite IH, Hc.
Qed.

(** Stripping on the left does not uncover whitespace on the right. *)
Lemma rstrip_lstrip (s : string) : rstrip s = s -> rstrip (lstrip s) = lstrip s.
Proof.
  induction s as [|c s IH]; cbn; [reflexivity |].
  destruct (is_empty (rstrip s) && py_isspace c) eqn:Hc; [discriminate |].
  intros [= Hs]. destruct (py_isspace c) eqn:Hsp.
  - now apply IH.
  - cbn. rewrite Hs, Hsp, andb_false_r. reflexivity.
Qed.

Lemma strip_idempotent (s : string) : strip (strip s) = strip s.
Proof.
  unfold strip.
  rewrite (rstrip_lstrip (rstrip s)) by apply rstrip_idempotent.
  apply lstrip_idempotent.
Qed.

End StripFacts.

Section RefinementBounds.
Import PyString PyDictOps Helpers ApiInterface IterativeRefiner.
Context (E : Env).

Lemma call_api_one_record prompt sm model (w : World) :
  length (api_calls (call_api E prompt sm model w).2) = S (length (api_calls w)).
Proof. rewrite call_api_records, length_app. cbn. lia. Qed.

Lemma via_llm_run text pct section_name (w w' : World) (r : outcome string) :
  refine_section_via_llm E text pct section_name w = (r, w') ->
  (length (api_calls w') <= S (length (api_calls w)))%nat
  /\ (forall e, r = Raised e -> exn_cls e = RefinementError)
  /\ (forall x, r = Returned x -> strip x = x).
Proof.
  unfold refine_section_via_llm. unfold_eff.
  destruct (load_prompt E _) as [entry|e0].
  2:{ intros [= <- <-]. split_and!; [lia | now intros e [= <-] | discriminate]. }
  destruct (prompt_format entry _) as [prompt|e0].
  2:{ intros [= <- <-]. split_and!; [lia | now intros e [= <-] | discriminate]. }
  pose proof (call_api_one_record prompt (Some (system_message entry)) None w) as Hone.
  destruct (call_api _ _ _ _ _) as [[[s|]|e0] w1]; cbn [snd] in Hone.
  - destruct (is_empty s); intros [= <- <-].
    + split_and!; [lia | now intros e [= <-] | discriminate].
    + split_and!; [lia | discriminate | intros x [= <-]; apply strip_idempotent].
  - intros [= <- <-]. split_and!; [lia | now intros e [= <-] | discriminate].
  - intros [= <- <-]. split_and!; [lia | now intros e [= <-] | discriminate].
Qed.

Lemma summarize_run limits section_name original (w w' : World) (r : outcome string) :
  summarize E limits section_name original w = (r, w') ->
  (length (api_calls w') <= S (length (api_calls w)))%nat
  /\ (forall x, r = Returned x -> strip x = x).
Proof.
  unfold summarize. unfold_eff.
  destruct (load_prompt E _) as [entry|e0].
  2:{ intros [= <- <-]. split; [lia | discriminate]. }
  destruct (prompt_format entry _) as [prompt|e0].
  2:{ intros [= <- <-]. split; [lia | discriminate]. }
  pose proof (call_api_one_record prompt (Some (system_message entry)) None w) as Hone.
  destruct (call_api _ _ _ _ _) as [[[s|]|e0] w1]; cbn [snd] in Hone;
    intros [= <- <-]; (split; [lia |]); try discriminate.
  intros x [= <-]. apply strip_idempotent.
Qed.

Lemma refine_loop_run limits section_name max_iterations (fuel : nat) :
  forall (text : string) (iteration : Z) (w w' : World) (r : outcome (string * Z)),
    refine_loop E fuel limits section_name max_iterations text iteration w = (r, w') ->
    (length (api_calls w') <= length (api_calls w) + fuel)%nat
    /\ (forall e, r = Raised e -> exn_cls e = RefinementError)
    /\ (forall t j, r = Returned (t, j) -> (t = text /\ w' = w) \/ strip t = t).
Proof.
  induction fuel as [|fuel IH]; intros text iteration w w' r; cbn [refine_loop].
  - intros [= <- <-]. split_and!; [lia | discriminate |].
    intros t j [= <- <-]. now left.
  - destruct (iteration <? max_iterations).
    2:{ intros [= <- <-]. split_and!; [lia | discriminate |].
        intros t j [= <- <-]. now left. }
    destruct (within_limits limits text).
    { intros [= <- <-]. split_and!; [lia | discriminate |].
      intros t j [= <- <-]. now left. }
    unfold_eff.
    destruct (refine_section_via_llm E text _ section_name w) as [[refined|e0] w1] eqn:Hllm;
      apply via_llm_run in Hllm as (Hone & Hcls & Hstrip).
    + intros Hrun. apply IH in Hrun as (Hn & Herr & Hres).
      split_and!; [lia | exact Herr |].
      intros t j Hr. destruct (Hres t j Hr) as [[-> _]|Hs]; right; auto.
    + intros [= <- <-]. split_and!; [lia | | discriminate].
      intros e [= <-]. now apply Hcls.
Qed.

(** X4.  In every environment [refine_section] makes at most
    [max_iterations + 1] model calls, and whatever goes wrong inside comes
    out as a [RefinementError]. *)
Theorem refine_section_effort_bounded (text section_name : string)
    (max_iterations : Z) (w : World) :
  (length (api_calls (refine_section E text section_name max_iterations w).2)
   <= length (api_calls w) + Z.to_nat max_iterations + 1)%nat
  /\ (forall e, (refine_section E text section_name max_iterations w).1 = Raised e ->
                exn_cls e = RefinementError).
Proof.
  unfold refine_section. unfold_eff.
  destruct (validate_section_limits _ _) as [limits|e0]; cbn [fst snd];
    [| split; [lia | now intros e [= <-]]].
  destruct (refine_loop E _ limits section_name max_iterations text 0 w)
    as [[[t j]|e0] w1] eqn:Hloop;
    apply refine_loop_run in Hloop as (Hn & Herr & _); cbn [fst snd];
    [| split; [lia | now intros e [= <-]]].
  destruct (j >=? max_iterations).
  - destruct (summarize E limits section_name text w1) as [[x|e0] w2] eqn:Hsum;
      apply summarize_run in Hsum as [Hone _]; cbn [fst snd].
    + split; [lia | discriminate].
    + split; [lia | now intros e [= <-]].
  - cbn. split; [lia | discriminate].
Qed.

(** X5.  What [refine_section] returns is either the text it was given,
    with no call made, or a text without whitespace at either end. *)
Theorem refine_section_returns_input_or_stripped (text section_name : string)
    (max_iterations : Z) (w w' : World) (result : string) :
  refine_section E text section_name max_iterations w = (Returned result, w') ->
  (result = text /\ w' = w) \/ strip result = result.
Proof.
  unfold refine_section. unfold_eff.
  destruct (validate_section_limits _ _) as [limits|e0]; [| discriminate].
  destruct (refine_loop E _ limits section_name max_iterations text 0 w)
    as [[[t j]|e0] w1] eqn:Hloop; [| discriminate].
  apply refine_loop_run in Hloop as (_ & _ & Hres).
  destruct (j >=? max_iterations).
  - destruct (summarize E limits section_name text w1) as [[x|e0] w2] eqn:Hsum;
      [| discriminate].
    apply summarize_run in Hsum as [_ Hstrip].
    intros [= <- <-]. right. now apply Hstrip.
  - intros [= <- <-]. destruct (Hres t j eq_refl) as [[-> ->]|Hs]; auto.
Qed.

(** X6.  A section name outside the three families ([overview], [skill...],
    [bullet...]) makes [refine_section] raise before any model call; the
    default name [section] is such a name. *)
Theorem refine_section_unknown_section (text section_name : string)
    (max_iterations : Z) (w : World) :
  section_name <> "overview" ->
  starts_with "skill" section_name = false ->
  starts_with "bullet" section_name = false ->
  refine_section E text section_name max_iterations w
  = (Raised (Exn RefinementError
               ("Failed to refine section: Failed to get limits for "
                +:+ section_name +:+ ": Unknown section type: " +:+ section_name)
               None), w)
  /\ refine_section E text default_section_name max_iterations w
     = (Raised (Exn RefinementError
                  "Failed to refine section: Failed to get limits for section: Unknown section type: section"
                  None), w).
Proof.
  intros Hname Hskill Hbullet. split; [| reflexivity].
  unfold refine_section, validate_section_limits, try_except_pure. unfold_eff.
  apply String.eqb_neq in Hname. rewrite Hname, Hskill, Hbullet. reflexivity.
Qed.

End RefinementBounds.

(** The stripped answer of the provider after one shrink pass. *)
Lemma refine_section_returns_input_or_stripped_sample :
  exists result,
    (IterativeRefiner.refine_section Samples.provider_flaky Samples.long_text
       "skills" 1 initial_world).1 = Returned result
    /\ PyString.strip result = result
    /\ result <> Samples.long_text.
Proof.
  pose (run := IterativeRefiner.refine_section Samples.provider_flaky Samples.long_text
                 "skills" 1 initial_world).
  assert (Hrun : IterativeRefiner.refine_section Samples.provider_flaky
                   Samples.long_text "skills" 1 initial_world
                 = (Returned "shorter text", run.2))
    by (vm_compute; reflexivity).
  exists "shorter text". split; [vm_compute; reflexivity |].
  split; [| discriminate].
  destruct (refine_section_returns_input_or_stripped Samples.provider_flaky
              Samples.long_text "skills" 1 initial_world run.2 "shorter text" Hrun)
    as [[Heq _]|Hs]; [discriminate Heq | exact Hs].
Defined.

(** The section name [dspy_modules.py] passes for the objective. *)
Lemma refine_section_unknown_section_objective :
  exists e,
    IterativeRefiner.refine_section Samples.wordy_provider Samples.long_text
      "objective" 300 initial_world = (Raised e, initial_world)
    /\ exn_cls e = RefinementError.
Proof.
  eexists. split.
  - apply (refine_section_unknown_section Samples.wordy_provider Samples.long_text
             "objective" 300 initial_world); [discriminate | reflexivity | reflexivity].
  - reflexivity.
Defined.

(** ** More on the optimization stages *)



Section StableSort.
Import PyBuiltins.
Context {A : Type} (lt : A -> A -> bool).
Hypothesis lt_asym : forall x y, lt x y = true -> lt y x = false.
Hypothesis ge_trans : forall x y z, lt x y = false -> lt y z = false -> lt x z = false.

Lemma insert_desc_keeps_order (x : A) (l : list A) :
  StronglySorted (fun a b => lt a b = false) l ->
  StronglySorted (fun a b => lt a b = false) (insert_desc lt x l).
Proof.
  induction 1 as [|y l Hsorted IH Hall]; cbn [insert_desc].
  - repeat constructor.
  - destruct (lt x y) eqn:Hxy.
    + constructor; [exact IH |].
      rewrite insert_desc_Permutation. constructor; [now apply lt_asym | exact Hall].
    + constructor; [now constructor |].
      constructor; [exact Hxy |].
      eapply Forall_impl; [exact Hall |]. cbn. intros z Hz. now apply (ge_trans x y z).
Qed.

Lemma sorted_reverse_in_order (l : list A) :
  StronglySorted (fun a b => lt a b = false) (sorted_reverse lt l).
Proof.
  unfold sorted_reverse. induction l as [|x l IH]; cbn.
  - constructor.
  - now apply insert_desc_keeps_order.
Qed.

End StableSort.

Section Selection.
Import PyBuiltins MatchOptimizer.

Lemma resume_key_lt_spec (a b : Resume) :
  resume_key_lt a b = true <->
  usage_count a < usage_count b
  \/ (usage_count a = usage_count b
      /\ ((length (skills_list a) < length (skills_list b))%nat
          \/ (length (skills_list a) = length (skills_list b)
              /\ (length (jobs_section a) < length (jobs_section b))%nat))).
Proof.
  unfold resume_key_lt.
  rewrite orb_true_iff, andb_true_iff, orb_true_iff, andb_true_iff.
  rewrite !Z.ltb_lt, !Z.eqb_eq. lia.
Qed.

Lemma resume_key_lt_asym (a b : Resume) :
  resume_key_lt a b = true -> resume_key_lt b a = false.
Proof.
  intros H. apply resume_key_lt_spec in H.
  apply not_true_is_false. rewrite resume_key_lt_spec. lia.
Qed.

Lemma resume_key_ge_trans (a b c : Resume) :
  resume_key_lt a b = false -> resume_key_lt b c = false -> resume_key_lt a c = false.
Proof.
  intros H1 H2. apply not_true_iff_false in H1, H2.
  rewrite resume_key_lt_spec in H1, H2.
  apply not_true_is_false. rewrite resume_key_lt_spec. lia.
Qed.

(** X7.  With a count that is not negative, [select_top_resumes] returns
    that many resumes (all of them when there are fewer), each taken from
    the input, in an order in which no resume is followed by one with a
    greater key [(usage_count, number of skills, number of jobs)], and no
    resume left out has a greater key than one selected. *)
Theorem select_top_resumes_takes_the_best (cfg : Config) (resumes : list Resume) :
  0 <= default 5 (TOP_RESUME_COUNT cfg) ->
  exists rest,
    resumes ≡ₚ select_top_resumes cfg resumes ++ rest
    /\ length (select_top_resumes cfg resumes)
       = Nat.min (Z.to_nat (default 5 (TOP_RESUME_COUNT cfg))) (length resumes)
    /\ (forall i j x y,
          (i < j)%nat ->
          select_top_resumes cfg resumes !! i = Some x ->
          select_top_resumes cfg resumes !! j = Some y ->
          resume_key_lt x y = false)
    /\ (forall x y,
          x ∈ select_top_resumes cfg resumes -> y ∈ rest ->
          resume_key_lt x y = false).
Proof.
  intros Hn. unfold select_top_resumes, slice_to.
  replace (0 <=? default 5 (TOP_RESUME_COUNT cfg)) with true
    by (symmetry; now apply Z.leb_le).
  set (n := Z.to_nat (default 5 (TOP_RESUME_COUNT cfg))).
  set (sorted := sorted_reverse resume_key_lt resumes).
  assert (Hsorted : StronglySorted (fun a b => resume_key_lt a b = false) sorted)
    by (apply sorted_reverse_in_order;
        [apply resume_key_lt_asym | apply resume_key_ge_trans]).
  exists (drop n sorted). split_and!.
  - rewrite take_drop. symmetry. apply sorted_reverse_Permutation.
  - rewrite length_take. unfold sorted.
    now rewrite (Permutation_length (sorted_reverse_Permutation _ resumes)).
  - intros i j x y Hij Hi Hj.
    apply lookup_take_Some in Hi as [Hi _]. apply lookup_take_Some in Hj as [Hj _].
    exact (StronglySorted_lookup_lt _ _ Hsorted i j x y Hij Hi Hj).
  - intros x y Hx Hy.
    apply elem_of_take in Hx as (i & Hi & Hin).
    apply list_elem_of_lookup in Hy as [j Hj]. rewrite lookup_drop in Hj.
    apply (StronglySorted_lookup_lt _ _ Hsorted i (n + j)%nat x y); [lia | exact Hi | exact Hj].
Qed.

End Selection.

(** Of three resumes with the default count all are kept, the most used
    first. *)
Lemma select_top_resumes_takes_the_best_sample :
  0 <= default 5 (TOP_RESUME_COUNT default_CONFIG)
  /\ MatchOptimizer.usage_count
       <$> MatchOptimizer.select_top_resumes default_CONFIG sample_resumes
     = [7; 3; 3]
  /\ exists rest,
       sample_resumes
       ≡ₚ MatchOptimizer.select_top_resumes default_CONFIG sample_resumes ++ rest.
Proof.
  split; [cbn; lia |]. split; [reflexivity |].
  destruct (select_top_resumes_takes_the_best default_CONFIG sample_resumes)
    as (rest & Hperm & _); [cbn; lia |].
  now exists rest.
Defined.

Section Stages.
Import PyString PyDictOps PyBuiltins ApiInterface IterativeRefiner MatchOptimizer.
Context (E : Env).

Lemma dict_lookup_set_eq {V} (k : string) (v : V) (d : list (string * V)) :
  dict_lookup k (dict_set k v d) = Some v.
Proof.
  induction d as [|[k0 v0] d IH]; cbn.
  - now rewrite String.eqb_refl.
  - destruct (String.eqb k0 k) eqn:Hk; cbn.
    + now rewrite String.eqb_refl.
    + now rewrite Hk.
Qed.

Lemma dict_lookup_set_ne {V} (k k' : string) (v : V) (d : list (string * V)) :
  k <> k' -> dict_lookup k' (dict_set k v d) = dict_lookup k' d.
Proof.
  intros Hne. induction d as [|[k0 v0] d IH]; cbn.
  - apply String.eqb_neq in Hne. now rewrite Hne.
  - destruct (String.eqb k0 k) eqn:Hk; cbn.
    + apply String.eqb_eq in Hk. subst k0.
      apply String.eqb_neq in Hne. now rewrite Hne.
    + destruct (String.eqb k0 k'); [reflexivity | exact IH].
Qed.

Lemma refine_bullet_well_formed (bullet : py) (w w' : World) (b : py) :
  refine_bullet E bullet w = (Returned b, w') -> well_formed_bullet b.
Proof.
  unfold refine_bullet. unfold_eff.
  destruct (get bullet "bolded_overview" _) as [o|e]; [| discriminate].
  destruct (refine_section_value E o _ w) as [[o'|e] w1]; [| discriminate].
  destruct bullet as [| | | | | |d|]; try discriminate.
  cbn [get].
  destruct (refine_section_value E _ _ w1) as [[t'|e] w2]; [| discriminate].
  intros [= <- <-]. exists (dict_set "description" (PyStr t')
                              (dict_set "bolded_overview" (PyStr o') d)), o', t'.
  split_and!; [reflexivity | | apply dict_lookup_set_eq].
  rewrite dict_lookup_set_ne by discriminate. apply dict_lookup_set_eq.
Qed.

Lemma refine_bullets_well_formed (items : list py) :
  forall (w w' : World) (out : list py),
    refine_bullets E items w = (Returned out, w') ->
    Forall well_formed_bullet out /\ length out = length items.
Proof.
  induction items as [|bullet items IH]; intros w w' out; cbn [refine_bullets].
  - intros [= <- <-]. split; [constructor | reflexivity].
  - unfold_eff.
    destruct (refine_bullet E bullet w) as [[b|e] w1] eqn:Hb; [| discriminate].
    destruct (refine_bullets E items w1) as [[bs|e] w2] eqn:Hbs; [| discriminate].
    intros [= <- <-]. apply IH in Hbs as [Hall Hlen].
    apply refine_bullet_well_formed in Hb.
    split; [now constructor | cbn; now rewrite Hlen].
Qed.


Lemma select_top_resumes_subset (cfg : Config) (resumes : list Resume) (r : Resume) :
  r ∈ select_top_resumes cfg resumes -> r ∈ resumes.
Proof.
  unfold select_top_resumes, slice_to. intros Hr.
  rewrite <- (sorted_reverse_Permutation resume_key_lt resumes).
  destruct (0 <=? _); apply elem_of_take in Hr as (i & Hi & _);
    eapply list_elem_of_lookup_2; exact Hi.
Qed.

Lemma join_nothing (l : list string) :
  Forall (fun s => s = EmptyString) l -> filter (fun s => s <> EmptyString) l = [].
Proof.
  induction 1 as [|s l -> _ IH]; [reflexivity |].
  rewrite filter_cons_False by (intros H; now apply H). exact IH.
Qed.

(** X9.  When no resume states an objective, [optimize_match_from] returns
    [None] without a single model call: the objective stage refuses, and
    nothing after it is run. *)
Theorem optimize_match_without_objectives (all_resumes : list Resume)
    (job_data : JobData) (w : World) :
  Forall (fun r => objective r = EmptyString) all_resumes ->
  optimize_match_from E all_resumes job_data w = (Returned None, w).
Proof.
  intros Hnone. unfold optimize_match_from.
  destruct all_resumes as [|r0 rs] eqn:Hres; [reflexivity |]. rewrite <- Hres in *.
  unfold_eff. unfold optimize_objective. unfold_eff.
  rewrite join_nothing; [reflexivity |].
  apply Forall_fmap, Forall_forall. intros r Hr. cbn.
  apply select_top_resumes_subset in Hr.
  rewrite Forall_forall in Hnone. now apply Hnone.
Qed.

End Stages.


(** A resume without an objective: no call is made. *)
Lemma optimize_match_without_objectives_sample :
  Forall (fun r => MatchOptimizer.objective r = EmptyString)
         sample_resumes_without_objective
  /\ MatchOptimizer.optimize_match_from Samples.staged_provider
       sample_resumes_without_objective Samples.job initial_world
     = (Returned None, initial_world).
Proof.
  assert (H : Forall (fun r => MatchOptimizer.objective r = EmptyString)
                     sample_resumes_without_objective)
    by (repeat constructor).
  split; [exact H |].
  exact (optimize_match_without_objectives Samples.staged_provider
           sample_resumes_without_objective Samples.job initial_world H).
Defined.
(** ** From the optimizer to the resume builder *)

Section SplitJoin.
Import PyString PyText.

Lemma split_char_pieces (sep : ascii) (s : string) :
  Forall (fun p => has_char sep p = false) (split_char sep s).
Proof.
  induction s as [|c s IH]; cbn [split_char]; [repeat constructor |].
  destruct (Ascii.eqb c sep) eqn:Hc; [constructor; [reflexivity | exact IH] |].
  destruct (split_char sep s) as [|p ps]; [repeat constructor; cbn; now rewrite Hc |].
  inversion IH as [|? ? Hp Hps]; subst. constructor; [| exact Hps].
  cbn. now rewrite Hc.
Qed.

Lemma split_char_nonempty (sep : ascii) (s : string) : split_char sep s <> [].
Proof.
  destruct s as [|c s]; cbn; [discriminate |].
  destruct (Ascii.eqb c sep); [discriminate |]. now destruct (split_char sep s).
Qed.

Lemma lstrip_has_char (c : ascii) (s : string) :
  has_char c s = false -> has_char c (lstrip s) = false.
Proof.
  induction s as [|a s IH]; [reflexivity |]. cbn [lstrip].
  destruct (py_isspace a); [| auto]. cbn. intros [_ H]%orb_false_elim. auto.
Qed.

Lemma rstrip_has_char (c : ascii) (s : string) :
  has_char c s = false -> has_char c (rstrip s) = false.
Proof.
  induction s as [|a s IH]; [reflexivity |]. cbn [rstrip has_char].
  intros [Ha H]%orb_false_elim.
  destruct (is_empty (rstrip s) && py_isspace a); [reflexivity |].
  cbn. rewrite Ha. auto.
Qed.

Lemma strip_has_char (c : ascii) (s : string) :
  has_char c s = false -> has_char c (strip s) = false.
Proof. intros H. now apply lstrip_has_char, rstrip_has_char. Qed.

Lemma find_none (sep x : string) (c : ascii) (sep' : string) :
  sep = String c sep' -> has_char c x = false -> find sep x = None.
Proof.
  intros ->. induction x as [|a x IH]; [reflexivity |].
  cbn [has_char]. intros [Ha H]%orb_false_elim.
  cbn [find starts_with]. rewrite Ascii.eqb_sym, Ha. cbn. now rewrite IH.
Qed.

Lemma append_cons (a : ascii) (s t : string) : String a s +:+ t = String a (s +:+ t).
Proof. reflexivity. Qed.

Lemma append_nil (t : string) : EmptyString +:+ t = t.
Proof. reflexivity. Qed.

Lemma starts_with_app (p r : string) : starts_with p (p +:+ r) = true.
Proof.
  induction p as [|a p IH]; [reflexivity |].
  rewrite append_cons. cbn. now rewrite Ascii.eqb_refl.
Qed.

Lemma find_first (sep x r : string) (c : ascii) (sep' : string) :
  sep = String c sep' -> has_char c x = false ->
  find sep (x +:+ sep +:+ r) = Some (String.length x).
Proof.
  intros Hsep. induction x as [|a x IH].
  - intros _. rewrite append_nil. cbn [String.length].
    destruct (sep +:+ r) eqn:Hs; cbn [find]; rewrite <- Hs, starts_with_app;
      reflexivity.
  - cbn [has_char]. intros [Ha H]%orb_false_elim.
    rewrite append_cons. cbn [find String.length]. rewrite Hsep at 1.
    cbn [starts_with]. rewrite Ascii.eqb_sym, Ha. cbn. now rewrite IH.
Qed.

Lemma take_app_length (x r : string) : take (String.length x) (x +:+ r) = x.
Proof.
  induction x as [|a x IH]; [now destruct r |].
  rewrite append_cons. cbn. now rewrite IH.
Qed.

Lemma drop_app_length (x r : string) : drop (String.length x) (x +:+ r) = r.
Proof.
  induction x as [|a x IH]; [reflexivity |]. rewrite append_cons. exact IH.
Qed.

Lemma drop_add (n m : nat) (s : string) : drop (n + m) s = drop m (drop n s).
Proof.
  revert s. induction n as [|n IH]; intros s; [reflexivity |].
  destruct s as [|a s]; cbn; [now destruct m | apply IH].
Qed.

(** Splitting what was joined gives the pieces back, when no piece holds
    the first character of the separator. *)
Lemma split_join_fuel (sep : string) (c : ascii) (sep' : string) (l : list string) :
  sep = String c sep' ->
  Forall (fun p => has_char c p = false) l ->
  l <> [] ->
  forall fuel, (length l <= S fuel)%nat ->
    split_str_fuel fuel sep (join sep l) = l.
Proof.
  intros Hsep Hl. induction Hl as [|x l Hx Hl IH]; [done |]. intros _ fuel Hfuel.
  destruct l as [|y l].
  - cbn [join]. destruct fuel; cbn [split_str_fuel]; [reflexivity |].
    now rewrite (find_none sep x c sep').
  - destruct fuel as [|fuel]; [cbn in Hfuel; lia |].
    change (join sep (x :: y :: l)) with (x +:+ sep +:+ join sep (y :: l)).
    cbn [split_str_fuel]. rewrite (find_first sep x _ c sep') by assumption.
    rewrite take_app_length, drop_add, drop_app_length, drop_app_length.
    f_equal. apply IH; [discriminate | cbn in *; lia].
Qed.

Lemma length_append (s t : string) :
  String.length (s +:+ t) = (String.length s + String.length t)%nat.
Proof.
  induction s as [|a s IH]; [reflexivity |]. rewrite append_cons. cbn. now rewrite IH.
Qed.

Lemma join_length (sep : string) (l : list string) :
  sep <> EmptyString -> (length l <= S (String.length (join sep l)))%nat.
Proof.
  intros Hsep. induction l as [|x l IH]; [cbn; lia |].
  destruct l as [|y l]; [cbn; lia |].
  change (join sep (x :: y :: l)) with (x +:+ sep +:+ join sep (y :: l)).
  rewrite !length_append.
  destruct sep as [|a sep]; [done |]. cbn in *. lia.
Qed.

Lemma split_join (sep : string) (c : ascii) (sep' : string) (l : list string) :
  sep = String c sep' ->
  Forall (fun p => has_char c p = false) l ->
  l <> [] ->
  split_str sep (join sep l) = l.
Proof.
  intros Hsep Hl Hne. unfold split_str.
  apply (split_join_fuel sep c sep'); try assumption.
  apply join_length. now rewrite Hsep.
Qed.

End SplitJoin.

Section Building.
Import PyString PyDictOps PyText ApiInterface IterativeRefiner MatchOptimizer.
Context (E : Env).

(** What a returned skills string is made of. *)
Lemma optimize_skills_returned (skills : list string) (job_description : string)
    (w w' : World) (result : string) :
  optimize_skills E skills job_description w = (Returned result, w') ->
  exists answer,
    length (strip <$> split_char ","%char answer) = 10%nat
    /\ result = join ", " (strip <$> split_char ","%char answer).
Proof.
  unfold optimize_skills. unfold_eff.
  destruct skills as [|sk skills]; [discriminate |].
  destruct (ask E _ _ w) as [[[s|]|e] w1]; try discriminate.
  destruct (is_empty s); [discriminate |].
  destruct (bool_decide _) eqn:Hlen; [discriminate |].
  intros [= <- <-]. exists s. split; [| reflexivity].
  apply bool_decide_eq_false in Hlen. now apply dec_stable in Hlen.
Qed.

(** The parts of a returned bundle. *)
Lemma optimize_match_from_parts (all_resumes : list Resume) (job_data : JobData)
    (w w' : World) (m : OptimizedMatch) :
  optimize_match_from E all_resumes job_data w = (Returned (Some m), w') ->
  job_json m = job_data
  /\ exists skills w1 w2,
       optimize_skills E skills (cleaned_description job_data) w1
       = (Returned (optimized_skills m), w2).
Proof.
  unfold optimize_match_from.
  destruct all_resumes as [|r0 rs]; [discriminate |].
  set (resumes := r0 :: rs). unfold_eff.
  destruct (optimize_objective E _ _ w) as [[o|e] w1]; [| discriminate].
  destruct (optimize_skills E _ _ w1) as [[sk|e] w2] eqn:Hs; [| discriminate].
  destruct (optimize_bullets E _ _ w2) as [[bl|e] w3]; [| discriminate].
  destruct (evaluate_match E o sk bl _ w3) as [[ev|e] w4]; [| discriminate].
  intros [= <- <-]. split; [reflexivity |]. cbn. eauto.
Qed.

(** X10.  The skills string of a bundle that [optimize_match_from]
    returned is taken apart again by [OptimizedContent.from_dict] into
    exactly ten skills, each trimmed and free of commas, which joined give
    the string back: [validate] never complains about their number.  It
    accepts the content exactly when the objective, the job identifier,
    the company name and the title are not empty. *)
Theorem optimized_content_of_bundle (all_resumes : list Resume) (job_data : JobData)
    (w w' : World) (m : OptimizedMatch) :
  optimize_match_from E all_resumes job_data w = (Returned (Some m), w') ->
  exists c,
    ResumeBuilder.from_dict (ResumeBuilder.optimized_data m) = Returned c
    /\ ResumeBuilder.objective c = PyStr (new_objective m)
    /\ length (ResumeBuilder.skills c) = 10%nat
    /\ join ", " (ResumeBuilder.skills c) = optimized_skills m
    /\ Forall (fun s => strip s = s /\ has_char ","%char s = false)
              (ResumeBuilder.skills c)
    /\ (ResumeBuilder.validate c = Returned tt
        <-> new_objective m <> EmptyString /\ jid job_data <> EmptyString
            /\ company job_data <> EmptyString /\ title job_data <> EmptyString).
Proof.
  intros Hrun. apply optimize_match_from_parts in Hrun as (Hjob & skills & w1 & w2 & Hs).
  apply optimize_skills_returned in Hs as (answer & Hlen & Hres).
  set (pieces := strip <$> split_char ","%char answer) in *.
  assert (Hpieces : Forall (fun p => has_char ","%char p = false) pieces).
  { apply Forall_fmap. eapply Forall_impl; [apply split_char_pieces |].
    intros p Hp. now apply strip_has_char. }
  assert (Hsplit : split_str ", " (optimized_skills m) = pieces).
  { rewrite Hres. apply (split_join ", " ","%char " "); [reflexivity | assumption |].
    intros Hnil. now rewrite Hnil in Hlen. }
  eexists. split; [cbn; rewrite Hsplit; reflexivity |]. cbn [ResumeBuilder.skills
    ResumeBuilder.objective].
  split_and!; try done.
  - apply Forall_forall. intros s Hs. split.
    + apply list_elem_of_fmap in Hs as (p & -> & _). apply strip_idempotent.
    + rewrite Forall_forall in Hpieces. auto.
  - unfold ResumeBuilder.validate. cbn [ResumeBuilder.objective ResumeBuilder.skills
      ResumeBuilder.job_data]. rewrite Hlen, Hjob.
    rewrite bool_decide_eq_false_2 by (intros H; now apply H).
    destruct (new_objective m) as [|a o]; cbn [truthy is_empty negb];
      [split; [discriminate | intros [H _]; done] |].
    cbn.
    destruct (jid job_data) as [|a1 s1], (company job_data) as [|a2 s2],
      (title job_data) as [|a3 s3]; cbn; split; try discriminate; try done;
      intros (_ & H1 & H2 & H3); done.
Qed.

End Building.

(** The bundle of the staged run passes validation. *)
Lemma optimized_content_of_bundle_sample :
  exists m c,
    (MatchOptimizer.optimize_match_from Samples.staged_provider [Samples.resume]
       Samples.job initial_world).1 = Returned (Some m)
    /\ ResumeBuilder.from_dict (ResumeBuilder.optimized_data m) = Returned c
    /\ ResumeBuilder.skills c = ["a"; "b"; "c"; "d"; "e"; "f"; "g"; "h"; "i"; "j"]
    /\ ResumeBuilder.validate c = Returned tt.
Proof.
  pose (run := MatchOptimizer.optimize_match_from Samples.staged_provider
                 [Samples.resume] Samples.job initial_world).
  pose (m := match run.1 with Returned (Some m) => m
             | _ => {| MatchOptimizer.new_objective := EmptyString;
                       MatchOptimizer.optimized_skills := EmptyString;
                       MatchOptimizer.optimized_bullets := [];
                       MatchOptimizer.job_match_evaluation := [];
                       MatchOptimizer.job_json := Samples.job |} end).
  assert (Hrun : MatchOptimizer.optimize_match_from Samples.staged_provider
                   [Samples.resume] Samples.job initial_world
                 = (Returned (Some m), run.2))
    by (vm_compute; reflexivity).
  destruct (optimized_content_of_bundle Samples.staged_provider [Samples.resume]
              Samples.job initial_world run.2 m Hrun)
    as (c & Hc & _ & _ & _ & _ & Hvalid).
  exists m, c. split; [vm_compute; reflexivity |]. split; [exact Hc |].
  split.
  - vm_compute in Hc. injection Hc as <-. reflexivity.
  - apply Hvalid. vm_compute. repeat split; discriminate.
Defined.

Section SplitFuel.
Import PyString PyText.

Lemma starts_with_length (p s : string) :
  starts_with p s = true -> (String.length p <= String.length s)%nat.
Proof.
  revert s. induction p as [|a p IH]; intros [|b s]; cbn; try lia; try discriminate.
  intros [_ H]%andb_prop. apply IH in H. lia.
Qed.

Lemma find_bound (sep s : string) (i : nat) :
  find sep s = Some i -> (i + String.length sep <= String.length s)%nat.
Proof.
  revert i. induction s as [|a s IH]; intros i; cbn [find].
  - destruct (starts_with sep EmptyString) eqn:Hp; [| discriminate].
    intros [= <-]. now apply starts_with_length in Hp.
  - destruct (starts_with sep (String a s)) eqn:Hp.
    + intros [= <-]. now apply starts_with_length in Hp.
    + destruct (find sep s) as [j|]; [| discriminate]. cbn. intros [= <-].
      specialize (IH j eq_refl). cbn. lia.
Qed.

Lemma drop_length (n : nat) (s : string) :
  String.length (drop n s) = (String.length s - n)%nat.
Proof.
  revert s. induction n as [|n IH]; intros [|a s]; cbn; try lia. apply IH.
Qed.

(** The fuel of [split_str] suffices: more changes nothing. *)
Lemma split_str_fuel_enough (sep : string) :
  sep <> EmptyString ->
  forall (fuel fuel' : nat) (s : string),
    (String.length s <= fuel)%nat -> (String.length s <= fuel')%nat ->
    split_str_fuel fuel sep s = split_str_fuel fuel' sep s.
Proof.
  intros Hsep. induction fuel as [|fuel IH]; intros fuel' s Hf Hf'.
  - destruct s as [|a s]; [| cbn in Hf; lia].
    destruct fuel'; cbn; [reflexivity |].
    destruct sep; [done | reflexivity].
  - destruct fuel' as [|fuel'].
    + destruct s as [|a s]; [| cbn in Hf'; lia]. cbn.
      destruct sep; [done | reflexivity].
    + cbn [split_str_fuel]. destruct (find sep s) as [i|] eqn:Hfind; [| reflexivity].
      f_equal. apply find_bound in Hfind.
      assert (0 < String.length sep)%nat by (destruct sep; [done | cbn; lia]).
      apply IH; rewrite drop_length; lia.
Qed.

End SplitFuel.

(** ** What the salvage recovers *)

Section Salvage.
Import PyString PyDictOps PyText Helpers SalvageText.

Lemma span_unquoted_clean (s : string) : has_char quote (span_unquoted s).1 = false.
Proof.
  induction s as [|c s IH]; [reflexivity |]. cbn [span_unquoted].
  destruct (Ascii.eqb c quote) eqn:Hc; [reflexivity |].
  destruct (span_unquoted s) as [p r]. cbn in *. now rewrite Hc.
Qed.

Lemma quoted_group_capturable (s g rest : string) :
  quoted_group s = Some (g, rest) -> capturable g.
Proof.
  unfold quoted_group. destruct s as [|c s]; [discriminate |].
  destruct (Ascii.eqb c quote); [| discriminate].
  pose proof (span_unquoted_clean s) as Hclean.
  destruct (span_unquoted s) as [[|k ks] [|q r]]; try discriminate.
  intros [= <- _]. split; [discriminate | exact Hclean].
Qed.

Lemma match_pair_capturable (s key value rest : string) :
  match_pair s = Some (key, value, rest) -> capturable key /\ capturable value.
Proof.
  unfold match_pair.
  destruct (quoted_group s) as [[k s1]|] eqn:Hk; [| discriminate]. cbn.
  destruct (lstrip s1) as [|c s2]; [discriminate |].
  destruct (Ascii.eqb c ":"%char); [| discriminate].
  destruct (quoted_group (lstrip s2)) as [[v r]|] eqn:Hv; [| discriminate]. cbn.
  intros [= <- <- _]. split; eapply quoted_group_capturable; eassumption.
Qed.

Lemma findall_pairs_capturable (fuel : nat) :
  forall s, Forall (fun kv => capturable kv.1 /\ capturable kv.2) (findall_pairs fuel s).
Proof.
  induction fuel as [|fuel IH]; intros s; cbn [findall_pairs]; [constructor |].
  destruct (match_pair s) as [[[key value] rest]|] eqn:Hm.
  - constructor; [now apply match_pair_capturable in Hm | apply IH].
  - destruct s; [constructor | apply IH].
Qed.

(** No pair is found exactly when the pattern matches at no position. *)
Lemma findall_pairs_none (fuel : nat) :
  forall s, (String.length s < fuel)%nat ->
    findall_pairs fuel s = [] <-> forall n, match_pair (drop n s) = None.
Proof.
  induction fuel as [|fuel IH]; intros s Hfuel; [lia |]. cbn [findall_pairs].
  destruct (match_pair s) as [[[key value] rest]|] eqn:Hm.
  - split; [discriminate |]. intros H. specialize (H 0%nat). cbn in H. congruence.
  - destruct s as [|c s].
    + split; [| reflexivity]. intros _ [|n]; exact Hm.
    + cbn in Hfuel. rewrite IH by lia. split.
      * intros H [|n]; [exact Hm | apply H].
      * intros H n. apply (H (S n)).
Qed.

Lemma findall_pairs_some (fuel : nat) :
  forall s, findall_pairs fuel s <> [] -> exists n, is_Some (match_pair (drop n s)).
Proof.
  induction fuel as [|fuel IH]; intros s; cbn [findall_pairs]; [done |].
  destruct (match_pair s) as [[[key value] rest]|] eqn:Hm.
  - intros _. exists 0%nat. cbn. rewrite Hm. eauto.
  - destruct s as [|c s]; [done |]. intros H. destruct (IH s H) as [n Hn].
    now exists (S n).
Qed.

Lemma dict_set_not_nil {V} (k : string) (v : V) (d : list (string * V)) :
  dict_set k v d <> [].
Proof. destruct d as [|[k0 v0] d]; cbn; [discriminate |]. now destruct (String.eqb k0 k). Qed.

Lemma dict_set_NoDup {V} (k : string) (v : V) (d : list (string * V)) :
  NoDup d.*1 -> NoDup (dict_set k v d).*1.
Proof.
  induction d as [|[k0 v0] d IH]; cbn; [intros _; apply NoDup_singleton |].
  intros [Hk0 Hd]%NoDup_cons.
  destruct (String.eqb k0 k) eqn:Hk; cbn.
  - apply String.eqb_eq in Hk as ->. now apply NoDup_cons.
  - apply NoDup_cons. split; [| auto].
    intros [->|Hin]%dict_set_keys; [| done]. now rewrite String.eqb_refl in Hk.
Qed.

(** The dictionary that the loop over the pairs builds. *)
Lemma salvaged_entries (pairs : list (string * string)) :
  forall acc : list (string * py),
    NoDup acc.*1 ->
    let d := fold_left (fun d kv => dict_set kv.1 (PyStr kv.2) d) pairs acc in
    NoDup d.*1
    /\ (acc <> [] \/ pairs <> [] -> d <> [])
    /\ forall kv, kv ∈ d -> kv ∈ acc \/ exists p, p ∈ pairs /\ kv = (p.1, PyStr p.2).
Proof.
  induction pairs as [|[k v] pairs IH]; intros acc Hacc; cbn.
  - split_and!; [done | intros [H|H]; done | auto].
  - destruct (IH (dict_set k (PyStr v) acc) (dict_set_NoDup _ _ _ Hacc))
      as (Hnd & Hne & Hin).
    split_and!; [exact Hnd | intros _; apply Hne; left; apply dict_set_not_nil |].
    intros kv Hkv. apply Hin in Hkv as [Hkv | (p & Hp & ->)].
    + apply dict_set_elems in Hkv as [-> | Hkv]; [| now left].
      right. exists (k, v). split; [left | reflexivity].
    + right. exists p. split; [now right | reflexivity].
Qed.

(** X11.  [partial_json_salvage] either raises its [ValueError], which
    it does exactly when the pattern matches at no position of the text,
    or returns a dictionary that is not empty, has no key twice, and
    whose keys and values are non-empty strings without a double
    quote. *)
Theorem partial_json_salvage_shape (raw_text : string) :
  (partial_json_salvage raw_text = Raised salvage_failed
   /\ forall n, match_pair (drop n raw_text) = None)
  \/ (exists d,
        partial_json_salvage raw_text = Returned (PyDict d)
        /\ d <> [] /\ NoDup d.*1
        /\ (exists n, is_Some (match_pair (drop n raw_text)))
        /\ forall k v, (k, v) ∈ d ->
             exists value, v = PyStr value /\ capturable k /\ capturable value).
Proof.
  unfold partial_json_salvage.
  pose proof (findall_pairs_none (S (String.length raw_text)) raw_text
                ltac:(lia)) as Hnone.
  pose proof (findall_pairs_capturable (S (String.length raw_text)) raw_text)
    as Hcap.
  remember (findall_pairs (S (String.length raw_text)) raw_text) as pairs eqn:Hp.
  destruct (salvaged_entries pairs [] (NoDup_nil_2 (A:=string))) as (Hnd & Hne & Hin).
  cbn zeta in *.
  destruct (decide (pairs = [])) as [Hnil|Hsome].
  - left. rewrite Hnil. split; [reflexivity |]. now apply Hnone.
  - right.
    set (d := fold_left _ pairs []) in *.
    assert (Hd : d <> []) by (apply Hne; now right).
    exists d. split_and!; try done.
    + now destruct d.
    + apply (findall_pairs_some (S (String.length raw_text))). now rewrite <- Hp.
    + intros k v Hkv. apply Hin in Hkv as [Hkv | (q & Hq & [= -> ->])];
        [now apply elem_of_nil in Hkv |].
      rewrite Forall_forall in Hcap. destruct (Hcap q Hq). eauto.
Qed.

Lemma span_unquoted_app (k r : string) :
  has_char quote k = false ->
  span_unquoted (k +:+ String quote r) = (k, String quote r).
Proof.
  induction k as [|c k IH]; intros Hk.
  - rewrite append_nil. reflexivity.
  - rewrite append_cons. cbn in *. apply orb_false_elim in Hk as [Hc Hk].
    rewrite Hc, (IH Hk). reflexivity.
Qed.

Lemma quoted_group_app (k r : string) :
  capturable k ->
  quoted_group (String quote (k +:+ String quote r)) = Some (k, r).
Proof.
  intros [Hne Hk]. unfold quoted_group. rewrite Ascii.eqb_refl.
  rewrite (span_unquoted_app k r Hk). destruct k; [done | reflexivity].
Qed.

Lemma lstrip_keeps (c : ascii) (s : string) :
  py_isspace c = false -> lstrip (String c s) = String c s.
Proof. intros H. cbn [lstrip]. now rewrite H. Qed.

Lemma lstrip_skips (c : ascii) (s : string) :
  py_isspace c = true -> lstrip (String c s) = lstrip s.
Proof. intros H. cbn [lstrip]. now rewrite H. Qed.

Lemma match_pair_pair_then (key value rest : string) :
  capturable key -> capturable value ->
  match_pair (pair_then key value rest) = Some (key, value, rest).
Proof.
  intros Hk Hv. unfold match_pair, pair_then.
  rewrite (quoted_group_app _ _ Hk).
  cbn -[quoted_group lstrip].
  rewrite (lstrip_keeps ":") by reflexivity. rewrite Ascii.eqb_refl.
  rewrite (lstrip_skips " "), (lstrip_keeps quote) by reflexivity.
  now rewrite (quoted_group_app _ _ Hv).
Qed.

Lemma pair_then_length (key value rest : string) :
  (String.length rest < String.length (pair_then key value rest))%nat.
Proof.
  unfold pair_then. cbn. rewrite length_append. cbn. rewrite length_append. cbn. lia.
Qed.

(** The pairs found in a text, with the fuel [partial_json_salvage]
    gives. *)
Lemma findall_pairs_any_fuel (fuel : nat) (s : string) :
  (String.length s < fuel)%nat ->
  findall_pairs fuel s = findall_pairs (S (String.length s)) s.
Proof.
  intros Hfuel.
  replace fuel with (S (String.length s) + (fuel - S (String.length s)))%nat by lia.
  apply findall_pairs_fuel. lia.
Qed.

Lemma findall_pairs_junk (junk s : string) :
  has_char quote junk = false ->
  findall_pairs (S (String.length (junk +:+ s))) (junk +:+ s)
  = findall_pairs (S (String.length s)) s.
Proof.
  induction junk as [|c junk IH]; intros Hj; [now rewrite append_nil |].
  rewrite append_cons. cbn in Hj. apply orb_false_elim in Hj as [Hc Hj].
  cbn [String.length findall_pairs].
  replace (match_pair (String c (junk +:+ s))) with (@None (string * string * string))
    by (unfold match_pair, quoted_group; now rewrite Hc).
  now apply IH.
Qed.

Lemma findall_pairs_pair_then (key value rest : string) :
  capturable key -> capturable value ->
  findall_pairs (S (String.length (pair_then key value rest))) (pair_then key value rest)
  = (key, value) :: findall_pairs (S (String.length rest)) rest.
Proof.
  intros Hk Hv. cbn [findall_pairs]. rewrite (match_pair_pair_then _ _ _ Hk Hv).
  f_equal. apply findall_pairs_any_fuel, pair_then_length.
Qed.

Lemma findall_pairs_scattered (l : list (string * string * string)) (tail : string) :
  Forall (fun jkv => has_char quote jkv.1.1 = false
                     /\ capturable jkv.1.2 /\ capturable jkv.2) l ->
  findall_pairs (S (String.length (scattered l tail))) (scattered l tail)
  = (((fun jkv => (jkv.1.2, jkv.2)) <$> l)
     ++ findall_pairs (S (String.length tail)) tail)%list.
Proof.
  induction 1 as [|[[junk k] v] l (Hj & Hk & Hv) _ IH]; [reflexivity |].
  cbn [scattered fmap list_fmap app]. cbn in Hj, Hk, Hv.
  rewrite (findall_pairs_junk _ _ Hj), (findall_pairs_pair_then _ _ _ Hk Hv).
  now rewrite IH.
Qed.

(** X12.  From a text in which pairs of a quoted key and a quoted value
    are scattered among stretches without a double quote, followed by a
    tail in which the pattern finds nothing, the salvage recovers exactly
    those pairs: the dictionary that assigning them in order builds. *)
Theorem partial_json_salvage_recovers (l : list (string * string * string))
    (tail : string) :
  l <> [] ->
  Forall (fun jkv => has_char quote jkv.1.1 = false
                     /\ capturable jkv.1.2 /\ capturable jkv.2) l ->
  findall_pairs (S (String.length tail)) tail = [] ->
  partial_json_salvage (scattered l tail)
  = Returned (PyDict (dict_of_pairs ((fun jkv => (jkv.1.2, PyStr jkv.2)) <$> l))).
Proof.
  intros Hne Hl Htail. unfold partial_json_salvage.
  rewrite (findall_pairs_scattered l tail Hl), Htail, app_nil_r.
  unfold dict_of_pairs.
  assert (Hfold : forall (acc : list (string * py)) (pairs : list (string * string * string)),
             fold_left (fun d kv => dict_set kv.1 (PyStr kv.2) d)
                       ((fun jkv => (jkv.1.2, jkv.2)) <$> pairs) acc
             = fold_left (fun d kv => dict_set kv.1 kv.2 d)
                         ((fun jkv => (jkv.1.2, PyStr jkv.2)) <$> pairs) acc).
  { intros acc pairs. revert acc.
    induction pairs as [|[[j k] v] pairs IH]; intros acc; [reflexivity | apply IH]. }
  rewrite Hfold.
  destruct (salvaged_entries ((fun jkv => (jkv.1.2, jkv.2)) <$> l) []
              (NoDup_nil_2 (A:=string))) as (_ & Hnot & _).
  cbn zeta in Hnot. rewrite Hfold in Hnot.
  destruct (fold_left _ _ []) eqn:Hd; [| reflexivity].
  exfalso. apply Hnot; [| reflexivity]. right. now destruct l.
Qed.

End Salvage.

(** A reply cut off in its third field gives its first two. *)
Lemma partial_json_salvage_recovers_truncated :
  Helpers.partial_json_salvage SalvageText.truncated_reply
  = Returned (PyDict [("Title", PyStr "Engineer"); ("Company Name", PyStr "Acme")]).
Proof.
  apply (partial_json_salvage_recovers
           [("{", "Title", "Engineer"); (", ", "Company Name", "Acme")]
           (", " +:+ String PyString.quote "Locat")).
  - discriminate.
  - repeat constructor; discriminate.
  - vm_compute. reflexivity.
Defined.

(** ** Normalized text and cleaned file names *)

Section CharFacts.
Import PyString PyText.

Lemma append_assoc (s t u : string) : (s +:+ t) +:+ u = s +:+ (t +:+ u).
Proof.
  induction s as [|a s IH]; [reflexivity |]. rewrite !append_cons. now rewrite IH.
Qed.

Lemma append_nil_r (s : string) : s +:+ EmptyString = s.
Proof.
  induction s as [|a s IH]; [reflexivity |]. rewrite append_cons. now rewrite IH.
Qed.

Lemma any_char_app (p : ascii -> bool) (s t : string) :
  any_char p (s +:+ t) = any_char p s || any_char p t.
Proof.
  induction s as [|a s IH]; [reflexivity |].
  rewrite append_cons. cbn. now rewrite IH, orb_assoc.
Qed.

Lemma has_char_any (a : ascii) (s : string) :
  has_char a s = any_char (fun c => Ascii.eqb c a) s.
Proof. induction s as [|c s IH]; [reflexivity |]. cbn. now rewrite IH. Qed.

Lemma any_char_has_char (p : ascii -> bool) (a : ascii) (s : string) :
  any_char p s = false -> p a = true -> has_char a s = false.
Proof.
  intros Hs Ha. induction s as [|c s IH]; [reflexivity |].
  cbn in *. apply orb_false_elim in Hs as [Hc Hs]. rewrite (IH Hs), orb_false_r.
  destruct (Ascii.eqb_spec c a) as [->|]; congruence.
Qed.

Lemma any_char_take (p : ascii -> bool) (n : nat) (s : string) :
  any_char p s = false -> any_char p (take n s) = false.
Proof.
  revert s. induction n as [|n IH]; intros [|c s]; cbn; try reflexivity.
  intros [Hc Hs]%orb_false_elim. now rewrite Hc, IH.
Qed.

Lemma take_length (n : nat) (s : string) : (String.length (take n s) <= n)%nat.
Proof.
  revert s. induction n as [|n IH]; intros [|c s]; cbn; try lia.
  specialize (IH s). lia.
Qed.

Lemma take_all (n : nat) (s : string) : (String.length s <= n)%nat -> take n s = s.
Proof.
  revert s. induction n as [|n IH]; intros [|c s]; cbn; try reflexivity; try lia.
  intros H. rewrite IH by lia. reflexivity.
Qed.

Lemma any_char_lstrip_by (q p : ascii -> bool) (s : string) :
  any_char q s = false -> any_char q (lstrip_by p s) = false.
Proof.
  induction s as [|c s IH]; [reflexivity |]. cbn [lstrip_by].
  destruct (p c); [| auto]. cbn. intros [_ H]%orb_false_elim. auto.
Qed.

Lemma any_char_rstrip_by (q p : ascii -> bool) (s : string) :
  any_char q s = false -> any_char q (rstrip_by p s) = false.
Proof.
  induction s as [|c s IH]; [reflexivity |]. cbn [rstrip_by any_char].
  intros [Hc H]%orb_false_elim.
  destruct (is_empty (rstrip_by p s) && p c); [reflexivity |].
  cbn. rewrite Hc. auto.
Qed.

Lemma lstrip_by_length (p : ascii -> bool) (s : string) :
  (String.length (lstrip_by p s) <= String.length s)%nat.
Proof.
  induction s as [|c s IH]; cbn; [lia |]. destruct (p c); cbn; lia.
Qed.

Lemma rstrip_by_length (p : ascii -> bool) (s : string) :
  (String.length (rstrip_by p s) <= String.length s)%nat.
Proof.
  induction s as [|c s IH]; cbn; [lia |].
  destruct (is_empty (rstrip_by p s) && p c); cbn; lia.
Qed.

Lemma lstrip_by_idempotent (p : ascii -> bool) (s : string) :
  lstrip_by p (lstrip_by p s) = lstrip_by p s.
Proof.
  induction s as [|c s IH]; cbn; [reflexivity |].
  destruct (p c) eqn:Hc; [exact IH |]. cbn. now rewrite Hc.
Qed.

Lemma rstrip_by_idempotent (p : ascii -> bool) (s : string) :
  rstrip_by p (rstrip_by p s) = rstrip_by p s.
Proof.
  induction s as [|c s IH]; cbn; [reflexivity |].
  destruct (is_empty (rstrip_by p s) && p c) eqn:Hc; cbn; [reflexivity |].
  now rewrite IH, Hc.
Qed.

Lemma rstrip_by_lstrip_by (p : ascii -> bool) (s : string) :
  rstrip_by p s = s -> rstrip_by p (lstrip_by p s) = lstrip_by p s.
Proof.
  induction s as [|c s IH]; cbn; [reflexivity |].
  destruct (is_empty (rstrip_by p s) && p c) eqn:Hc; [discriminate |].
  intros [= Hs]. destruct (p c) eqn:Hsp.
  - now apply IH.
  - cbn. rewrite Hs, Hsp, andb_false_r. reflexivity.
Qed.

Lemma strip_by_fixed (p : ascii -> bool) (s : string) :
  lstrip_by p (strip_by p s) = strip_by p s
  /\ rstrip_by p (strip_by p s) = strip_by p s.
Proof.
  unfold strip_by. split; [apply lstrip_by_idempotent |].
  apply rstrip_by_lstrip_by, rstrip_by_idempotent.
Qed.

(** What being a fixed point of the two strips says of the ends. *)
Lemma lstrip_by_head (p : ascii -> bool) (c : ascii) (s : string) :
  lstrip_by p (String c s) = String c s -> p c = false.
Proof.
  cbn. destruct (p c); [| reflexivity]. intros H.
  pose proof (lstrip_by_length p s) as Hlen. rewrite H in Hlen. cbn in Hlen. lia.
Qed.

Lemma rstrip_by_last (p : ascii -> bool) (s : string) (c : ascii) :
  rstrip_by p (s +:+ String c EmptyString) = s +:+ String c EmptyString ->
  p c = false.
Proof.
  induction s as [|a s IH].
  - rewrite append_nil. cbn. now destruct (p c).
  - rewrite append_cons. cbn [rstrip_by].
    destruct (is_empty _ && p a); [discriminate |]. intros [= H]. auto.
Qed.

Lemma remove_chars_clean (p : ascii -> bool) (s : string) :
  any_char p (remove_chars p s) = false.
Proof.
  induction s as [|c s IH]; [reflexivity |]. cbn.
  destruct (p c) eqn:Hc; [exact IH |]. cbn. now rewrite Hc.
Qed.

Lemma remove_chars_none (p : ascii -> bool) (s : string) :
  any_char p s = false -> remove_chars p s = s.
Proof.
  induction s as [|c s IH]; [reflexivity |]. cbn.
  intros [Hc Hs]%orb_false_elim. now rewrite Hc, IH.
Qed.

Lemma replace_char_none (a b : ascii) (s : string) :
  has_char a s = false -> replace_char a b s = s.
Proof.
  induction s as [|c s IH]; [reflexivity |]. cbn.
  intros [Hc Hs]%orb_false_elim. now rewrite Hc, IH.
Qed.

Lemma replace_char_gone (a b : ascii) (s : string) :
  a <> b -> has_char a (replace_char a b s) = false.
Proof.
  intros Hab. induction s as [|c s IH]; [reflexivity |]. cbn. rewrite IH, orb_false_r.
  destruct (Ascii.eqb_spec c a) as [->|Hc]; apply Ascii.eqb_neq; congruence.
Qed.

Lemma replace_char_any (p : ascii -> bool) (a b : ascii) (s : string) :
  p b = false -> any_char p s = false -> any_char p (replace_char a b s) = false.
Proof.
  intros Hb. induction s as [|c s IH]; [reflexivity |]. cbn.
  intros [Hc Hs]%orb_false_elim. rewrite (IH Hs), orb_false_r.
  now destruct (Ascii.eqb c a).
Qed.

Lemma replace_fuel_absent (old new : string) (a : ascii) (old' : string) :
  old = String a old' ->
  forall (fuel : nat) (s : string),
    has_char a s = false -> replace_fuel fuel old new s = s.
Proof.
  intros ->. induction fuel as [|fuel IH]; intros s Hs; [reflexivity |].
  destruct s as [|c s]; [reflexivity |].
  cbn in Hs. apply orb_false_elim in Hs as [Hc Hs].
  cbn [replace_fuel starts_with]. rewrite Ascii.eqb_sym, Hc. cbn.
  now rewrite IH.
Qed.

End CharFacts.

Section Normalizing.
Import PyString PyText Helpers HelpersText.

Lemma split_whitespace_from_words (s : string) :
  forall cur, any_char py_isspace cur = false ->
    Forall word_like (split_whitespace_from cur s).
Proof.
  induction s as [|c s IH]; intros cur Hcur; cbn [split_whitespace_from].
  - destruct cur; cbn; repeat constructor; [discriminate | exact Hcur].
  - destruct (py_isspace c) eqn:Hc.
    + destruct cur as [|a cur]; cbn [is_empty]; [now apply IH |].
      constructor; [split; [discriminate | exact Hcur] | now apply IH].
    + apply IH. rewrite any_char_app. cbn. now rewrite Hcur, Hc.
Qed.

Lemma split_whitespace_words (s : string) :
  Forall word_like (split_whitespace s).
Proof. now apply split_whitespace_from_words. Qed.

(** The only whitespace in joined words is the space between them. *)
Lemma join_words_spaces (words : list string) :
  Forall word_like words ->
  any_char other_space (join " " words) = false.
Proof.
  assert (Hw : forall w, any_char py_isspace w = false -> any_char other_space w = false).
  { induction w as [|c w IH]; [reflexivity |]. cbn. unfold other_space at 1.
    intros [Hc H]%orb_false_elim. now rewrite Hc, IH. }
  induction 1 as [|w words [_ Hword] _ IH]; [reflexivity |].
  destruct words as [|w' words]; [now apply Hw |].
  change (join " " (w :: w' :: words)) with (w +:+ " " +:+ join " " (w' :: words)).
  rewrite !any_char_app, (Hw _ Hword), IH. reflexivity.
Qed.

Lemma join_words_not_empty (w : string) (words : list string) :
  w <> EmptyString -> join " " (w :: words) <> EmptyString.
Proof.
  intros Hw. destruct words as [|w' words]; [exact Hw |].
  change (join " " (w :: w' :: words)) with (w +:+ " " +:+ join " " (w' :: words)).
  destruct w; [done |]. now rewrite append_cons.
Qed.

Lemma lstrip_word (w rest : string) :
  word_like w -> lstrip (w +:+ rest) = w +:+ rest.
Proof.
  intros [Hne Hw]. destruct w as [|c w]; [done |]. rewrite append_cons.
  cbn in Hw. apply orb_false_elim in Hw as [Hc _]. cbn [lstrip]. now rewrite Hc.
Qed.

Lemma rstrip_word (w : string) : any_char py_isspace w = false -> rstrip w = w.
Proof.
  induction w as [|c w IH]; [reflexivity |]. cbn.
  intros [Hc Hw]%orb_false_elim. now rewrite (IH Hw), Hc, andb_false_r.
Qed.

Lemma rstrip_app (s t : string) :
  t <> EmptyString -> rstrip t = t -> rstrip (s +:+ t) = s +:+ t.
Proof.
  intros Hne Ht. induction s as [|c s IH]; [now rewrite append_nil |].
  rewrite append_cons. cbn [rstrip]. rewrite IH.
  destruct (s +:+ t) eqn:Hst; [| reflexivity].
  destruct s; [now rewrite append_nil in Hst | now rewrite append_cons in Hst].
Qed.

Lemma strip_join_words (words : list string) :
  Forall word_like words ->
  strip (join " " words) = join " " words.
Proof.
  intros Hwords. unfold strip.
  assert (Hr : rstrip (join " " words) = join " " words).
  { induction Hwords as [|w words [Hne Hw] Hwords IH]; [reflexivity |].
    destruct words as [|w' words]; [now apply rstrip_word |].
    change (join " " (w :: w' :: words)) with (w +:+ " " +:+ join " " (w' :: words)).
    rewrite <- append_assoc. apply rstrip_app; [| exact IH].
    inversion Hwords as [|? ? [Hne' _] _]; subst. now apply join_words_not_empty. }
  rewrite Hr. destruct Hwords as [|w words Hw Hwords]; [reflexivity |].
  destruct words as [|w' words]; [rewrite <- (append_nil_r w); now apply lstrip_word |].
  change (join " " (w :: w' :: words)) with (w +:+ " " +:+ join " " (w' :: words)).
  now apply lstrip_word.
Qed.

Lemma collapse_newlines_none (s : string) :
  has_char newline s = false -> collapse_newlines s = s.
Proof.
  unfold collapse_newlines. induction s as [|c s IH]; [reflexivity |].
  cbn [has_char collapse_newlines_from]. intros [Hc Hs]%orb_false_elim.
  rewrite Hc, (IH Hs). reflexivity.
Qed.

Lemma split_whitespace_from_word (w rest : string) :
  any_char py_isspace w = false ->
  forall cur, split_whitespace_from cur (w +:+ rest)
              = split_whitespace_from (cur +:+ w) rest.
Proof.
  induction w as [|c w IH]; intros Hw cur.
  - now rewrite append_nil, append_nil_r.
  - cbn in Hw. apply orb_false_elim in Hw as [Hc Hw].
    rewrite append_cons. cbn [split_whitespace_from]. rewrite Hc, (IH Hw).
    now rewrite append_assoc.
Qed.

Lemma split_join_words (words : list string) :
  Forall word_like words ->
  split_whitespace (join " " words) = words.
Proof.
  unfold split_whitespace.
  induction 1 as [|w words [Hne Hw] Hwords IH]; [reflexivity |].
  destruct words as [|w' words].
  - cbn [join]. rewrite <- (append_nil_r w) at 1.
    rewrite (split_whitespace_from_word _ _ Hw), append_nil. cbn.
    now destruct w.
  - change (join " " (w :: w' :: words)) with (w +:+ " " +:+ join " " (w' :: words)).
    rewrite (split_whitespace_from_word _ _ Hw), append_nil.
    change (" " +:+ ?s) with (String " " s). cbn [split_whitespace_from].
    change (py_isspace " ") with true. cbn iota.
    destruct w; [done |]. cbn [is_empty]. now rewrite IH.
Qed.

(** X13.  [normalize_text] is the words of the text joined by single
    spaces: the replacement of carriage returns, the collapsing of blank
    lines and the final [strip] find nothing left to do.  So normalizing
    keeps the words and the token estimate, and normalizing twice is
    normalizing once. *)
Theorem normalize_text_joins_words (text : string) :
  normalize_text text = join " " (split_whitespace text)
  /\ split_whitespace (normalize_text text) = split_whitespace text
  /\ estimate_tokens (normalize_text text) = estimate_tokens text
  /\ normalize_text (normalize_text text) = normalize_text text.
Proof.
  assert (Hnorm : forall t, normalize_text t = join " " (split_whitespace t)).
  { intros t. unfold normalize_text.
    pose proof (split_whitespace_words t) as Hwords.
    pose proof (join_words_spaces _ Hwords) as Hplain.
    set (joined := join " " (split_whitespace t)) in *.
    unfold replace.
    rewrite (replace_fuel_absent (String cr nl) nl cr nl eq_refl)
      by (now apply (any_char_has_char other_space)).
    rewrite (replace_fuel_absent (String cr EmptyString) nl cr EmptyString eq_refl)
      by (now apply (any_char_has_char other_space)).
    rewrite collapse_newlines_none by (now apply (any_char_has_char other_space)).
    now apply strip_join_words. }
  assert (Hsplit : split_whitespace (normalize_text text) = split_whitespace text).
  { rewrite Hnorm. apply split_join_words, split_whitespace_words. }
  split_and!; [apply Hnorm | exact Hsplit | |].
  - unfold estimate_tokens. now rewrite Hsplit.
  - rewrite (Hnorm (normalize_text text)), Hsplit. symmetry. apply Hnorm.
Qed.

Lemma clean_filename_parts (filename : string) :
  (String.length (clean_filename filename) <= 245)%nat
  /\ any_char invalid_char (clean_filename filename) = false
  /\ has_char " " (clean_filename filename) = false
  /\ lstrip_by dot_or_underscore (clean_filename filename) = clean_filename filename
  /\ rstrip_by dot_or_underscore (clean_filename filename) = clean_filename filename.
Proof.
  unfold clean_filename.
  set (removed := remove_chars invalid_char filename).
  set (replaced := replace_char " " "_" removed).
  set (cut := if (max_length <? String.length replaced)%nat
              then take max_length replaced else replaced).
  assert (Hvalid : any_char invalid_char cut = false).
  { assert (any_char invalid_char replaced = false)
      by (apply replace_char_any; [reflexivity | apply remove_chars_clean]).
    unfold cut. destruct (_ <? _)%nat; [now apply any_char_take | assumption]. }
  assert (Hspace : has_char " " cut = false).
  { assert (Hrep : has_char " " replaced = false)
      by (now apply replace_char_gone).
    unfold cut. destruct (_ <? _)%nat; [| assumption].
    rewrite has_char_any in *. now apply any_char_take. }
  assert (Hlen : (String.length cut <= 245)%nat).
  { unfold cut. destruct (Nat.ltb_spec max_length (String.length replaced)) as [H|H].
    - apply (take_length max_length).
    - exact H. }
  destruct (strip_by_fixed dot_or_underscore cut) as [Hl Hr].
  split_and!; try assumption.
  - unfold strip_by.
    pose proof (lstrip_by_length dot_or_underscore (rstrip_by dot_or_underscore cut)).
    pose proof (rstrip_by_length dot_or_underscore cut). lia.
  - now apply any_char_lstrip_by, any_char_rstrip_by.
  - rewrite has_char_any in *. now apply any_char_lstrip_by, any_char_rstrip_by.
Qed.

(** A name that has nothing to clean is left as it is. *)
Lemma clean_filename_fixed (name : string) :
  (String.length name <= 245)%nat ->
  any_char invalid_char name = false ->
  has_char " " name = false ->
  lstrip_by dot_or_underscore name = name ->
  rstrip_by dot_or_underscore name = name ->
  clean_filename name = name.
Proof.
  intros Hlen Hvalid Hspace Hl Hr. unfold clean_filename.
  rewrite (remove_chars_none _ _ Hvalid), (replace_char_none _ _ _ Hspace).
  destruct (Nat.ltb_spec max_length (String.length name)) as [H|H];
    [change max_length with 245%nat in H; lia |].
  unfold strip_by. now rewrite Hr, Hl.
Qed.

(** X14.  A cleaned file name has at most 245 characters, none of them
    a space or one of the characters the pattern removes, and neither
    begins nor ends with a dot or an underscore; cleaning it again
    changes nothing. *)
Theorem clean_filename_clean (filename : string) :
  let cleaned := clean_filename filename in
  (String.length cleaned <= 245)%nat
  /\ any_char invalid_char cleaned = false
  /\ has_char " " cleaned = false
  /\ (forall c rest, cleaned = String c rest -> dot_or_underscore c = false)
  /\ (forall c rest, cleaned = rest +:+ String c EmptyString ->
        dot_or_underscore c = false)
  /\ clean_filename cleaned = cleaned.
Proof.
  intros cleaned.
  destruct (clean_filename_parts filename) as (Hlen & Hvalid & Hspace & Hl & Hr).
  fold cleaned in Hlen, Hvalid, Hspace, Hl, Hr.
  split_and!; try assumption.
  - intros c rest Heq. rewrite Heq in Hl. now apply lstrip_by_head in Hl.
  - intros c rest Heq. rewrite Heq in Hr. now apply rstrip_by_last in Hr.
  - now apply clean_filename_fixed.
Qed.

End Normalizing.

Section ReplaceFuel.
Import PyString PyText.

(** The fuel of [replace] suffices: more changes nothing. *)
Lemma replace_fuel_enough (old new : string) :
  old <> EmptyString ->
  forall (fuel fuel' : nat) (s : string),
    (String.length s <= fuel)%nat -> (String.length s <= fuel')%nat ->
    replace_fuel fuel old new s = replace_fuel fuel' old new s.
Proof.
  intros Hold. induction fuel as [|fuel IH]; intros fuel' s Hf Hf'.
  - destruct s as [|a s]; [| cbn in Hf; lia].
    destruct fuel'; cbn; [reflexivity |]. destruct old; [done | reflexivity].
  - destruct fuel' as [|fuel'].
    + destruct s as [|a s]; [| cbn in Hf'; lia]. cbn.
      destruct old; [done | reflexivity].
    + cbn [replace_fuel]. destruct (starts_with old s) eqn:Hp.
      * f_equal. apply starts_with_length in Hp.
        assert (0 < String.length old)%nat by (destruct old; [done | cbn; lia]).
        apply IH; rewrite drop_length; lia.
      * destruct s as [|c s]; [reflexivity |]. cbn in Hf, Hf'.
        f_equal. apply IH; lia.
Qed.

End ReplaceFuel.

(** ** Placeholders found in a template *)

Section Scanning.
Import PyString PyText PyBuiltins PlaceholderMatcher PlaceholderScan.

Lemma span_spec (p : ascii -> bool) (s : string) :
  s = (span p s).1 +:+ (span p s).2
  /\ any_char (fun c => negb (p c)) (span p s).1 = false.
Proof.
  induction s as [|c s [IH1 IH2]]; [split; reflexivity |]. cbn [span].
  destruct (p c) eqn:Hc; [| split; reflexivity].
  destruct (span p s) as [taken rest]. cbn in *.
  rewrite append_cons, <- IH1, Hc. split; [reflexivity | exact IH2].
Qed.

Lemma match_skill_spec (s digits placeholder rest : string) :
  match_skill s = Some (digits, placeholder, rest) ->
  s = placeholder +:+ rest
  /\ slot_for (int_from 0 digits) placeholder.
Proof.
  unfold match_skill. destruct (starts_with skill_prefix s) eqn:Hp; [| discriminate].
  pose proof (span_spec py_isspace (drop (String.length skill_prefix) s)) as [Hb1 Hb2].
  destruct (span py_isspace _) as [blank s1]. cbn [fst snd] in *.
  pose proof (span_spec is_digit s1) as [Hd1 Hd2].
  destruct (span is_digit s1) as [ds s2]. cbn [fst snd] in *.
  destruct ds as [|d ds]; [discriminate |]. destruct s2 as [|c s2]; [discriminate |].
  destruct (Ascii.eqb_spec c ">") as [->|]; [| discriminate].
  intros [= <- <- <-]. split.
  - assert (Hs : s = skill_prefix +:+ drop (String.length skill_prefix) s).
    { clear -Hp. revert Hp. generalize skill_prefix as p. intros p. revert s.
      induction p as [|a p IH]; intros s; [reflexivity |].
      destruct s as [|b s]; [discriminate |]. cbn.
      intros [Ha Hps]%andb_prop. apply Ascii.eqb_eq in Ha as ->.
      rewrite append_cons. f_equal. now apply IH. }
    rewrite Hs at 1. rewrite Hb1, Hd1. now rewrite !append_assoc.
  - exists blank, (String d ds). split_and!; try done.
Qed.

Lemma occurs_in_app (sub s t : string) : occurs_in sub t -> occurs_in sub (s +:+ t).
Proof.
  intros [n Hn]. exists (String.length s + n)%nat.
  now rewrite drop_add, drop_app_length.
Qed.

Lemma occurs_in_head (sub rest : string) : occurs_in sub (sub +:+ rest).
Proof. exists 0%nat. apply starts_with_app. Qed.

Lemma find_skills_spec (fuel : nat) :
  forall s,
    Forall (fun found => slot_for (int_from 0 found.1) found.2 /\ occurs_in found.2 s)
           (find_skills fuel s).
Proof.
  induction fuel as [|fuel IH]; intros s; cbn [find_skills]; [constructor |].
  destruct (match_skill s) as [[[digits placeholder] rest]|] eqn:Hm.
  - apply match_skill_spec in Hm as [-> Hslot]. constructor.
    + split; [exact Hslot | apply occurs_in_head].
    + eapply Forall_impl; [apply IH |]. intros found [H1 H2].
      split; [exact H1 | now apply occurs_in_app].
  - destruct s as [|c s]; [constructor |].
    eapply Forall_impl; [apply IH |]. intros found [H1 [n Hn]].
    split; [exact H1 | now exists (S n)].
Qed.

(** What the loop over the matches keeps. *)
Lemma keep_placeholder_spec (max_str_digits : option nat) (text : string)
    (found : list (string * string)) :
  Forall (fun f => slot_for (int_from 0 f.1) f.2 /\ occurs_in f.2 text) found ->
  forall placeholders : gmap Z string,
    (forall num p, placeholders !! num = Some p ->
       1 <= num <= 10 /\ slot_for num p /\ occurs_in p text) ->
    forall num p,
      fold_left (keep_placeholder max_str_digits) found placeholders !! num = Some p ->
      1 <= num <= 10 /\ slot_for num p /\ occurs_in p text.
Proof.
  induction 1 as [|[digits placeholder] found [Hslot Hocc] _ IH];
    intros placeholders Hinv; [exact Hinv |].
  cbn [fold_left]. apply IH. intros num p.
  unfold keep_placeholder, py_int_of_digits. cbn [fst snd] in *.
  destruct max_str_digits as [limit|];
    [destruct (limit <? String.length digits)%nat; [apply Hinv |] |];
    (destruct ((1 <=? int_from 0 digits) && (int_from 0 digits <=? 10)) eqn:Hrange;
     [| apply Hinv];
     destruct (decide (int_from 0 digits = num)) as [<-|Hne];
     [rewrite lookup_insert_eq; intros [= <-]; split; [lia | done]
     | rewrite lookup_insert_ne by exact Hne; apply Hinv]).
Qed.

Lemma size_within_ten (placeholders : gmap Z string) :
  (forall num p, placeholders !! num = Some p -> 1 <= num <= 10) ->
  (size placeholders <= 10)%nat.
Proof.
  intros Hkeys. rewrite <- size_dom.
  assert (Hsub : dom placeholders ⊆ list_to_set (seqZ 1 10)).
  { intros num [p Hp]%elem_of_dom. apply elem_of_list_to_set, elem_of_seqZ.
    specialize (Hkeys num p Hp). lia. }
  apply subseteq_size in Hsub. etrans; [exact Hsub |].
  rewrite size_list_to_set by apply NoDup_seqZ. now rewrite length_seqZ.
Qed.

(** X15.  [extract_skill_placeholders] raises on the empty text and on
    nothing else.  Every entry of the dictionary it returns has a key
    between 1 and 10 and, as its value, a piece of the text that reads as
    the prefix, whitespace, and decimal digits denoting that key, closed
    by a bracket; so there are at most ten entries, whatever limit the
    interpreter puts on the length of a number. *)
Theorem extract_skill_placeholders_slots (max_str_digits : option nat) (text : string) :
  (text = EmptyString ->
   extract_skill_placeholders max_str_digits text = Raised empty_text)
  /\ (text <> EmptyString ->
      exists placeholders,
        extract_skill_placeholders max_str_digits text = Returned placeholders
        /\ (size placeholders <= 10)%nat
        /\ forall num p, placeholders !! num = Some p ->
             1 <= num <= 10 /\ slot_for num p /\ occurs_in p text).
Proof.
  split; [now intros -> |]. intros Hne.
  unfold extract_skill_placeholders, validate_text.
  destruct text as [|c text]; [done |]. cbn [is_empty].
  eexists. split; [reflexivity |].
  assert (Hall : forall num p,
             fold_left (keep_placeholder max_str_digits)
               (find_skills (S (String.length (String c text))) (String c text)) ∅
               !! num = Some p ->
             1 <= num <= 10 /\ slot_for num p /\ occurs_in p (String c text)).
  { apply keep_placeholder_spec; [apply find_skills_spec |].
    intros num p Hp. now rewrite lookup_empty in Hp. }
  split; [| exact Hall].
  apply size_within_ten. intros num p Hp. now apply Hall in Hp.
Qed.

(** Pairing returns, with half as many pairs as there are slots. *)
Lemma pair_skills_by_length_returns (skills_dict skills_texts : gmap Z string) :
  exists pairs,
    pair_skills_by_length skills_dict skills_texts = Returned pairs
    /\ length pairs = (size skills_dict / 2)%nat.
Proof.
  set (keys := merge_sort Z.le (elements (dom skills_dict))).
  set (sorted := sorted_reverse shorter (slot_of skills_dict skills_texts <$> keys)).
  set (n := length sorted).
  set (dummy := slot_of skills_dict skills_texts 0).
  set (g := fun i : nat => render (default dummy (sorted !! i))
                              (default dummy (sorted !! (n - 1 - i)%nat))).
  assert (Hn : n = size skills_dict).
  { unfold n, sorted. rewrite sorted_reverse_Permutation, length_fmap.
    unfold keys. rewrite merge_sort_Permutation.
    now rewrite <- size_dom. }
  pose proof (half_bounds n) as (Hhalf & _ & _).
  exists (g <$> seq 0 (n / 2)). split; [| now rewrite length_fmap, length_seq, Hn].
  unfold pair_skills_by_length, try_except_pure, sorted_skills.
  rewrite skills_list_returns.
  change (Returned ?x ≫= ?k) with (k x). cbv beta.
  change (Returned ?x ≫= ?k) with (k x). cbv beta. fold keys sorted n.
  rewrite (mapM_Returned_fmap _ g); [reflexivity |].
  intros i Hi. apply elem_of_seq in Hi as [_ Hi].
  destruct (lookup_lt_is_Some_2 sorted i) as [x Hx]; [fold n; lia |].
  destruct (lookup_lt_is_Some_2 sorted (n - 1 - i)) as [y Hy]; [fold n; lia |].
  unfold pair_at, index, g. now rewrite Hx, Hy.
Qed.

(** X16.  [match_and_pair_skills] returns exactly when the text is not
    empty and holds slots for ten different skill numbers, and then it
    returns five pairs; otherwise it raises a [PlaceholderError] that
    says which of the two went wrong. *)
Theorem match_and_pair_skills_five_pairs (max_str_digits : option nat)
    (template_text : string) (skills_texts : gmap Z string) :
  (exists pairs placeholders,
     match_and_pair_skills max_str_digits template_text skills_texts = Returned pairs
     /\ length pairs = 5%nat
     /\ extract_skill_placeholders max_str_digits template_text = Returned placeholders
     /\ size placeholders = 10%nat
     /\ pair_skills_by_length placeholders skills_texts = Returned pairs)
  \/ (template_text = EmptyString
      /\ match_and_pair_skills max_str_digits template_text skills_texts
         = Raised (Exn PlaceholderError
                       "Failed to match and pair skills: Empty text provided" None))
  \/ (exists placeholders,
        extract_skill_placeholders max_str_digits template_text = Returned placeholders
        /\ size placeholders <> 10%nat
        /\ match_and_pair_skills max_str_digits template_text skills_texts
           = Raised (Exn PlaceholderError
                         ("Failed to match and pair skills: "
                          +:+ "Expected 10 skill placeholders, found "
                          +:+ pretty (size placeholders)) None)).
Proof.
  destruct template_text as [|c text]; [right; left; split; reflexivity |].
  destruct (extract_skill_placeholders_slots max_str_digits (String c text))
    as [_ Hsome].
  destruct Hsome as (placeholders & Hex & _); [discriminate |].
  unfold match_and_pair_skills, try_except_pure. rewrite Hex. cbn [validate_text is_empty].
  change (Returned ?x ≫= ?k) with (k x). cbv beta.
  change (Returned ?x ≫= ?k) with (k x). cbv beta.
  destruct (decide (size placeholders = 10%nat)) as [Hten|Hnot].
  - left. rewrite bool_decide_eq_false_2 by (intros H; now apply H).
    destruct (pair_skills_by_length_returns placeholders skills_texts)
      as (pairs & Hpairs & Hlen).
    exists pairs, placeholders. rewrite Hpairs. rewrite Hten in Hlen.
    split_and!; done.
  - right. right. exists placeholders. rewrite bool_decide_eq_true_2 by exact Hnot.
    split_and!; done.
Qed.

(** X17.  A template that [validate_template] accepts is not empty,
    holds the overview placeholder and a bullet placeholder, and can
    always be paired: [match_and_pair_skills] returns five pairs on it,
    whatever the skill texts. *)
Theorem validate_template_sound (max_str_digits : option nat) (template_text : string) :
  validate_template max_str_digits template_text = true ->
  template_text <> EmptyString
  /\ contains "<OverView>" template_text = true
  /\ any_suffix match_bullet template_text = true
  /\ forall skills_texts,
       exists pairs,
         match_and_pair_skills max_str_digits template_text skills_texts
         = Returned pairs
         /\ length pairs = 5%nat.
Proof.
  unfold validate_template.
  destruct template_text as [|c text]; [discriminate |]. cbn [validate_text is_empty].
  change (Returned ?x ≫= ?k) with (k x). cbv beta.
  destruct (contains "<OverView>" (String c text)) eqn:Hover; [| discriminate].
  change (Returned ?x ≫= ?k) with (k x). cbv beta.
  destruct (extract_skill_placeholders max_str_digits (String c text))
    as [placeholders|e] eqn:Hex; [| discriminate].
  change (Returned ?x ≫= ?k) with (k x). cbv beta.
  destruct (bool_decide (size placeholders <> 10%nat)) eqn:Hsize; [discriminate |].
  change (Returned ?x ≫= ?k) with (k x). cbv beta.
  destruct (any_suffix match_bullet (String c text)) eqn:Hbullet; [| discriminate].
  intros _. split_and!; try done.
  intros skills_texts.
  destruct (match_and_pair_skills_five_pairs max_str_digits (String c text) skills_texts)
    as [(pairs & _ & Hres & Hlen & _) | [[Hempty _] | (found & Hfound & Hnot & _)]].
  - now exists pairs.
  - discriminate.
  - rewrite Hex in Hfound. injection Hfound as <-.
    apply bool_decide_eq_false in Hsize. now apply dec_stable in Hsize.
Qed.

End Scanning.

(** The sample template validates, and pairs. *)
Lemma validate_template_sound_sample :
  PlaceholderScan.validate_template (Some 4300%nat) PlaceholderScan.sample_template = true
  /\ exists pairs,
       PlaceholderScan.match_and_pair_skills (Some 4300%nat)
         PlaceholderScan.sample_template Samples.skill_texts = Returned pairs
       /\ length pairs = 5%nat.
Proof.
  assert (H : PlaceholderScan.validate_template (Some 4300%nat)
                PlaceholderScan.sample_template = true)
    by (vm_compute; reflexivity).
  split; [exact H |].
  destruct (validate_template_sound (Some 4300%nat) PlaceholderScan.sample_template H)
    as (_ & _ & _ & Hpair).
  exact (Hpair Samples.skill_texts).
Defined.

Section ScanFuel.
Import PyString PyText PlaceholderScan.

(** [find_skills] visits every position with the fuel
    [extract_skill_placeholders] gives it. *)
Lemma find_skills_fuel (extra : nat) :
  forall (fuel : nat) (s : string),
    (String.length s < fuel)%nat ->
    find_skills (fuel + extra) s = find_skills fuel s.
Proof.
  induction fuel as [|fuel IH]; intros s Hfuel; [lia |].
  cbn [Nat.add find_skills].
  destruct (match_skill s) as [[[digits placeholder] rest]|] eqn:Hm.
  - apply match_skill_spec in Hm as [Hs (blank & ds & -> & _)].
    f_equal. apply IH. rewrite Hs in Hfuel.
    rewrite length_append in Hfuel. unfold skill_prefix in Hfuel.
    rewrite length_append in Hfuel. cbn in Hfuel. lia.
  - destruct s as [|c s]; [reflexivity |]. cbn in Hfuel.
    destruct fuel as [|fuel']; [lia |]. apply IH. lia.
Qed.

End ScanFuel.


(** ** The response check of the LLM handler *)

Section ResponseCheck.
Import PyString PyDictOps PyText PyItems LiteLLM.

Lemma required_present (d : list (string * py)) :
  filter (fun k => dict_lookup k d = None) required = []
  <-> is_Some (dict_lookup "choices" d) /\ is_Some (dict_lookup "usage" d)
      /\ is_Some (dict_lookup "model" d).
Proof.
  unfold required.
  destruct (dict_lookup "choices" d) as [c|] eqn:Hc;
    destruct (dict_lookup "usage" d) as [u|] eqn:Hu;
    destruct (dict_lookup "model" d) as [m|] eqn:Hm;
    repeat (first [rewrite filter_cons_True by (cbn; congruence)
                  | rewrite filter_cons_False by (cbn; congruence)]);
    rewrite ?filter_nil; split; try discriminate; try done;
    intros (H1 & H2 & H3); try (now destruct H1); try (now destruct H2);
    now destruct H3.
Qed.

(** X18.  [validate_response] returns exactly when the response is a
    dictionary with the keys [choices], [usage] and [model] whose
    [choices] is a list that starts with a dictionary holding [message].
    When it raises, the error is an [LLMError] unless [choices] is a
    number, [True] or a dictionary that is not empty: then the
    [TypeError] or the [KeyError] of the subscript escapes. *)
Theorem validate_response_accepts (response : py) :
  (validate_response response = Returned tt
   <-> exists d c rest,
         response = PyDict d
         /\ dict_lookup "choices" d = Some (PyList (PyDict c :: rest))
         /\ is_Some (dict_lookup "usage" d)
         /\ is_Some (dict_lookup "model" d)
         /\ is_Some (dict_lookup "message" c))
  /\ (forall e, validate_response response = Raised e ->
        exn_cls e = LLMError
        \/ exists d choices,
             response = PyDict d
             /\ dict_lookup "choices" d = Some choices
             /\ truthy choices = true
             /\ ((exn_cls e = TypeError /\ is_scalar choices = true)
                 \/ (exn_cls e = KeyError /\ exists entries, choices = PyDict entries))).
Proof.
  destruct response as [| | | | | |d|]; try (split; [split; [discriminate | intros (? & ? & ? & ? & _); discriminate] | intros e [= <-]; now left]).
  unfold validate_response.
  pose proof (required_present d) as Hreq.
  destruct (filter _ required) as [|k missing] eqn:Hmissing.
  - destruct Hreq as [Hreq _]. destruct (Hreq eq_refl) as ([choices Hc] & Husage & Hmodel).
    cbn [item]. rewrite Hc. change (Returned ?x ≫= ?k) with (k x). cbv beta.
    destruct (truthy choices) eqn:Htruthy; cbn [negb].
    2:{ split; [split; [discriminate |] | intros e [= <-]; now left].
        intros (d' & c & rest & [= <-] & Hc' & _). rewrite Hc in Hc'.
        injection Hc' as ->. discriminate Htruthy. }
    destruct choices as [|b|n|q|s|items|entries|attrs]; try discriminate Htruthy.
    + split; [split; [discriminate |] |].
      * intros (d' & c & rest & [= <-] & Hc' & _). congruence.
      * intros e [= <-]. right. exists d, (PyBool b). split_and!; try done. now left.
    + split; [split; [discriminate |] |].
      * intros (d' & c & rest & [= <-] & Hc' & _). congruence.
      * intros e [= <-]. right. exists d, (PyInt n). split_and!; try done. now left.
    + split; [split; [discriminate |] |].
      * intros (d' & c & rest & [= <-] & Hc' & _). congruence.
      * intros e [= <-]. right. exists d, (PyFloat q). split_and!; try done. now left.
    + destruct s as [|a s]; [discriminate Htruthy |]. cbn.
      split; [split; [discriminate |] | intros e [= <-]; now left].
      intros (d' & c & rest & [= <-] & Hc' & _). congruence.
    + destruct items as [|first items]; [discriminate Htruthy |]. cbn [item_0].
      change (Returned ?x ≫= ?k) with (k x). cbv beta.
      destruct first as [| | | | | |c|];
        try (split; [split; [discriminate |] | intros e [= <-]; now left];
             intros (d' & c & rest & [= <-] & Hc' & _); congruence).
      destruct (dict_lookup "message" c) as [m|] eqn:Hm.
      * split; [| discriminate]. split; [| reflexivity].
        intros _. exists d, c, items. rewrite Hm. split_and!; eauto.
      * split; [split; [discriminate |] | intros e [= <-]; now left].
        intros (d' & c' & rest & [= <-] & Hc' & _ & _ & Hm').
        rewrite Hc in Hc'. injection Hc' as <- <-. rewrite Hm in Hm'. now destruct Hm'.
    + cbn. split; [split; [discriminate |] |].
      * intros (d' & c & rest & [= <-] & Hc' & _). congruence.
      * intros e [= <-]. right. exists d, (PyDict entries). split_and!; try done.
        right. eauto.
    + cbn. split; [split; [discriminate |] |].
      * intros (d' & c & rest & [= <-] & Hc' & _). congruence.
      * intros e [= <-]. right. exists d, (PyObject attrs). split_and!; try done.
        now left.
  - split; [split; [discriminate |] | intros e [= <-]; now left].
    intros (d' & c & rest & [= <-] & Hc & Hu & Hm & _).
    destruct Hreq as [_ Hreq]. discriminate Hreq. split_and!; eauto.
Qed.

Lemma validate_response_structure (response : py) :
  validate_response response = Returned tt ->
  exists d c rest message usage model,
    response = PyDict d
    /\ dict_lookup "choices" d = Some (PyList (PyDict c :: rest))
    /\ dict_lookup "usage" d = Some usage
    /\ dict_lookup "model" d = Some model
    /\ dict_lookup "message" c = Some message.
Proof.
  destruct response as [| | | | | |d|]; try discriminate.
  unfold validate_response.
  pose proof (required_present d) as [Hreq _].
  destruct (filter _ required) as [|k missing]; [| discriminate].
  destruct (Hreq eq_refl) as ([choices Hc] & [usage Hu] & [model Hm]).
  cbn [item]. rewrite Hc. change (Returned ?x ≫= ?k) with (k x). cbv beta.
  destruct (truthy choices); [| discriminate]. cbn [negb].
  destruct choices as [| | | |[|a s]|[|first items]| |]; try discriminate.
  cbn [item_0]. change (Returned ?x ≫= ?k) with (k x). cbv beta.
  destruct first as [| | | | | |c|]; try discriminate.
  destruct (dict_lookup "message" c) as [message|] eqn:Hmsg; [| discriminate].
  intros _. exists d, c, items, message, usage, model. split_and!; done.
Qed.

(** X19.  When the check has passed, reading the answer still fails
    unless the [message] is a dictionary with a [content] and the first
    choice has a [finish_reason]: the read returns exactly then, with the
    fields of the answer, and else raises a [KeyError] or a
    [TypeError]. *)
Theorem read_response_after_check (response_dict : py) (latency : Q) :
  validate_response response_dict = Returned tt ->
  exists d c rest message,
    response_dict = PyDict d
    /\ dict_lookup "choices" d = Some (PyList (PyDict c :: rest))
    /\ dict_lookup "message" c = Some message
    /\ ((exists r, read_response response_dict latency = Returned r)
        <-> (exists fields, message = PyDict fields
                            /\ is_Some (dict_lookup "content" fields))
            /\ is_Some (dict_lookup "finish_reason" c))
    /\ (forall r, read_response response_dict latency = Returned r ->
          item message "content" = Returned (content r)
          /\ dict_lookup "finish_reason" c = Some (finish_reason r)
          /\ dict_lookup "model" d = Some (model r)
          /\ dict_lookup "usage" d = Some (usage r))
    /\ (forall e, read_response response_dict latency = Raised e ->
          exn_cls e = KeyError \/ exn_cls e = TypeError).
Proof.
  intros Hcheck.
  destruct (validate_response_structure _ Hcheck)
    as (d & c & rest & message & usage & model & -> & Hc & Hu & Hm & Hmsg).
  exists d, c, rest, message. split_and!; try done; unfold read_response;
    rewrite Hcheck;
    repeat (first [ progress (change (Returned ?x ≫= ?k) with (k x); cbv beta)
                  | progress cbn [item item_0]
                  | progress rewrite ?Hc, ?Hu, ?Hm, ?Hmsg ]).
  - destruct message as [| | | | | |fields|];
      try (split; [intros [r Hr]; discriminate Hr
                  | intros [(fields & Hf & _) _]; discriminate Hf]).
    cbn [item]. destruct (dict_lookup "content" fields) as [content|] eqn:Hcontent.
    + repeat (change (Returned ?x ≫= ?k) with (k x); cbv beta).
      destruct (dict_lookup "finish_reason" c) as [reason|] eqn:Hreason.
      * split; [| intros _; eexists; reflexivity].
        intros _. split; [exists fields; rewrite Hcontent |]; eauto.
      * split; [intros [r Hr]; discriminate Hr | intros [_ H]; now destruct H].
    + split; [intros [r Hr]; discriminate Hr |].
      intros [(fields' & [= <-] & H) _]. rewrite Hcontent in H. now destruct H.
  - intros r. destruct (item message "content") as [content|e]; [| discriminate].
    repeat (change (Returned ?x ≫= ?k) with (k x); cbv beta).
    destruct (dict_lookup "finish_reason" c) as [reason|]; [| discriminate].
    intros [= <-]. cbn. done.
  - intros e. destruct message as [| | | | | |fields|]; cbn [item];
      try (intros [= <-]; now right).
    destruct (dict_lookup "content" fields) as [content|]; [| intros [= <-]; now left].
    repeat (change (Returned ?x ≫= ?k) with (k x); cbv beta).
    destruct (dict_lookup "finish_reason" c) as [reason|]; [discriminate |].
    intros [= <-]. now left.
Qed.

End ResponseCheck.

(** A response that passes the check and cannot be read. *)
Lemma read_response_after_check_sample :
  LiteLLM.validate_response LiteLLM.sample_unreadable = Returned tt
  /\ exists e,
       LiteLLM.read_response LiteLLM.sample_unreadable 0 = Raised e
       /\ exn_cls e = TypeError.
Proof.
  assert (Hcheck : LiteLLM.validate_response LiteLLM.sample_unreadable = Returned tt)
    by reflexivity.
  split; [exact Hcheck |].
  destruct (read_response_after_check LiteLLM.sample_unreadable 0 Hcheck)
    as (d & c & rest & message & _ & _ & _ & _ & _ & Hraise).
  pose (e := Exn TypeError "string indices must be integers, not 'str'" None).
  assert (Hread : LiteLLM.read_response LiteLLM.sample_unreadable 0 = Raised e)
    by reflexivity.
  exists e. split; [exact Hread |].
  destruct (Hraise e Hread) as [Hkey|Htype]; [discriminate Hkey | exact Htype].
Defined.

(** A number of choices instead of the choices: the check raises, and
    not an [LLMError]. *)
Example validate_response_number_of_choices :
  LiteLLM.validate_response LiteLLM.sample_number_of_choices
  = Raised (Exn TypeError "'int' object is not subscriptable" None).
Proof. reflexivity. Qed.

(** ** The resume extractor *)

Section ResumeCleaning.
Import PyString PyDictOps PyText PyItems Helpers ApiInterface IterativeRefiner.
Import ResumeExtractor.
Context (E : Env).

Lemma dict_set_same_keys {V} (k : string) (v : V) (d : list (string * V)) :
  k ∈ d.*1 -> (dict_set k v d).*1 = d.*1.
Proof.
  induction d as [|[k0 v0] d IH]; cbn; [intros H; now apply elem_of_nil in H |].
  destruct (String.eqb k0 k) eqn:Hk.
  - apply String.eqb_eq in Hk as ->. reflexivity.
  - intros [->|Hin]%elem_of_cons; [now rewrite String.eqb_refl in Hk |].
    cbn. now rewrite IH.
Qed.

Lemma merge_parsed_keys (parsed : py) (keys : list string) :
  forall result r,
    keys ⊆ result.*1 ->
    merge_parsed parsed keys result = Returned r ->
    r.*1 = result.*1.
Proof.
  induction keys as [|key keys IH]; intros result r Hsub; cbn [merge_parsed].
  - now intros [= <-].
  - destruct (py_in key parsed) as [[|]|e]; try discriminate.
    + change (Returned true ≫= ?k) with (k true). cbv beta iota.
      destruct (item parsed key) as [value|e]; [| discriminate].
      change (Returned value ≫= ?k) with (k value). cbv beta.
      intros Hr. apply IH in Hr.
      * rewrite Hr. apply dict_set_same_keys, Hsub. left.
      * rewrite dict_set_same_keys by (apply Hsub; left).
        intros k Hk. apply Hsub. now right.
    + change (Returned false ≫= ?k) with (k false). cbv beta iota.
      apply IH. intros k Hk. apply Hsub. now right.
Qed.

Lemma merge_parsed_dict (d : list (string * py)) :
  merge_parsed (PyDict d) default_struct.*1 default_struct = Returned (merged d).
Proof.
  unfold merged, default_struct. cbn [fmap list_fmap fst snd merge_parsed py_in item].
  destruct (dict_lookup "objective" d) as [v1|];
    destruct (dict_lookup "skills_list" d) as [v2|];
    destruct (dict_lookup "jobs_section" d) as [v3|];
    destruct (dict_lookup "education" d) as [v4|];
    destruct (dict_lookup "certifications" d) as [v5|];
    reflexivity.
Qed.

(** X20.  Whatever [_clean_api_response] returns has exactly the five
    keys of the default structure, in its order.  A response that is
    falsy gives the default structure; a dictionary, or a text that
    decodes to one, gives the default structure with the values the
    dictionary has for those keys, its other keys dropped. *)
Theorem _clean_api_response_shape (response : py) :
  (forall r, _clean_api_response E response = Returned r ->
             r.*1 = default_struct.*1)
  /\ (truthy response = false ->
      _clean_api_response E response = Returned default_struct)
  /\ (forall d, response = PyDict d ->
        _clean_api_response E response = Returned (merged d))
  /\ (forall s d, response = PyStr s -> s <> EmptyString ->
        json_loads E (isolate_json s) = Returned (PyDict d) ->
        _clean_api_response E response = Returned (merged d)).
Proof.
  split_and!.
  - intros r. unfold _clean_api_response.
    destruct (truthy response); cbn [negb]; [| now intros [= <-]].
    destruct (if hasattr response "content" then _ else _) as [inner|e];
      [| discriminate].
    change (Returned inner ≫= ?k) with (k inner). cbv beta.
    destruct (match inner with PyStr s => parse_text E s | _ => Returned (inl inner) end)
      as [[parsed|early]|e] eqn:Hparsed; try discriminate.
    + change (Returned ?x ≫= ?k) with (k x). cbv beta iota.
      apply merge_parsed_keys. reflexivity.
    + change (Returned ?x ≫= ?k) with (k x). cbv beta iota. intros [= <-].
      destruct inner; try discriminate Hparsed.
      unfold parse_text in Hparsed.
      destruct (json_loads E _) as [v|e]; [discriminate |].
      destruct (is_class JSONDecodeError e); [| discriminate].
      destruct (ALLOW_PARTIAL_JSON_PARSE (CONFIG E)).
      * destruct (partial_json_salvage _); discriminate.
      * now injection Hparsed as <-.
  - intros Hfalsy. unfold _clean_api_response. now rewrite Hfalsy.
  - intros d ->. unfold _clean_api_response. cbn [truthy].
    destruct d as [|kv d]; [reflexivity |].
    rewrite bool_decide_eq_true_2 by discriminate. cbn [negb hasattr].
    change (Returned ?x ≫= ?k) with (k x). cbv beta.
    change (Returned ?x ≫= ?k) with (k x). cbv beta iota.
    apply merge_parsed_dict.
  - intros s d -> Hne Hload. unfold _clean_api_response. cbn [truthy hasattr].
    destruct s as [|c s]; [done |]. cbn [is_empty negb].
    change (Returned ?x ≫= ?k) with (k x). cbv beta iota.
    unfold parse_text. rewrite Hload.
    change (Returned ?x ≫= ?k) with (k x). cbv beta iota.
    apply merge_parsed_dict.
Qed.

(** An answer without content gives the default structure. *)
Lemma clean_empty_answer (result : option string) :
  result = None \/ result = Some EmptyString ->
  _clean_api_response E (answer_value result) = Returned default_struct.
Proof. intros [->| ->]; reflexivity. Qed.

(** X21.  [extract_resume_data] records at most one model request.  A
    record it returns carries the raw text and the file name it was
    given and the two readings of the clock, whatever the model said;
    an error it raises says that the extraction failed. *)
Theorem extract_resume_data_metadata (now_id now_date raw_text file_name : string)
    (w : World) :
  let run := extract_resume_data E now_id now_date raw_text file_name w in
  (length (api_calls run.2) <= S (length (api_calls w)))%nat
  /\ (forall r, run.1 = Extracted r ->
        rid r = now_id /\ ResumeExtractor.raw_text r = raw_text
        /\ source_file r = file_name /\ extraction_date r = now_date
        /\ length (api_calls run.2) = S (length (api_calls w)))
  /\ (forall msg, run.1 = ExtractionError msg ->
        starts_with "Failed to extract resume data: " msg = true).
Proof.
  cbv zeta. unfold extract_resume_data, extract_resume_body. unfold_eff.
  destruct (load_prompt E _) as [entry|e]; [| cbn [fst snd]; split_and!; [lia | discriminate |]].
  2:{ intros msg [= <-]. apply starts_with_app. }
  destruct (prompt_format entry _) as [prompt|e];
    [| cbn [fst snd]; split_and!; [lia | discriminate |]].
  2:{ intros msg [= <-]. apply starts_with_app. }
  pose proof (call_api_one_record E prompt (Some (system_message entry)) None w)
    as Hone.
  destruct (call_api E prompt _ None w) as [[result|e] w1]; cbn [fst snd] in *.
  - destruct (_clean_api_response E (answer_value result)) as [parsed|e];
      cbn [fst snd]; (split_and!; [lia | |]).
    + intros r [= <-]. cbn. split_and!; done.
    + discriminate.
    + discriminate.
    + intros msg [= <-]. apply starts_with_app.
  - split_and!; [lia | discriminate |]. intros msg [= <-]. apply starts_with_app.
Qed.

(** X22.  When the model call comes back with nothing, [None] or an
    empty text, [extract_resume_data] does not fail: it returns a resume
    with an empty objective and empty lists. *)
Theorem extract_resume_data_empty_answer (now_id now_date raw_text file_name : string)
    (w w' : World) (entry : prompt_entry) (prompt : string) (result : option string) :
  load_prompt E "resume_extraction_strict_prompt" = Returned entry ->
  prompt_format entry [("resume_text", PyStr raw_text)] = Returned prompt ->
  call_api E prompt (Some (system_message entry)) None w = (Returned result, w') ->
  result = None \/ result = Some EmptyString ->
  extract_resume_data E now_id now_date raw_text file_name w
  = (Extracted (empty_resume now_id now_date raw_text file_name), w').
Proof.
  intros Hload Hformat Hcall Hempty.
  unfold extract_resume_data, extract_resume_body. unfold_eff.
  rewrite Hload, Hformat, Hcall, (clean_empty_answer _ Hempty). reflexivity.
Qed.

End ResumeCleaning.

(** With no attempt allowed the call returns [None], and the resume is
    empty. *)
Lemma extract_resume_data_empty_answer_sample :
  (ResumeExtractor.extract_resume_data silent_extraction_env
     "20250227_120000" "2025-02-27 12:00:00" "Jane Doe, engineer" "jane.txt"
     initial_world).1
  = Extracted (ResumeExtractor.empty_resume "20250227_120000" "2025-02-27 12:00:00"
                 "Jane Doe, engineer" "jane.txt").
Proof.
  assert (Hcall : ApiInterface.call_api silent_extraction_env
                    "Extract: Jane Doe, engineer"
                    (Some (system_message (extraction_entry "resume_text"))) None
                    initial_world
                  = (Returned None,
                     (ApiInterface.call_api silent_extraction_env
                        "Extract: Jane Doe, engineer"
                        (Some "You extract data.") None initial_world).2))
    by (vm_compute; reflexivity).
  rewrite (extract_resume_data_empty_answer silent_extraction_env
             "20250227_120000" "2025-02-27 12:00:00"
             "Jane Doe, engineer" "jane.txt" initial_world _
             (extraction_entry "resume_text") "Extract: Jane Doe, engineer" None
             eq_refl eq_refl Hcall (or_introl eq_refl)).
  reflexivity.
Defined.

(** A reply that decodes to a number: the sanitizer of the resume
    extractor raises, where that of the job extractor returns defaults. *)
Example _clean_api_response_number :
  ResumeExtractor._clean_api_response
    (extraction_env default_CONFIG [("5", PyInt 5)] "unused") (PyStr "5")
  = Raised (Exn TypeError "argument of type 'int' is not iterable" None).
Proof. reflexivity. Qed.

(** ** The job extraction *)

Section FindFacts.
Import PyString PyText.

Lemma find_tail (sep : string) (c : ascii) (t : string) :
  find sep (String c t) = None -> find sep t = None.
Proof.
  cbn [find]. destruct (starts_with sep (String c t)); [discriminate |].
  now destruct (find sep t).
Qed.

Lemma find_head (sep : string) (c : ascii) (t : string) :
  find sep (String c t) = None -> starts_with sep (String c t) = false.
Proof. cbn [find]. now destruct (starts_with sep (String c t)). Qed.

Lemma find_empty (sep : string) :
  sep <> EmptyString -> find sep EmptyString = None.
Proof. destruct sep; [done | reflexivity]. Qed.

Lemma starts_with_prefix (sep p r : string) :
  starts_with sep p = true -> starts_with sep (p +:+ r) = true.
Proof.
  revert p. induction sep as [|a sep IH]; intros p; [reflexivity |].
  destruct p as [|b p]; [discriminate |]. rewrite append_cons. cbn.
  intros [Hab Hp]%andb_prop. rewrite Hab. now apply IH.
Qed.

Lemma find_prefix (sep p r : string) :
  find sep (p +:+ r) = None -> find sep p = None.
Proof.
  induction p as [|c p IH].
  - rewrite append_nil. intros Hr. apply find_empty. intros ->.
    destruct r; discriminate Hr.
  - rewrite append_cons. intros H.
    pose proof (find_head _ _ _ H) as Hhead. apply find_tail in H.
    cbn [find]. rewrite (IH H).
    destruct (starts_with sep (String c p)) eqn:Hp; [| reflexivity].
    apply (starts_with_prefix _ _ r) in Hp. rewrite append_cons in Hp. congruence.
Qed.

Lemma rstrip_is_prefix (t : string) : exists r, t = rstrip t +:+ r.
Proof.
  induction t as [|c t [r IH]]; [now exists EmptyString |]. cbn [rstrip].
  destruct (is_empty (rstrip t) && py_isspace c).
  - now exists (String c t).
  - exists r. rewrite append_cons. now rewrite <- IH.
Qed.

Lemma find_lstrip (sep t : string) : find sep t = None -> find sep (lstrip t) = None.
Proof.
  induction t as [|c t IH]; [done |]. intros H. cbn [lstrip].
  destruct (py_isspace c); [| exact H]. apply IH. now apply find_tail in H.
Qed.

Lemma find_strip (sep t : string) : find sep t = None -> find sep (strip t) = None.
Proof.
  intros H. apply find_lstrip. destruct (rstrip_is_prefix t) as [r Hr].
  rewrite Hr in H. now apply find_prefix in H.
Qed.

Lemma split_str_fuel_not_nil (fuel : nat) (sep s : string) :
  split_str_fuel fuel sep s <> [].
Proof. destruct fuel; cbn; [discriminate |]. now destruct (find sep s). Qed.

(** The last piece of a split holds no separator. *)
Lemma last_piece_no_sep (sep : string) :
  sep <> EmptyString ->
  forall (fuel : nat) (s : string),
    (String.length s <= fuel)%nat ->
    find sep (List.last (split_str_fuel fuel sep s) EmptyString) = None.
Proof.
  intros Hsep. induction fuel as [|fuel IH]; intros s Hfuel.
  - destruct s; [| cbn in Hfuel; lia]. now apply find_empty.
  - cbn [split_str_fuel]. destruct (find sep s) as [i|] eqn:Hfind; [| exact Hfind].
    pose proof (find_bound _ _ _ Hfind) as Hbound.
    assert (0 < String.length sep)%nat by (destruct sep; [done | cbn; lia]).
    specialize (IH (drop (i + String.length sep) s)).
    pose proof (split_str_fuel_not_nil fuel sep (drop (i + String.length sep) s)) as Hne.
    destruct (split_str_fuel fuel sep _) as [|p ps] eqn:Hsplit; [done |].
    change (List.last (take i s :: p :: ps) EmptyString)
      with (List.last (p :: ps) EmptyString).
    apply IH. rewrite drop_length. lia.
Qed.

End FindFacts.

Section JobExtracting.
Import PyString PyDictOps PyText PyItems Helpers ApiInterface IterativeRefiner.
Import JobExtractor JobExtraction.
Context (E : Env).

Lemma list_to_map_dict_lookup (d : list (string * py)) (k : string) :
  (list_to_map d : gmap string py) !! k = dict_lookup k d.
Proof.
  induction d as [|[k0 v0] d IH]; [apply lookup_empty |]. cbn.
  destruct (String.eqb_spec k0 k) as [->|Hne].
  - apply lookup_insert_eq.
  - rewrite lookup_insert_ne by exact Hne. exact IH.
Qed.

(** After the two lines on the posting date, the date holds no
    [Apply by]; nothing else has changed. *)
Lemma fix_posting_date_spec (job_data fixed : gmap string py) :
  fix_posting_date job_data = Returned fixed ->
  py_in apply_by (get_or_empty fixed "posting_date") = Returned false
  /\ forall k, k <> "posting_date" -> fixed !! k = job_data !! k.
Proof.
  unfold fix_posting_date.
  destruct (py_in apply_by (get_or_empty job_data "posting_date"))
    as [[|]|e] eqn:Hin; [| | discriminate].
  - change (Returned true ≫= ?k) with (k true). cbv beta iota.
    destruct (job_data !! "posting_date") as [[| | | |s| | |]|]; try discriminate.
    intros [= <-]. split.
    + unfold get_or_empty. rewrite lookup_insert_eq. cbn [default from_option id py_in].
      unfold contains, last_piece, split_str.
      rewrite (find_strip apply_by), bool_decide_eq_false_2;
        [reflexivity | intros [? ?]; discriminate |].
      apply last_piece_no_sep; [discriminate | lia].
    + intros k Hk. now rewrite lookup_insert_ne.
  - change (Returned false ≫= ?k) with (k false). cbv beta iota.
    intros [= <-]. split; [exact Hin | reflexivity].
Qed.

Lemma from_dict_metadata (now_id now_date raw file : string) (data : gmap string py) :
  let job := from_dict (add_metadata now_id now_date raw file data) in
  jid job = PyStr now_id /\ raw_text job = PyStr raw
  /\ source_file job = PyStr file /\ extraction_date job = PyStr now_date
  /\ title job = get_or_empty data "Title"
  /\ company job = get_or_empty data "Company Name"
  /\ location job = get_or_empty data "Location"
  /\ field job = get_or_empty data "field"
  /\ salary job = get_or_empty data "Salary"
  /\ posting_date job = get_or_empty data "posting_date"
  /\ cleaned_description job = get_or_empty data "cleaned_description".
Proof.
  cbv zeta. unfold from_dict, add_metadata, get_or_empty. cbn [jid raw_text source_file
    extraction_date title company location field salary posting_date
    cleaned_description].
  split_and!;
    repeat (first [ rewrite lookup_insert_eq | rewrite lookup_insert_ne by done ]);
    reflexivity.
Qed.

(** X23.  [extract_job_data] records at most one model request.  In a
    record it returns, the identifier, the raw text, the file name and
    the extraction date are those of this run, whatever the model put
    under these keys, and the posting date holds no [Apply by]; an error
    it raises says that the extraction failed. *)
Theorem extract_job_data_metadata (now_id now_date raw file : string) (w : World) :
  let run := extract_job_data E now_id now_date raw file w in
  (length (api_calls run.2) <= S (length (api_calls w)))%nat
  /\ (forall job, run.1 = Extracted job ->
        jid job = PyStr now_id /\ raw_text job = PyStr raw
        /\ source_file job = PyStr file /\ extraction_date job = PyStr now_date
        /\ py_in apply_by (posting_date job) = Returned false
        /\ length (api_calls run.2) = S (length (api_calls w)))
  /\ (forall msg, run.1 = ExtractionError msg ->
        starts_with "Failed to extract job data: " msg = true).
Proof.
  cbv zeta. unfold extract_job_data, extract_job_body. unfold_eff.
  destruct (load_prompt E _) as [entry|e];
    [| cbn [fst snd]; split_and!; [lia | discriminate |]].
  2:{ intros msg [= <-]. apply starts_with_app. }
  destruct (prompt_format entry _) as [prompt|e];
    [| cbn [fst snd]; split_and!; [lia | discriminate |]].
  2:{ intros msg [= <-]. apply starts_with_app. }
  pose proof (call_api_one_record E prompt (Some (system_message entry)) None w)
    as Hone.
  destruct (call_api E prompt _ None w) as [[[[|c s]|]|e] w1]; cbn [fst snd] in *;
    try (split_and!; [lia | discriminate | intros msg [= <-]; apply starts_with_app]).
  destruct (parse_answer E (String c s)) as [parsed|e]; cbn [fst snd];
    [| split_and!; [lia | discriminate | intros msg [= <-]; apply starts_with_app]].
  destruct (fix_posting_date parsed) as [fixed|e] eqn:Hfix; cbn [fst snd];
    [| split_and!; [lia | discriminate | intros msg [= <-]; apply starts_with_app]].
  split_and!; [lia | | discriminate].
  intros job [= <-].
  destruct (from_dict_metadata now_id now_date raw file fixed)
    as (H1 & H2 & H3 & H4 & _ & _ & _ & _ & _ & H5 & _).
  apply fix_posting_date_spec in Hfix as [Hdate _].
  rewrite H5. split_and!; done.
Qed.

(** X24.  When the model call comes back with nothing, [None] or an
    empty text, [extract_job_data] fails with the empty-response
    message, and no sanitizer is consulted. *)
Theorem extract_job_data_empty_answer (now_id now_date raw file : string)
    (w w' : World) (entry : prompt_entry) (prompt : string) (result : option string) :
  load_prompt E "job_extraction_prompt" = Returned entry ->
  prompt_format entry [("raw_text", PyStr raw)] = Returned prompt ->
  call_api E prompt (Some (system_message entry)) None w = (Returned result, w') ->
  result = None \/ result = Some EmptyString ->
  extract_job_data E now_id now_date raw file w
  = (ExtractionError "Failed to extract job data: Empty API response", w').
Proof.
  intros Hload Hformat Hcall Hempty.
  unfold extract_job_data, extract_job_body. unfold_eff.
  rewrite Hload, Hformat, Hcall. now destruct Hempty as [-> | ->].
Qed.

Lemma cleaned_field (record : gmap string string) (key : string) :
  dom record = dom default_data -> key ∈ required_fields ->
  exists text, (PyStr <$> record) !! key = Some (PyStr text).
Proof.
  intros Hdom Hkey.
  assert (Hin : key ∈ dom record).
  { rewrite Hdom, dom_default_data. now apply elem_of_list_to_set. }
  apply elem_of_dom in Hin as [text Htext]. exists text.
  now rewrite lookup_fmap, Htext.
Qed.

(** X25.  When the answer is not empty and cannot be decoded as it
    stands, the extraction does not fail: the sanitizer takes over, and
    each of the seven fields of the schema is a text in the record, the
    posting date without [Apply by]. *)
Theorem extract_job_data_falls_back (now_id now_date raw file : string)
    (w w' : World) (entry : prompt_entry) (prompt answer : string) (e : exn) :
  load_prompt E "job_extraction_prompt" = Returned entry ->
  prompt_format entry [("raw_text", PyStr raw)] = Returned prompt ->
  call_api E prompt (Some (system_message entry)) None w
    = (Returned (Some answer), w') ->
  answer <> EmptyString ->
  json_loads E (strip answer) = Raised e ->
  exists job,
    extract_job_data E now_id now_date raw file w = (Extracted job, w')
    /\ is_text (title job) /\ is_text (company job) /\ is_text (location job)
    /\ is_text (field job) /\ is_text (salary job) /\ is_text (posting_date job)
    /\ is_text (cleaned_description job).
Proof.
  intros Hload Hformat Hcall Hne Hdecode.
  unfold extract_job_data, extract_job_body. unfold_eff.
  rewrite Hload, Hformat, Hcall. destruct answer as [|c s]; [done |].
  unfold parse_answer. rewrite Hdecode.
  destruct (clean_api_response_dom E (PyStr (String c s))) as (record & -> & Hdom).
  assert (Hfield : forall key, key ∈ required_fields ->
             exists text, (PyStr <$> record) !! key = Some (PyStr text))
    by (intros key; now apply cleaned_field).
  destruct (Hfield "posting_date") as [date Hdate]; [set_solver |].
  assert (Hfix : exists fixed date',
             fix_posting_date (PyStr <$> record) = Returned fixed
             /\ fixed !! "posting_date" = Some (PyStr date')
             /\ forall k, k <> "posting_date" -> fixed !! k = (PyStr <$> record) !! k).
  { unfold fix_posting_date, get_or_empty. rewrite Hdate. cbn [default from_option id py_in].
    change (Returned ?x ≫= ?k) with (k x). cbv beta.
    destruct (contains apply_by date).
    - eexists. eexists. split; [reflexivity |].
      split; [apply lookup_insert_eq |]. intros k Hk. now rewrite lookup_insert_ne.
    - exists (PyStr <$> record), date. split_and!; done. }
  destruct Hfix as (fixed & date' & -> & Hdate' & Hsame). cbn [fst snd].
  eexists. split; [reflexivity |].
  destruct (from_dict_metadata now_id now_date raw file fixed)
    as (_ & _ & _ & _ & -> & -> & -> & -> & -> & -> & ->).
  unfold is_text, get_or_empty. rewrite Hdate'.
  split_and!; try (eexists; reflexivity);
    rewrite Hsame by done;
    match goal with |- context [(PyStr <$> record) !! ?key] =>
      destruct (Hfield key) as [text ->]; [set_solver |] end;
    eexists; reflexivity.
Qed.

(** X26.  A posting date that is not a text, a list or a dictionary, a
    JSON [null] for one, makes the extraction fail on the directly
    decoded answer: the membership test on it raises. *)
Theorem extract_job_data_date_not_iterable (now_id now_date raw file : string)
    (w w' : World) (entry : prompt_entry) (prompt answer : string)
    (d : list (string * py)) (date : py) (e : exn) :
  load_prompt E "job_extraction_prompt" = Returned entry ->
  prompt_format entry [("raw_text", PyStr raw)] = Returned prompt ->
  call_api E prompt (Some (system_message entry)) None w
    = (Returned (Some answer), w') ->
  answer <> EmptyString ->
  json_loads E (strip answer) = Returned (PyDict d) ->
  dict_lookup "posting_date" d = Some date ->
  py_in apply_by date = Raised e ->
  extract_job_data E now_id now_date raw file w
  = (ExtractionError ("Failed to extract job data: " +:+ exn_msg e), w').
Proof.
  intros Hload Hformat Hcall Hne Hdecode Hdate Hin.
  unfold extract_job_data, extract_job_body. unfold_eff.
  rewrite Hload, Hformat, Hcall. destruct answer as [|c s]; [done |].
  unfold parse_answer. rewrite Hdecode. cbn [fst snd].
  unfold fix_posting_date, get_or_empty.
  rewrite list_to_map_dict_lookup, Hdate. cbn [default from_option id]. rewrite Hin. reflexivity.
Qed.

End JobExtracting.

(** With no attempt allowed the call returns [None]: the job extraction
    fails where the resume extraction returns an empty resume. *)
Lemma extract_job_data_empty_answer_sample :
  (JobExtraction.extract_job_data silent_extraction_env
     "20250227_120000" "2025-02-27 12:00:00" "Engineer wanted" "job.txt"
     initial_world).1
  = ExtractionError "Failed to extract job data: Empty API response".
Proof.
  assert (Hcall : ApiInterface.call_api silent_extraction_env
                    "Extract: Engineer wanted"
                    (Some (system_message (extraction_entry "raw_text"))) None
                    initial_world
                  = (Returned None,
                     (ApiInterface.call_api silent_extraction_env
                        "Extract: Engineer wanted"
                        (Some "You extract data.") None initial_world).2))
    by (vm_compute; reflexivity).
  rewrite (extract_job_data_empty_answer silent_extraction_env
             "20250227_120000" "2025-02-27 12:00:00" "Engineer wanted" "job.txt"
             initial_world _ (extraction_entry "raw_text")
             "Extract: Engineer wanted" None
             eq_refl eq_refl Hcall (or_introl eq_refl)).
  reflexivity.
Defined.

(** An answer in prose: the sanitizer fills the record with defaults. *)
Lemma extract_job_data_falls_back_sample :
  exists job,
    (JobExtraction.extract_job_data (posting_env "no json here")
       "20250227_120000" "2025-02-27 12:00:00" "Engineer wanted" "job.txt"
       initial_world).1 = Extracted job
    /\ JobExtraction.title job = PyStr "UNKNOWN"
    /\ JobExtraction.is_text (JobExtraction.posting_date job).
Proof.
  assert (Hcall : ApiInterface.call_api (posting_env "no json here")
                    "Extract: Engineer wanted"
                    (Some (system_message (extraction_entry "raw_text"))) None
                    initial_world
                  = (Returned (Some "no json here"),
                     (ApiInterface.call_api (posting_env "no json here")
                        "Extract: Engineer wanted"
                        (Some "You extract data.") None initial_world).2))
    by (vm_compute; reflexivity).
  destruct (extract_job_data_falls_back (posting_env "no json here")
              "20250227_120000" "2025-02-27 12:00:00" "Engineer wanted" "job.txt"
              initial_world _ (extraction_entry "raw_text")
              "Extract: Engineer wanted" "no json here" Samples.decode_error
              eq_refl eq_refl Hcall ltac:(discriminate) eq_refl)
    as (job & Hrun & _ & _ & _ & _ & _ & Hdate & _).
  exists job. rewrite Hrun. split; [reflexivity |]. split; [| exact Hdate].
  vm_compute in Hrun. now injection Hrun as <-.
Defined.

(** A posting without a date, given as [null]. *)
Lemma extract_job_data_date_not_iterable_sample :
  (JobExtraction.extract_job_data (posting_env sample_undated_json)
     "20250227_120000" "2025-02-27 12:00:00" "Engineer wanted" "job.txt"
     initial_world).1
  = ExtractionError
      "Failed to extract job data: argument of type 'NoneType' is not iterable".
Proof.
  assert (Hcall : ApiInterface.call_api (posting_env sample_undated_json)
                    "Extract: Engineer wanted"
                    (Some (system_message (extraction_entry "raw_text"))) None
                    initial_world
                  = (Returned (Some sample_undated_json),
                     (ApiInterface.call_api (posting_env sample_undated_json)
                        "Extract: Engineer wanted"
                        (Some "You extract data.") None initial_world).2))
    by (vm_compute; reflexivity).
  rewrite (extract_job_data_date_not_iterable (posting_env sample_undated_json)
             "20250227_120000" "2025-02-27 12:00:00" "Engineer wanted" "job.txt"
             initial_world _ (extraction_entry "raw_text")
             "Extract: Engineer wanted" sample_undated_json
             [("Title", PyStr "Engineer"); ("posting_date", PyNone)] PyNone
             (Exn TypeError "argument of type 'NoneType' is not iterable" None)
             eq_refl eq_refl Hcall ltac:(discriminate) eq_refl eq_refl eq_refl).
  reflexivity.
Defined.

(** A deadline in the posting date: the date that follows is kept, and
    the identifier the model made up is replaced. *)
Example extract_job_data_deadline :
  exists job,
    (JobExtraction.extract_job_data (posting_env sample_posting_json)
       "20250227_120000" "2025-02-27 12:00:00" "Engineer wanted" "job.txt"
       initial_world).1 = Extracted job
    /\ JobExtraction.posting_date job = PyStr "30 June"
    /\ JobExtraction.jid job = PyStr "20250227_120000"
    /\ JobExtraction.company job = PyStr EmptyString.
Proof. eexists. split; [vm_compute; reflexivity |]. repeat split. Qed.


(** ** What the job sanitizer keeps of a dictionary *)

Section SanitizedValues.
Import PyString PyDictOps Helpers JobExtractor.
Context (E : Env).

Lemma dict_set_fresh {V} (k : string) (v : V) (d : list (string * V)) :
  k ∉ d.*1 -> dict_set k v d = (d ++ [(k, v)])%list.
Proof.
  induction d as [|[k0 v0] d IH]; [reflexivity |]. cbn.
  intros Hk. apply not_elem_of_cons in Hk as [Hne Hk].
  destruct (String.eqb_spec k0 k) as [->|_]; [done |]. now rewrite IH.
Qed.

Lemma dict_of_pairs_NoDup {V} (l : list (string * V)) :
  NoDup l.*1 -> dict_of_pairs l = l.
Proof.
  unfold dict_of_pairs.
  assert (Hgen : forall acc : list (string * V),
             NoDup ((acc ++ l)%list).*1 ->
             fold_left (fun d kv => dict_set kv.1 kv.2 d) l acc = (acc ++ l)%list).
  { induction l as [|[k v] l IH]; intros acc Hnd; cbn; [now rewrite app_nil_r |].
    rewrite fmap_app in Hnd. apply NoDup_app in Hnd as (Hacc & Hdisj & Hl).
    cbn in Hl. apply NoDup_cons in Hl as [Hk Hl].
    rewrite dict_set_fresh by (intros Hin; apply (Hdisj k Hin); left).
    rewrite IH; [now rewrite <- app_assoc |].
    rewrite <- app_assoc. cbn. rewrite fmap_app. cbn.
    apply NoDup_app. split_and!; [exact Hacc | exact Hdisj |].
    now apply NoDup_cons. }
  intros Hnd. now rewrite Hgen.
Qed.

Lemma update_lookup_NoDup (l : list (string * string)) :
  NoDup l.*1 ->
  forall (m : gmap string string) (k : string),
    update m l !! k = match dict_lookup k l with
                      | Some v => Some v
                      | None => m !! k
                      end.
Proof.
  unfold update. induction l as [|[k0 v0] l IH]; intros Hnd m k; [reflexivity |].
  cbn in Hnd. apply NoDup_cons in Hnd as [Hk0 Hnd]. cbn.
  rewrite (IH Hnd). destruct (String.eqb_spec k0 k) as [->|Hne].
  - assert (Hnone : dict_lookup k l = None).
    { clear -Hk0. induction l as [|[k1 v1] l IH]; [reflexivity |]. cbn in *.
      apply not_elem_of_cons in Hk0 as [Hne Hk0].
      destruct (String.eqb_spec k1 k) as [->|_]; [done | auto]. }
    rewrite Hnone. apply lookup_insert_eq.
  - destruct (dict_lookup k l); [reflexivity |]. now apply lookup_insert_ne.
Qed.

Lemma kept_entries_lookup (f : py -> string) (d : list (string * py)) (k : string) :
  k ∈ dom default_data ->
  dict_lookup k ((fun kv => (kv.1, f kv.2))
                   <$> filter (fun kv => kv.1 ∈ dom default_data) d)
  = f <$> dict_lookup k d.
Proof.
  intros Hk. induction d as [|[k0 v0] d IH]; [reflexivity |]. cbn [dict_lookup].
  destruct (String.eqb_spec k0 k) as [->|Hne].
  - rewrite filter_cons_True by exact Hk. cbn. now rewrite String.eqb_refl.
  - destruct (decide (k0 ∈ dom default_data)).
    + rewrite filter_cons_True by assumption. cbn.
      destruct (String.eqb_spec k0 k); [done | exact IH].
    + rewrite filter_cons_False by assumption. exact IH.
Qed.

Lemma kept_entries_NoDup (f : py -> string) (d : list (string * py)) :
  NoDup d.*1 ->
  NoDup ((fun kv => (kv.1, f kv.2))
           <$> filter (fun kv => kv.1 ∈ dom default_data) d).*1.
Proof.
  intros Hnd. rewrite <- list_fmap_compose.
  induction d as [|[k0 v0] d IH]; [constructor |].
  cbn in Hnd. apply NoDup_cons in Hnd as [Hk0 Hnd].
  destruct (decide (k0 ∈ dom default_data)).
  - rewrite filter_cons_True by assumption. cbn. apply NoDup_cons. split; [| auto].
    intros Hin. apply Hk0. apply list_elem_of_fmap in Hin as ([k1 v1] & -> & Hin).
    apply list_elem_of_filter in Hin as [_ Hin].
    apply list_elem_of_fmap. now exists (k1, v1).
  - rewrite filter_cons_False by assumption. auto.
Qed.

(** The record made of a dictionary. *)
Lemma sanitized_dict (d : list (string * py)) (k : string) :
  NoDup d.*1 -> k ∈ required_fields ->
  update default_data (schema_entries E d) !! k
  = Some (default "UNKNOWN" (py_str E <$> dict_lookup k d)).
Proof.
  intros Hnd Hk. unfold schema_entries.
  assert (Hdom : k ∈ dom default_data)
    by (rewrite dom_default_data; now apply elem_of_list_to_set).
  pose proof (kept_entries_NoDup (py_str E) d Hnd) as Hkept.
  rewrite (dict_of_pairs_NoDup _ Hkept), (update_lookup_NoDup _ Hkept).
  rewrite (kept_entries_lookup (py_str E) d k Hdom).
  destruct (dict_lookup k d) as [v|]; cbn [fmap option_fmap option_map];
    [reflexivity |].
  apply elem_of_dom in Hdom as [v Hv]. rewrite Hv. f_equal.
  now apply default_data_lookup in Hv.
Qed.

(** X27.  Of a dictionary, given as such or as a text that decodes to
    it once the fence is stripped and the braces are isolated, the job
    sanitizer keeps for every field of the schema the [str] of the value
    the dictionary has for it, and [UNKNOWN] when it has none. *)
Theorem clean_api_response_of_dict (response : py) (d : list (string * py)) :
  response = PyDict d
  \/ (exists s text, response = PyStr s /\ normalize_text s = Returned text
                     /\ json_loads E text = Returned (PyDict d)) ->
  NoDup d.*1 ->
  exists record,
    clean_api_response E response = Returned record
    /\ forall k, k ∈ required_fields ->
         record !! k = Some (default "UNKNOWN" (py_str E <$> dict_lookup k d)).
Proof.
  intros Hresponse Hnd.
  exists (update default_data (schema_entries E d)).
  split; [| intros k Hk; now apply sanitized_dict].
  unfold clean_api_response, try_except_pure.
  destruct Hresponse as [-> | (s & text & -> & Hnorm & Hload)].
  - reflexivity.
  - cbn [unwrap hasattr]. change (Returned ?x ≫= ?k) with (k x). cbv beta iota.
    unfold parse_text. rewrite Hnorm.
    change (Returned ?x ≫= ?k) with (k x). cbv beta.
    rewrite Hload. reflexivity.
Qed.

End SanitizedValues.

(** The fenced answer of the end-to-end example. *)
Lemma clean_api_response_of_dict_engineer :
  exists record,
    JobExtractor.clean_api_response Samples.engineer_env (PyStr Samples.engineer_raw)
    = Returned record
    /\ record !! "Title" = Some "Engineer"
    /\ record !! "Location" = Some "UNKNOWN".
Proof.
  destruct (clean_api_response_of_dict Samples.engineer_env
              (PyStr Samples.engineer_raw)
              [("Title", PyStr "Engineer"); ("Level", PyStr "Senior")])
    as (record & Hrun & Hfields).
  - right. exists Samples.engineer_raw, Samples.engineer_json.
    split; [reflexivity |]. split; vm_compute; reflexivity.
  - repeat constructor; set_solver.
  - exists record. split; [exact Hrun |]. split.
    + rewrite (Hfields "Title") by (vm_compute; set_solver). reflexivity.
    + rewrite (Hfields "Location") by (vm_compute; set_solver). reflexivity.
Defined.


(** ** The cost of the bullets stage, and a count of zero resumes *)

Section StageCost.
Import PyString PyDictOps PyBuiltins ApiInterface IterativeRefiner MatchOptimizer.
Context (E : Env).

Lemma refine_section_calls (text section_name : string) (max_iterations : Z)
    (w w' : World) (r : outcome string) :
  refine_section E text section_name max_iterations w = (r, w') ->
  (length (api_calls w') <= length (api_calls w) + Z.to_nat max_iterations + 1)%nat.
Proof.
  unfold refine_section. unfold_eff.
  destruct (validate_section_limits _ _) as [limits|e0]; [| intros [= <- <-]; lia].
  destruct (refine_loop E _ limits section_name max_iterations text 0 w)
    as [[[t j]|e0] w1] eqn:Hloop;
    apply refine_loop_run in Hloop as (Hn & _ & _); [| intros [= <- <-]; lia].
  destruct (j >=? max_iterations).
  - destruct (summarize E limits section_name text w1) as [[x|e0] w2] eqn:Hsum;
      apply summarize_run in Hsum as [Hone _]; intros [= <- <-]; lia.
  - intros [= <- <-]. lia.
Qed.

Lemma refine_section_value_calls (v : py) (section_name : string)
    (w w' : World) (r : outcome string) :
  refine_section_value E v section_name w = (r, w') ->
  (length (api_calls w') <= length (api_calls w) + 3)%nat.
Proof.
  destruct v as [| | | |s| | |]; cbn [refine_section_value];
    try (unfold_eff; destruct (validate_section_limits _ _);
         intros [= <- <-]; lia).
  intros Hrun. apply refine_section_calls in Hrun.
  change (Z.to_nat default_max_iterations) with 2%nat in Hrun. lia.
Qed.

Lemma refine_bullet_calls (bullet : py) (w w' : World) (r : outcome py) :
  refine_bullet E bullet w = (r, w') ->
  (length (api_calls w') <= length (api_calls w) + 6)%nat.
Proof.
  unfold refine_bullet. unfold_eff.
  destruct (get bullet "bolded_overview" _) as [o|e]; [| intros [= <- <-]; lia].
  destruct (refine_section_value E o _ w) as [[o'|e] w1] eqn:Ho;
    apply refine_section_value_calls in Ho; [| intros [= <- <-]; lia].
  destruct bullet as [| | | | | |d|]; try (intros [= <- <-]; lia).
  cbn [get].
  destruct (refine_section_value E _ _ w1) as [[t'|e] w2] eqn:Ht;
    apply refine_section_value_calls in Ht; intros [= <- <-]; lia.
Qed.

Lemma refine_bullets_calls (items : list py) :
  forall (w w' : World) (r : outcome (list py)),
    refine_bullets E items w = (r, w') ->
    (length (api_calls w') <= length (api_calls w) + 6 * length items)%nat.
Proof.
  induction items as [|bullet items IH]; intros w w' r; cbn [refine_bullets].
  - intros [= <- <-]. lia.
  - unfold_eff.
    destruct (refine_bullet E bullet w) as [[b|e] w1] eqn:Hb;
      apply refine_bullet_calls in Hb; [| intros [= <- <-]; cbn; lia].
    destruct (refine_bullets E items w1) as [[bs|e] w2] eqn:Hbs;
      apply IH in Hbs; intros [= <- <-]; cbn [length]; lia.
Qed.

Lemma ask_one_record (prompt system_message : string) (w : World) :
  length (api_calls (ask E prompt system_message w).2) = S (length (api_calls w)).
Proof.
  unfold ask, choose_provider. unfold_eff.
  now rewrite call_api_one_record.
Qed.

(** X28.  A bullets stage that returns has made at most one request for
    the bullets and six for each bullet it returns: three at most to
    refine its overview, three at most to refine its description. *)
Theorem optimize_bullets_effort (bullets : list Bullet) (job_description : string)
    (w w' : World) (out : list py) :
  optimize_bullets E bullets job_description w = (Returned out, w') ->
  (length (api_calls w') <= length (api_calls w) + 1 + 6 * length out)%nat.
Proof.
  unfold optimize_bullets. unfold_eff.
  destruct bullets as [|b0 bs]; [discriminate |].
  match goal with |- context [ask E ?p ?s w] =>
    pose proof (ask_one_record p s w) as Hask;
    destruct (ask E p s w) as [[[answer|]|e] w1] end; try discriminate.
  cbn [snd] in Hask.
  destruct (is_empty answer); [discriminate |].
  destruct (json_loads E answer) as [[| | | | |items| |]|e]; try discriminate.
  destruct (refine_bullets E items w1) as [[out'|e] w2] eqn:Hrun; [| discriminate].
  intros [= <- <-].
  pose proof (refine_bullets_well_formed E items _ _ _ Hrun) as [_ Hlen].
  apply refine_bullets_calls in Hrun. lia.
Qed.

(** X29.  With [TOP_RESUME_COUNT] set to zero no resume is selected,
    and [optimize_match_from] returns [None] without a model request,
    whatever the resumes. *)
Theorem optimize_match_with_no_selection (all_resumes : list Resume)
    (job_data : JobData) (w : World) :
  TOP_RESUME_COUNT (CONFIG E) = Some 0 ->
  select_top_resumes (CONFIG E) all_resumes = []
  /\ optimize_match_from E all_resumes job_data w = (Returned None, w).
Proof.
  intros Hzero.
  assert (Hnone : select_top_resumes (CONFIG E) all_resumes = []).
  { unfold select_top_resumes, slice_to. rewrite Hzero. reflexivity. }
  split; [exact Hnone |].
  unfold optimize_match_from. destruct all_resumes as [|r0 rs]; [reflexivity |].
  rewrite Hnone. reflexivity.
Qed.

End StageCost.

(** The bullets of the run in which the model left fields out: one
    request, within the bound. *)
Lemma optimize_bullets_effort_sample :
  exists out,
    (MatchOptimizer.optimize_bullets sample_bullets_env sample_bullets
       "Builds data pipelines." initial_world).1 = Returned out
    /\ (length (api_calls
          (MatchOptimizer.optimize_bullets sample_bullets_env sample_bullets
             "Builds data pipelines." initial_world).2)
        <= 0 + 1 + 6 * length out)%nat.
Proof.
  pose (out := [PyDict [("description", PyStr "Led the migration.");
                        ("bolded_overview", PyStr EmptyString)];
                PyDict [("bolded_overview", PyStr EmptyString);
                        ("description", PyStr EmptyString)]]).
  assert (Hrun : MatchOptimizer.optimize_bullets sample_bullets_env sample_bullets
                   "Builds data pipelines." initial_world
                 = (Returned out,
                    (MatchOptimizer.optimize_bullets sample_bullets_env sample_bullets
                       "Builds data pipelines." initial_world).2))
    by (vm_compute; reflexivity).
  exists out. split; [vm_compute; reflexivity |].
  exact (optimize_bullets_effort sample_bullets_env sample_bullets
           "Builds data pipelines." initial_world _ out Hrun).
Defined.

(** Three resumes, none selected. *)
Lemma optimize_match_with_no_selection_sample :
  MatchOptimizer.optimize_match_from sample_no_resumes_env sample_resumes
    Samples.job initial_world = (Returned None, initial_world).
Proof.
  exact (proj2 (optimize_match_with_no_selection sample_no_resumes_env
                  sample_resumes Samples.job initial_world eq_refl)).
Defined.
